(** * ghaze: the GitHub trending reporter (main.py)

    A shallow embedding of [GitHubTrendingReporter] and of the library
    calls it relies on, followed by the properties of the cache policy,
    the scraper, the renderer and the refresh pipeline.

    Conventions of the embedding.
    - A Python [str] is a [string]: the sequence of its code points, each a
      number.  The code points of Unicode are those below 0x110000, lone
      surrogates included, as in Python.
    - An instant is an integer number of microseconds since the epoch, as
      [time.time()] and [os.path.getmtime] count them; a naive [datetime]
      is an instant shifted by the UTC offset of the local zone; a
      [timedelta] is a difference of two naive datetimes.
    - An exception is a value of [exn]; a call either returns or raises.
    - The interpreter's limits are left out: no nesting is too deep and no
      integer too long for [json.load] here. *)

From Stdlib Require Import List NArith ZArith Lia Bool Arith.
From Stdlib Require Strings.Byte.
Import ListNotations.

(** ** Python strings *)

(** A code point. *)
Definition char : Type := N.

Inductive string : Type :=
| EmptyString
| String (c : char) (s : string).

Module Char.

Definition eqb (a b : char) : bool := N.eqb a b.

End Char.

Arguments Char.eqb !a !b /.

(** The literals of this file are read as Python reads those of main.py:
    the bytes between the quotes are UTF-8, one character per code point. *)
Module Utf8.

Definition continuation (b : Byte.byte) : option N :=
  let n := Strings.Byte.to_N b in
  if N.leb 128 n && N.ltb n 192 then Some (n - 128)%N else None.

Fixpoint decode (fuel : nat) (l : list Byte.byte) : option string :=
  match fuel, l with
  | _, [] => Some EmptyString
  | O, _ :: _ => None
  | S fuel', b :: l1 =>
      let n := Strings.Byte.to_N b in
      if N.ltb n 128 then option_map (String n) (decode fuel' l1)
      else if N.ltb n 192 then None
      else if N.ltb n 224 then
        match l1 with
        | b1 :: l2 =>
            match continuation b1 with
            | Some c1 =>
                option_map (String ((n - 192) * 64 + c1)%N) (decode fuel' l2)
            | None => None
            end
        | _ => None
        end
      else if N.ltb n 240 then
        match l1 with
        | b1 :: b2 :: l3 =>
            match continuation b1, continuation b2 with
            | Some c1, Some c2 =>
                option_map (String (((n - 224) * 64 + c1) * 64 + c2)%N)
                           (decode fuel' l3)
            | _, _ => None
            end
        | _ => None
        end
      else
        match l1 with
        | b1 :: b2 :: b3 :: l4 =>
            match continuation b1, continuation b2, continuation b3 with
            | Some c1, Some c2, Some c3 =>
                option_map
                  (String ((((n - 240) * 64 + c1) * 64 + c2) * 64 + c3)%N)
                  (decode fuel' l4)
            | _, _, _ => None
            end
        | _ => None
        end
  end.

Definition byte (n : N) : Byte.byte :=
  match Strings.Byte.of_N n with
  | Some b => b
  | None => Byte.x00
  end.

Definition encode_char (c : char) : list Byte.byte :=
  (if N.ltb c 128 then [byte c]
   else if N.ltb c 2048 then [byte (192 + c / 64); byte (128 + c mod 64)]
   else if N.ltb c 65536 then
     [byte (224 + c / 4096); byte (128 + (c / 64) mod 64);
      byte (128 + c mod 64)]
   else [byte (240 + c / 262144); byte (128 + (c / 4096) mod 64);
         byte (128 + (c / 64) mod 64); byte (128 + c mod 64)])%N.

Fixpoint encode (s : string) : list Byte.byte :=
  match s with
  | EmptyString => []
  | String c s' => encode_char c ++ encode s'
  end.

Definition parse (l : list Byte.byte) : option string :=
  decode (List.length l) l.

Definition print (s : string) : option (list Byte.byte) := Some (encode s).

Definition parse_char (l : list Byte.byte) : option N :=
  match parse l with
  | Some (String c EmptyString) => Some c
  | _ => None
  end.

Definition print_char (c : N) : option (list Byte.byte) :=
  if N.ltb c 1114112 then Some (encode_char c) else None.

End Utf8.

Declare Scope str_scope.
Delimit Scope str_scope with str.
Bind Scope str_scope with string.
String Notation string Utf8.parse Utf8.print : str_scope.

Declare Scope chr_scope.
Delimit Scope chr_scope with char.
Bind Scope chr_scope with char.
String Notation N Utf8.parse_char Utf8.print_char : chr_scope.

Arguments String c%_char s%_str.
Arguments Char.eqb (a b)%_char.

(** [a + b] *)
Fixpoint append (a b : string) : string :=
  match a with
  | EmptyString => b
  | String c a' => String c (append a' b)
  end.

Notation "a ++ b" := (append a b) (right associativity, at level 60)
  : str_scope.

Open Scope str_scope.

(** The characters of a text, in their order. *)
Fixpoint list_of_string (s : string) : list char :=
  match s with
  | EmptyString => []
  | String c s' => c :: list_of_string s'
  end.

Module String.

(** [len(s)] *)
Fixpoint length (s : string) : nat :=
  match s with
  | EmptyString => 0
  | String _ s' => S (length s')
  end.

(** [a == b] *)
Fixpoint eqb (a b : string) : bool :=
  match a, b with
  | EmptyString, EmptyString => true
  | String x a', String y b' => Char.eqb x y && eqb a' b'
  | _, _ => false
  end.

(** [sep.join(pieces)] *)
Fixpoint concat (sep : string) (pieces : list string) : string :=
  match pieces with
  | [] => EmptyString
  | [x] => x
  | x :: rest => x ++ sep ++ concat sep rest
  end.

End String.

(** [s[n:]], [s[:n]] and [s[n:n+m]]. *)
Fixpoint drop (n : nat) (s : string) : string :=
  match n, s with
  | S n', String _ s' => drop n' s'
  | _, _ => s
  end.

Fixpoint take (n : nat) (s : string) : string :=
  match n, s with
  | S n', String c s' => String c (take n' s')
  | _, _ => EmptyString
  end.

Definition substring (n m : nat) (s : string) : string := take m (drop n s).

(** ** Outcomes of a call *)

Inductive exn : Type :=
| ConnectionError          (* requests: the request could not be made *)
| APIError                 (* groq: the completion request failed *)
| AttributeError           (* attribute access on None or on a non-str *)
| IndexError               (* list index out of range *)
| KeyError (key : string)  (* dict lookup of an absent key *)
| TypeError                (* subscript of a value that is no dict *)
| JSONDecodeError          (* json.load on a malformed document *)
| FileNotFoundError.       (* open(..., 'r') on an absent file *)

Inductive result (A : Type) : Type :=
| Ok (a : A)
| Raise (e : exn).
Arguments Ok {A} a.
Arguments Raise {A} e.

(** ** Python string operations used by main.py *)

Definition LF : char := 10%N.
Definition DQ : char := 34%N.
Definition nl : string := String LF "".

(** [str.isspace] on one character: U+0009..U+000D, U+001C..U+0020,
    U+0085, U+00A0, U+1680, U+2000..U+200A, U+2028, U+2029, U+202F, U+205F
    and U+3000. *)
Definition isspace (c : char) : bool :=
  (N.leb 0x09 c && N.leb c 0x0d) || (N.leb 0x1c c && N.leb c 0x20)
  || N.eqb c 0x85 || N.eqb c 0xa0 || N.eqb c 0x1680
  || (N.leb 0x2000 c && N.leb c 0x200a) || N.eqb c 0x2028 || N.eqb c 0x2029
  || N.eqb c 0x202f || N.eqb c 0x205f || N.eqb c 0x3000.

Fixpoint lstrip (s : string) : string :=
  match s with
  | String c s' => if isspace c then lstrip s' else s
  | EmptyString => EmptyString
  end.

Fixpoint rstrip (s : string) : string :=
  match s with
  | String c s' =>
      match rstrip s' with
      | EmptyString => if isspace c then EmptyString else String c EmptyString
      | r => String c r
      end
  | EmptyString => EmptyString
  end.

(** [s.strip()] *)
Definition strip (s : string) : string := rstrip (lstrip s).

(** Truth value of a [str]: the empty string is false. *)
Definition truthy (s : string) : bool :=
  match s with EmptyString => false | _ => true end.

(** [s.startswith(p)] *)
Fixpoint startswith (s p : string) {struct p} : bool :=
  match p with
  | EmptyString => true
  | String a p' =>
      match s with
      | String b s' => Char.eqb a b && startswith s' p'
      | EmptyString => false
      end
  end.

(** [s.split(sep)] for a non-empty [sep]: the text is scanned from the
    left, every occurrence of [sep] found ends a piece and the scan
    resumes after it.  [skip] counts the characters of a separator that
    are still to be passed over. *)
Fixpoint split_from (sep : string) (skip : nat) (s : string) : list string :=
  match s with
  | EmptyString => [EmptyString]
  | String c s' =>
      match skip with
      | S k => split_from sep k s'
      | O =>
          if startswith s sep
          then EmptyString :: split_from sep (String.length sep - 1) s'
          else match split_from sep 0 s' with
               | piece :: rest => String c piece :: rest
               | [] => [String c EmptyString]
               end
      end
  end.

Definition split (sep s : string) : list string := split_from sep 0 s.

(** [sep.join(pieces)] *)
Definition join (sep : string) (pieces : list string) : string :=
  String.concat sep pieces.

(** [s.replace(old, new)] for a non-empty [old], scanning like [split]. *)
Fixpoint replace_from (old new : string) (skip : nat) (s : string) : string :=
  match s with
  | EmptyString => EmptyString
  | String c s' =>
      match skip with
      | S k => replace_from old new k s'
      | O =>
          if startswith s old
          then new ++ replace_from old new (String.length old - 1) s'
          else String c (replace_from old new 0 s')
      end
  end.

Definition replace (old new s : string) : string := replace_from old new 0 s.

(** [sub in s] *)
Fixpoint contains (sub s : string) : bool :=
  startswith s sub ||
  match s with
  | String _ s' => contains sub s'
  | EmptyString => false
  end.

(** [l[1:]] and [l[:n]] are [tl] and [firstn n]. *)

(** ** Python values and the json module

    The values [json.load] builds and [json.dump] writes.  A number is kept
    as its literal; a [dict] is its list of items in insertion order, with
    [str] keys. *)

#[local] Set Warnings "-register-all".

Inductive pyval : Type :=
| PyNone
| PyBool (b : bool)
| PyNum (literal : string)
| PyStr (s : string)
| PyList (items : list pyval)
| PyDict (items : list (string * pyval)).

(** [d[key] = v] on the item list of a dict. *)
Fixpoint dict_set (d : list (string * pyval)) (key : string) (v : pyval)
  : list (string * pyval) :=
  match d with
  | [] => [(key, v)]
  | (k, w) :: d' =>
      if String.eqb k key then (k, v) :: d' else (k, w) :: dict_set d' key v
  end.

Fixpoint dict_get (d : list (string * pyval)) (key : string) : option pyval :=
  match d with
  | [] => None
  | (k, w) :: d' => if String.eqb k key then Some w else dict_get d' key
  end.

(** [obj[key]] for a [str] key: only a dict that holds the key answers. *)
Definition getitem (obj : pyval) (key : string) : result pyval :=
  match obj with
  | PyDict d =>
      match dict_get d key with
      | Some v => Ok v
      | None => Raise (KeyError key)
      end
  | _ => Raise TypeError
  end.

Module Json.

(** *** json.dump(obj, f, indent=4), with the default ensure_ascii=True *)

(** The digit of [n], below 16, in lower-case hexadecimal. *)
Definition hexdigit (n : N) : char :=
  if N.ltb n 10 then (48 + n)%N else (87 + n)%N.

(** ['\\u{0:04x}'.format(n)], for [n] below 0x10000. *)
Definition escape_u (n : N) : string :=
  String "\" (String "u"
    (String (hexdigit (N.modulo (N.div n 4096) 16))
    (String (hexdigit (N.modulo (N.div n 256) 16))
    (String (hexdigit (N.modulo (N.div n 16) 16))
    (String (hexdigit (N.modulo n 16)) ""))))).

(** One character of a string literal (ESCAPE_ASCII and ESCAPE_DCT of
    json.encoder): printable ASCII but the quote and the backslash stands
    for itself; a character above U+FFFF is written as the escapes of its
    two surrogates. *)
Definition escape_char (c : char) : string :=
  if Char.eqb c DQ then String "\" (String DQ "")
  else if Char.eqb c "\" then "\\"
  else if N.eqb c 8 then "\b"
  else if N.eqb c 9 then "\t"
  else if N.eqb c 10 then "\n"
  else if N.eqb c 12 then "\f"
  else if N.eqb c 13 then "\r"
  else if N.leb 32 c && N.leb c 126 then String c ""
  else if N.ltb c 0x10000 then escape_u c
  else
    let n := (c - 0x10000)%N in
    let s1 := N.lor 0xd800 (N.land (N.shiftr n 10) 0x3ff) in
    let s2 := N.lor 0xdc00 (N.land n 0x3ff) in
    escape_u s1 ++ escape_u s2.

Fixpoint escape (s : string) : string :=
  match s with
  | String c s' => escape_char c ++ escape s'
  | EmptyString => EmptyString
  end.

(** [py_encode_basestring_ascii] *)
Definition encode_str (s : string) : string :=
  String DQ (escape s ++ String DQ "").

Fixpoint spaces (n : nat) : string :=
  match n with
  | O => EmptyString
  | S k => String " " (spaces k)
  end.

(** The line break that opens a line at nesting [level] (indent=4). *)
Definition newline_indent (level : nat) : string := nl ++ spaces (4 * level).

(** [_iterencode] at nesting [level]: an empty container is written
    without a line break, the items of another one a line each. *)
Fixpoint encode (level : nat) (v : pyval) : string :=
  match v with
  | PyNone => "null"
  | PyBool true => "true"
  | PyBool false => "false"
  | PyNum lit => lit
  | PyStr s => encode_str s
  | PyList [] => "[]"
  | PyList (x :: xs) =>
      "[" ++ newline_indent (S level) ++ encode (S level) x
      ++ (fix rest (l : list pyval) : string :=
            match l with
            | [] => EmptyString
            | y :: l' =>
                "," ++ newline_indent (S level) ++ encode (S level) y ++ rest l'
            end) xs
      ++ newline_indent level ++ "]"
  | PyDict [] => "{}"
  | PyDict ((k, x) :: xs) =>
      "{" ++ newline_indent (S level)
      ++ encode_str k ++ ": " ++ encode (S level) x
      ++ (fix rest (l : list (string * pyval)) : string :=
            match l with
            | [] => EmptyString
            | (k', y) :: l' =>
                "," ++ newline_indent (S level)
                ++ encode_str k' ++ ": " ++ encode (S level) y ++ rest l'
            end) xs
      ++ newline_indent level ++ "}"
  end.

Definition dumps (v : pyval) : string := encode 0 v.

(** *** json.load(f): the scanner and decoder of json.decoder *)

(** WHITESPACE of json.decoder: space, tab, line feed, carriage return. *)
Definition is_ws (c : char) : bool :=
  Char.eqb c " " || N.eqb c 9 || N.eqb c 10 || N.eqb c 13.

Fixpoint skip_ws (s : string) : string :=
  match s with
  | String c s' => if is_ws c then skip_ws s' else s
  | EmptyString => EmptyString
  end.

(** A digit from 0 to 9: the scanner of CPython knows no other. *)
Definition is_digit (c : char) : bool := N.leb 48 c && N.leb c 57.

Definition hexval (c : char) : option N :=
  if N.leb 48 c && N.leb c 57 then Some (c - 48)%N
  else if N.leb 97 c && N.leb c 102 then Some (c - 87)%N
  else if N.leb 65 c && N.leb c 70 then Some (c - 55)%N
  else None.

Definition hex4 (a b c d : char) : option N :=
  match hexval a, hexval b, hexval c, hexval d with
  | Some x, Some y, Some z, Some w => Some (4096 * x + 256 * y + 16 * z + w)%N
  | _, _, _, _ => None
  end.

(** The two halves of a character above U+FFFF, and the character they
    stand for. *)
Definition is_high (n : N) : bool := N.leb 0xd800 n && N.leb n 0xdbff.
Definition is_low (n : N) : bool := N.leb 0xdc00 n && N.leb n 0xdfff.
Definition join_pair (uni uni2 : N) : char :=
  (0x10000 + N.lor (N.shiftl (uni - 0xd800) 10) (uni2 - 0xdc00))%N.

(** BACKSLASH of json.decoder. *)
Definition unescape (e : char) : option char :=
  if Char.eqb e DQ then Some DQ
  else if Char.eqb e "\" then Some "\"%char
  else if Char.eqb e "/" then Some "/"%char
  else if Char.eqb e "b" then Some 8%N
  else if Char.eqb e "f" then Some 12%N
  else if Char.eqb e "n" then Some 10%N
  else if Char.eqb e "r" then Some 13%N
  else if Char.eqb e "t" then Some 9%N
  else None.

Definition cons_char (c : char) (r : option (string * string))
  : option (string * string) :=
  match r with
  | Some (s, rest) => Some (String c s, rest)
  | None => None
  end.

(** [scanstring] (strict), from the character after the opening quote:
    the decoded text and what follows the closing quote.  A control
    character, a bad escape or a missing closing quote is an error.  The
    escape of a high surrogate that is followed by the escape of a low
    one is read with it as one character; followed by a backslash and u
    without four hexadecimal digits it is an error. *)
Fixpoint scanstring (s : string) : option (string * string) :=
  match s with
  | EmptyString => None
  | String c s' =>
      if Char.eqb c DQ then Some (EmptyString, s')
      else if Char.eqb c "\" then
        match s' with
        | EmptyString => None
        | String e s'' =>
            if Char.eqb e "u" then
              match s'' with
              | String h1 (String h2 (String h3 (String h4 rest))) =>
                  match hex4 h1 h2 h3 h4 with
                  | Some uni =>
                      if is_high uni then
                        match rest with
                        | String b (String u r) =>
                            if Char.eqb b "\" && Char.eqb u "u" then
                              match r with
                              | String g1 (String g2 (String g3
                                  (String g4 rest2))) =>
                                  match hex4 g1 g2 g3 g4 with
                                  | Some uni2 =>
                                      if is_low uni2
                                      then cons_char (join_pair uni uni2)
                                                     (scanstring rest2)
                                      else cons_char uni (scanstring rest)
                                  | None => None
                                  end
                              | _ => None
                              end
                            else cons_char uni (scanstring rest)
                        | _ => cons_char uni (scanstring rest)
                        end
                      else cons_char uni (scanstring rest)
                  | None => None
                  end
              | _ => None
              end
            else
              match unescape e with
              | Some ch => cons_char ch (scanstring s'')
              | None => None
              end
        end
      else if N.ltb c 32 then None
      else cons_char c (scanstring s')
  end.

(** [s] without the prefix [p], when it starts with it. *)
Fixpoint after_prefix (p s : string) : option string :=
  match p with
  | EmptyString => Some s
  | String a p' =>
      match s with
      | String b s' => if Char.eqb a b then after_prefix p' s' else None
      | EmptyString => None
      end
  end.

Fixpoint span_digits (s : string) : string * string :=
  match s with
  | String c s' =>
      if is_digit c
      then let (d, r) := span_digits s' in (String c d, r)
      else (EmptyString, s)
  | EmptyString => (EmptyString, EmptyString)
  end.

(** NUMBER_RE of json.scanner: an optional minus sign, then 0 or a digit
    from 1 to 9 with any digits after it; then, optionally, a dot with at
    least one digit; then, optionally, e or E, an optional sign and at
    least one digit.  The literal matched at the start of [s], and the
    rest. *)
Definition number_sign (s : string) : string * string :=
  match s with
  | String c s' => if Char.eqb c "-" then ("-", s') else ("", s)
  | EmptyString => ("", s)
  end.

Definition number_integer (s : string) : option (string * string) :=
  match s with
  | String c s' =>
      if Char.eqb c "0" then Some ("0", s')
      else if is_digit c
           then let (d, r) := span_digits s' in Some (String c d, r)
           else None
  | EmptyString => None
  end.

Definition number_fraction (s : string) : string * string :=
  match s with
  | String c r =>
      if Char.eqb c "."
      then match span_digits r with
           | (EmptyString, _) => ("", s)
           | (d, r') => (String c d, r')
           end
      else ("", s)
  | EmptyString => ("", s)
  end.

Definition number_exponent (s : string) : string * string :=
  match s with
  | String c r =>
      if Char.eqb c "e" || Char.eqb c "E" then
        let (sg, r') :=
          match r with
          | String g r'' =>
              if Char.eqb g "-" || Char.eqb g "+"
              then (String g "", r'') else ("", r)
          | EmptyString => ("", r)
          end in
        match span_digits r' with
        | (EmptyString, _) => ("", s)
        | (d, r'') => (String c (sg ++ d), r'')
        end
      else ("", s)
  | EmptyString => ("", s)
  end.

Definition match_number (s : string) : option (string * string) :=
  let (sign, s1) := number_sign s in
  match number_integer s1 with
  | None => None
  | Some (int, r1) =>
      let (frac, r2) := number_fraction r1 in
      let (exp, r3) := number_exponent r2 in
      Some (sign ++ int ++ frac ++ exp, r3)
  end.

(** [scan_once], [JSONObject] and [JSONArray]: [fuel] bounds the number of
    nested and successive calls.  [members] and [elements] start where a
    key, respectively a value, is expected. *)
Fixpoint scan_once (fuel : nat) (s : string) : option (pyval * string) :=
  match fuel with
  | O => None
  | S fuel' =>
      match s with
      | EmptyString => None
      | String c s' =>
          if Char.eqb c DQ then
            match scanstring s' with
            | Some (str, rest) => Some (PyStr str, rest)
            | None => None
            end
          else if Char.eqb c "{" then
            match skip_ws s' with
            | String d r =>
                if Char.eqb d "}" then Some (PyDict [], r)
                else if Char.eqb d DQ then members fuel' [] r
                else None
            | EmptyString => None
            end
          else if Char.eqb c "[" then
            match skip_ws s' with
            | String d r =>
                if Char.eqb d "]" then Some (PyList [], r)
                else elements fuel' [] (String d r)
            | EmptyString => None
            end
          else
            match after_prefix "null" s, after_prefix "true" s,
                  after_prefix "false" s with
            | Some r, _, _ => Some (PyNone, r)
            | _, Some r, _ => Some (PyBool true, r)
            | _, _, Some r => Some (PyBool false, r)
            | None, None, None =>
                match match_number s with
                | Some (lit, r) => Some (PyNum lit, r)
                | None =>
                    match after_prefix "NaN" s, after_prefix "Infinity" s,
                          after_prefix "-Infinity" s with
                    | Some r, _, _ => Some (PyNum "NaN", r)
                    | _, Some r, _ => Some (PyNum "Infinity", r)
                    | _, _, Some r => Some (PyNum "-Infinity", r)
                    | None, None, None => None
                    end
                end
            end
      end
  end
with members (fuel : nat) (d : list (string * pyval)) (s : string)
  : option (pyval * string) :=
  match fuel with
  | O => None
  | S fuel' =>
      (* [s] follows the opening quote of a key *)
      match scanstring s with
      | None => None
      | Some (key, r) =>
          match skip_ws r with
          | String c r1 =>
              if Char.eqb c ":" then
                match scan_once fuel' (skip_ws r1) with
                | None => None
                | Some (v, r2) =>
                    let d' := dict_set d key v in
                    match skip_ws r2 with
                    | String e r3 =>
                        if Char.eqb e "}" then Some (PyDict d', r3)
                        else if Char.eqb e "," then
                          match skip_ws r3 with
                          | String q r4 =>
                              if Char.eqb q DQ then members fuel' d' r4
                              else None
                          | EmptyString => None
                          end
                        else None
                    | EmptyString => None
                    end
                end
              else None
          | EmptyString => None
          end
      end
  end
with elements (fuel : nat) (acc : list pyval) (s : string)
  : option (pyval * string) :=
  match fuel with
  | O => None
  | S fuel' =>
      match scan_once fuel' s with
      | None => None
      | Some (v, r) =>
          match skip_ws r with
          | String e r1 =>
              if Char.eqb e "]" then Some (PyList (acc ++ [v]), r1)
              else if Char.eqb e "," then elements fuel' (acc ++ [v]) (skip_ws r1)
              else None
          | EmptyString => None
          end
      end
  end.

(** [json.loads]: one value, white space around it, nothing else. *)
Definition loads (text : string) : result pyval :=
  match scan_once (S (String.length text)) (skip_ws text) with
  | Some (v, rest) =>
      match skip_ws rest with
      | EmptyString => Ok v
      | _ => Raise JSONDecodeError
      end
  | None => Raise JSONDecodeError
  end.

End Json.

(** ** BeautifulSoup documents

    The tree that [BeautifulSoup(response.text, 'html.parser')] builds: a
    tag with its name, the values of its class attribute and its contents,
    or a piece of text. *)

Inductive node : Type :=
| Tag (name : string) (class_ : list string) (contents : list node)
| NavigableString (text : string).

(** The nodes below [n], in document order. *)
Fixpoint descendants (n : node) : list node :=
  match n with
  | Tag _ _ contents =>
      (fix each (l : list node) : list node :=
         match l with
         | [] => []
         | c :: l' => c :: descendants c ++ each l'
         end) contents
  | NavigableString _ => []
  end.

(** The selector [name.cls]: a tag of that name with that class. *)
Definition matches (name cls : string) (n : node) : bool :=
  match n with
  | Tag nm classes _ => String.eqb nm name && existsb (String.eqb cls) classes
  | NavigableString _ => false
  end.

(** [n.select('name.cls')] *)
Definition select (name cls : string) (n : node) : list node :=
  filter (matches name cls) (descendants n).

(** [n.select_one('name.cls')] *)
Definition select_one (name cls : string) (n : node) : option node :=
  hd_error (select name cls n).

(** [n.get_text()], also [n.text]: the pieces of text below [n], joined. *)
Fixpoint get_text (n : node) : string :=
  match n with
  | Tag _ _ contents =>
      (fix each (l : list node) : string :=
         match l with
         | [] => EmptyString
         | c :: l' => get_text c ++ each l'
         end) contents
  | NavigableString s => s
  end.

(** What [requests.get] returns: the status line and the body, the body
    as the document parsed from it. *)
Record Response : Type := {
  status_code : Z;
  soup : node
}.

(** ** Records, console output and the outside world *)

Record repo : Type := {
  full_name : string;
  description : string;
  html_url : string;
  stargazers_count : string
}.

(** What [rich] is asked to print. *)
Inductive renderable : Type :=
| Str (s : string)
| Text (s : string) (style : string)
| Markdown (markup : string)
| Panel (content : renderable) (title : option renderable)
        (border_style : string).

(** The calls that leave the process, in the order they are made. *)
Inductive event : Type :=
| ConsolePrint (r : renderable) (style : option string)
| StdoutPrint (repos : list repo)
| HttpGet (url : string) (user_agent : string)
| ChatCompletion (system user model : string)
| FileWrite (text : string).

(** The collaborators of the reporter: the network, the completion
    service, the system clock, the local time zone and the formatting of
    dates.  [W] is the state of everything outside the process; each call
    may change it.  [time_time] reads the clock: an instant, in
    microseconds since the epoch.  [utcoffset] is the offset of the local
    zone from UTC at an instant, in microseconds. *)
Class World : Type := {
  W : Type;
  requests_get : string -> string -> W -> result Response * W;
  chat_completions_create : string -> string -> string -> W -> result string * W;
  time_time : W -> Z * W;
  utcoffset : Z -> Z;
  strftime_Ymd : Z -> string;
  isoformat : Z -> string
}.

(** [datetime.fromtimestamp(t)]: the naive local datetime of an instant. *)
Definition fromtimestamp `{World} (t : Z) : Z := (t + utcoffset t)%Z.

(** [datetime.now()]: the naive local datetime of the instant the clock
    shows. *)
Definition datetime_now `{World} (w : W) : Z * W :=
  let (t, w') := time_time w in (fromtimestamp t, w').

(** The cache file: the instant it was last modified, which is what
    [os.path.getmtime] returns, and its text. *)
Record File : Type := {
  mtime : Z;
  content : string
}.

Record State `{World} : Type := {
  cache_file : option File;   (* github_trending_cache.json, if it exists *)
  trace : list event;
  world : W
}.

(** [timedelta(hours=h)], in microseconds. *)
Definition timedelta_hours (h : Z) : Z := (h * 3600 * 1000000)%Z.
Definition timedelta_seconds (s : Z) : Z := (s * 1000000)%Z.

Definition user_agent : string :=
  "Mozilla/5.0 (Windows NT 10.0; Win64; x64) AppleWebKit/537.36 (KHTML, like Gecko) Chrome/91.0.4472.124 Safari/537.36".

(** [f"https://github.com/trending/{language if language else ''}"] *)
Definition trending_url (language : option string) : string :=
  "https://github.com/trending/"
  ++ match language with Some l => l | None => "" end.

(** The body of the loop of [fetch_trending_repos] on one article. *)
Definition scrape_article (article : node) : result repo :=
  match select_one "h2" "h3" article with
  | None => Raise AttributeError
  | Some title_element =>
      let full_name :=
        replace " " "" (replace nl "" (strip (get_text title_element))) in
      let description :=
        match select_one "p" "col-9" article with
        | Some description_element => strip (get_text description_element)
        | None => ""
        end in
      match nth_error (select "a" "Link--muted" article) 1 with
      | None => Raise IndexError
      | Some stars_element =>
          let stars := strip (get_text stars_element) in
          Ok {| full_name := full_name;
                description := description;
                html_url := "https://github.com/" ++ full_name;
                stargazers_count := stars |}
      end
  end.

(** The loop itself: the records are appended in page order, the first
    exception ends it. *)
Fixpoint scrape_articles (articles : list node) (trending_repos : list repo)
  : result (list repo) :=
  match articles with
  | [] => Ok trending_repos
  | article :: rest =>
      match scrape_article article with
      | Ok r => scrape_articles rest (trending_repos ++ [r])
      | Raise e => Raise e
      end
  end.

(** The text sent for one record by [generate_repo_summary]. *)
Definition repo_detail (r : repo) : string :=
  "Repository: " ++ full_name r ++ nl
  ++ "Description: " ++ description r ++ nl
  ++ "Stars: " ++ stargazers_count r ++ nl
  ++ "URL: " ++ html_url r.

Definition summary_prompt (repos : list repo) : string :=
  "Provide a professional summary of the following trending GitHub repositories."
  ++ nl
  ++ "        Highlight their purpose, key features, and potential use cases:"
  ++ nl ++ nl
  ++ "        " ++ join (nl ++ nl) (map repo_detail repos) ++ nl
  ++ "        ".

Definition system_prompt : string :=
  "You are an expert software analyst summarizing GitHub repositories.".

Definition report_text (date all_repos_summary golang_repos_summary : string)
  : string :=
  "Daily GitHub Trending Repositories Report" ++ nl
  ++ date ++ nl
  ++ nl
  ++ "--- All Trending Repositories ---" ++ nl
  ++ all_repos_summary ++ nl
  ++ nl
  ++ "--- Trending Golang Repositories ---" ++ nl
  ++ golang_repos_summary ++ nl.

(** One section of [display_report]: its title and its content. *)
Definition section_panel (section : string) : renderable :=
  let lines := split nl (strip section) in
  let section_title := Text (hd EmptyString lines) "bold yellow" in
  let section_content := join nl (tl lines) in
  Panel (Markdown section_content) (Some section_title) "green".

Section Reporter.

Context `{World}.

(** A method: from a state to an outcome and the state it leaves. *)
Definition M (A : Type) : Type := State -> result A * State.

Definition ret {A : Type} (a : A) : M A := fun st => (Ok a, st).

Definition raise {A : Type} (e : exn) : M A := fun st => (Raise e, st).

Definition bind {A B : Type} (m : M A) (k : A -> M B) : M B :=
  fun st =>
    match m st with
    | (Ok a, st') => k a st'
    | (Raise e, st') => (Raise e, st')
    end.

Definition lift {A : Type} (r : result A) : M A := fun st => (r, st).

Definition emit (e : event) : M unit :=
  fun st =>
    (Ok tt, {| cache_file := cache_file st;
               trace := trace st ++ [e];
               world := world st |}).

(** A call to a collaborator: it is recorded, then made. *)
Definition call {A : Type} (e : event) (f : W -> result A * W) : M A :=
  fun st =>
    let (r, w) := f (world st) in
    (r, {| cache_file := cache_file st;
           trace := trace st ++ [e];
           world := w |}).

Definition now : M Z :=
  fun st =>
    let (t, w) := datetime_now (world st) in
    (Ok t, {| cache_file := cache_file st; trace := trace st; world := w |}).

Definition console_print (r : renderable) (style : option string) : M unit :=
  emit (ConsolePrint r style).

End Reporter.

Notation "x <- m ;; k" := (bind m (fun x => k))
  (at level 61, m at next level, right associativity).
Notation "m ;;; k" := (bind m (fun _ => k))
  (at level 61, right associativity).

Section Methods.

Context `{World}.

Definition should_refresh_cache : M bool :=
  fun st =>
    match cache_file st with
    | None => ret true st
    | Some f =>
        (file_timestamp <- ret (fromtimestamp (mtime f)) ;;
         current_time <- now ;;
         ret (Z.gtb (current_time - file_timestamp) (timedelta_hours 24))) st
    end.

Definition load_cached_report : M pyval :=
  fun st =>
    match cache_file st with
    | None => raise FileNotFoundError st
    | Some f => lift (Json.loads (content f)) st
    end.

(** The file is opened for writing and the document written to it: the
    text replaces whatever the file held, and the file system stamps the
    file with the instant of the write. *)
Definition save_cache (report_data : pyval) : M unit :=
  fun st =>
    let text := Json.dumps report_data in
    let (t, w) := time_time (world st) in
    (Ok tt, {| cache_file := Some {| mtime := t; content := text |};
               trace := trace st ++ [FileWrite text];
               world := w |}).

Definition fetch_trending_repos (language : option string) : M (list repo) :=
  let url := trending_url language in
  response <- call (HttpGet url user_agent) (requests_get url user_agent) ;;
  let articles := select "article" "Box-row" (soup response) in
  trending_repos <- lift (scrape_articles articles []) ;;
  ret (firstn 10 trending_repos).

Definition generate_repo_summary (repos : list repo) : M string :=
  let prompt := summary_prompt repos in
  call (ChatCompletion system_prompt prompt "llama3-70b-8192")
       (chat_completions_create system_prompt prompt "llama3-70b-8192").

Fixpoint display_sections (sections : list string) : M unit :=
  match sections with
  | [] => ret tt
  | section :: rest =>
      (if truthy (strip section)
       then console_print (section_panel section) None ;;;
            console_print (Str nl) None
       else ret tt) ;;;
      display_sections rest
  end.

(** [report] is whatever the caller passes; only a [str] has [split]. *)
Definition display_report (report : pyval) : M unit :=
  console_print (Str nl) None ;;;
  console_print
    (Panel (Text "🚀 GitHub Trending Repositories Report" "bold magenta")
           None "bright_blue") None ;;;
  today <- now ;;
  console_print (Text ("Generated on: " ++ strftime_Ymd today) "italic cyan")
                None ;;;
  console_print (Str nl) None ;;;
  match report with
  | PyStr text => display_sections (split "---" text)
  | _ => raise AttributeError
  end.

Definition generate_daily_report : M unit :=
  refresh <- should_refresh_cache ;;
  if negb refresh then
    console_print (Str "📂 Loading report from cache...") (Some "bold blue") ;;;
    cached_data <- load_cached_report ;;
    full_report <- lift (getitem cached_data "full_report") ;;
    display_report full_report
  else
    console_print (Str "🔄 Fetching fresh data...") (Some "bold green") ;;;
    all_trending <- fetch_trending_repos None ;;
    emit (StdoutPrint all_trending) ;;;
    all_repos_summary <- generate_repo_summary all_trending ;;
    golang_trending <- fetch_trending_repos (Some "go") ;;
    golang_repos_summary <- generate_repo_summary golang_trending ;;
    today <- now ;;
    let full_report :=
      report_text (strftime_Ymd today) all_repos_summary golang_repos_summary in
    stamp <- now ;;
    let cache_data :=
      PyDict [("timestamp", PyStr (isoformat stamp));
              ("full_report", PyStr full_report)] in
    save_cache cache_data ;;;
    display_report (PyStr full_report) ;;;
    console_print (Str "✨ Fresh report generated and cached!")
                  (Some "bold green").

End Methods.

(** ** Fixtures: concrete worlds and pages for the examples *)

(** A world that answers every request with [page] and every completion
    with [completion], its clock standing at [clock], in a zone that keeps
    the time of UTC. *)
Definition fixed_world (page : result Response) (completion : result string)
  (clock : Z) : World :=
  {| W := unit;
     requests_get := fun _ _ w => (page, w);
     chat_completions_create := fun _ _ _ w => (completion, w);
     time_time := fun w => (clock, w);
     utcoffset := fun _ => 0%Z;
     strftime_Ymd := fun _ => "2024-05-01";
     isoformat := fun _ => "2024-05-01T12:00:00" |}.

(** The offset of Europe/Paris from UTC in 2024, in microseconds: an hour,
    two hours from 31 March 01:00 UTC to 27 October 01:00 UTC. *)
Definition europe_paris (t : Z) : Z :=
  if (Z.leb 1711846800000000 t && Z.ltb t 1729990800000000)%Z
  then 7200000000%Z else 3600000000%Z.

(** A world in the zone [offset] whose clock stands at [clock]; it is
    offline. *)
Definition zone_world (offset : Z -> Z) (clock : Z) : World :=
  {| W := unit;
     requests_get := fun _ _ w => (Raise ConnectionError, w);
     chat_completions_create := fun _ _ _ w => (Raise APIError, w);
     time_time := fun w => (clock, w);
     utcoffset := offset;
     strftime_Ymd := fun _ => "2024-03-31";
     isoformat := fun _ => "2024-03-31T13:59:59" |}.

Definition document (contents : list node) : node :=
  Tag "[document]" [] contents.

(** An entry of the listing as GitHub serves it, cut down to the elements
    the scraper looks at: the title, the description when there is one,
    and the muted links. *)
Definition entry (name : string) (about : option string) (links : list string)
  : node :=
  Tag "article" ["Box-row"]
    ([Tag "h2" ["h3"; "lh-condensed"]
        [Tag "a" ["Link"] [NavigableString (nl ++ "  " ++ name ++ nl)]]]
     ++ match about with
        | Some d => [Tag "p" ["col-9"; "color-fg-muted"] [NavigableString d]]
        | None => []
        end
     ++ [Tag "div" ["f6"; "color-fg-muted"]
           (map (fun text => Tag "a" ["Link"; "Link--muted"]
                               [NavigableString (" " ++ text ++ nl)])
                links)]).

(** An entry with neither title nor description nor links. *)
Definition bare_entry : node := Tag "article" ["Box-row"] [].

Definition page_of (status : Z) (contents : list node) : Response :=
  {| status_code := status; soup := document contents |}.

(** The body of a 404 answer: no listing at all. *)
Definition page_not_found : Response :=
  page_of 404 [Tag "main" [] [Tag "h1" [] [NavigableString "Not Found"]]].

(** Twelve entries, the second and the eleventh without a description. *)
Definition page_twelve : Response :=
  page_of 200
    (map (fun name =>
            entry ("octo / " ++ name)
                  (if String.eqb name "b" || String.eqb name "k"
                   then None else Some (" about " ++ name ++ " "))
                  ["98"; "1,234"])
         ["a"; "b"; "c"; "d"; "e"; "f"; "g"; "h"; "i"; "j"; "k"; "l"]).

Definition initial_state `{World} (f : option File) (w : W) : State :=
  {| cache_file := f; trace := []; world := w |}.

(** An entry that lacks nothing but its description, followed by an entry
    with a single muted link. *)
Definition page_one_link : Response :=
  page_of 200 [entry "octo / cat" None ["98"; "1,234"];
               entry "octo / dog" (Some "A dog.") ["12"]].

(** A complete entry followed by a bare one. *)
Definition page_bare : Response :=
  page_of 200 [entry "octo / cat" (Some "A cat.") ["98"; "1,234"];
               bare_entry].

(** A report as [generate_daily_report] saves it. *)
Definition sample_report : list (string * pyval) :=
  [("timestamp", PyStr "2024-05-01T12:00:00");
   ("full_report",
    PyStr (report_text "2024-05-01"
             ("Fine, " ++ String DQ "really" ++ String DQ ".") "C:\go"));
   ("note", PyStr "é 😀 —");
   ("counts", PyList [PyNum "10"; PyNum "-2500.0"; PyNum "1e+16"; PyNone;
                       PyDict []])].

Definition world_twelve : World := fixed_world (Ok page_twelve) (Ok "Fine.") 0.
Definition world_not_found : World :=
  fixed_world (Ok page_not_found) (Ok "Fine.") 0.

(** An answer with status 503 whose body still lists an entry. *)
Definition page_unavailable : Response :=
  page_of 503 [entry "octo / cat" (Some "A cat.") ["98"; "1,234"]].

Definition world_unavailable : World :=
  fixed_world (Ok page_unavailable) (Ok "Fine.") 0.
Definition world_one_link : World :=
  fixed_world (Ok page_one_link) (Ok "Fine.") 0.
Definition world_bare : World := fixed_world (Ok page_bare) (Ok "Fine.") 0.
Definition world_offline : World :=
  fixed_world (Raise ConnectionError) (Ok "Fine.") 0.
Definition world_no_service : World :=
  fixed_world (Ok page_twelve) (Raise APIError) 0.

(** ** Vocabulary of the properties *)

(** An article the loop body can turn into a record: it has a title and
    a second muted link. *)
Definition scrapable (article : node) : bool :=
  match select_one "h2" "h3" article,
        nth_error (select "a" "Link--muted" article) 1 with
  | Some _, Some _ => true
  | _, _ => false
  end.

(** The titled panels among the events: title and content of each. *)
Definition event_block (ev : event) : list (string * string) :=
  match ev with
  | ConsolePrint (Panel (Markdown body) (Some (Text title _)) _) _ =>
      [(title, body)]
  | _ => []
  end.

Definition section_blocks (events : list event) : list (string * string) :=
  flat_map event_block events.

(** The test of [display_report] on a section: something is left of it
    once the white space around it is stripped. *)
Definition nonblank (section : string) : bool := truthy (strip section).

(** Title and content of the panel of a section. *)
Definition section_block (section : string) : string * string :=
  let lines := split nl (strip section) in
  (hd EmptyString lines, join nl (tl lines)).

(** What follows a value in a dumped document: nothing, a comma or a line
    break. *)
Definition stops (tail : string) : bool :=
  match tail with
  | EmptyString => true
  | String c _ => Char.eqb c "," || Char.eqb c LF
  end.

(** A text of Python: its code points are those of Unicode. *)
Definition python_str (s : string) : bool :=
  forallb (fun c => N.ltb c 0x110000) (list_of_string s).

(** No high surrogate of the text is directly followed by a low one. *)
Fixpoint unpaired (s : string) : bool :=
  match s with
  | String a t =>
      match t with
      | String b _ => negb (Json.is_high a && Json.is_low b) && unpaired t
      | EmptyString => true
      end
  | EmptyString => true
  end.

(** What [json.load] reads where [json.dump] has written a character:
    the character, for the code points of Unicode. *)
Definition reread_char (c : char) : char :=
  if N.ltb c 0x10000 then c else (0x10000 + (c - 0x10000) mod 0x100000)%N.

(** What [json.load] reads where [json.dump] has written a text: a high
    surrogate directly followed by a low one comes back as the one
    character the two stand for, everything else as it was. *)
Fixpoint reread (s : string) : string :=
  match s with
  | String a t =>
      match t with
      | String b t' =>
          if Json.is_high a && Json.is_low b
          then String (Json.join_pair a b) (reread t')
          else String (reread_char a) (reread t)
      | EmptyString => String (reread_char a) EmptyString
      end
  | EmptyString => EmptyString
  end.

(** A number literal as [json.dump] writes one. *)
Definition valid_number (lit : string) : bool :=
  match Json.match_number lit with
  | Some (l, EmptyString) => String.eqb l lit
  | _ => false
  end
  || String.eqb lit "NaN" || String.eqb lit "Infinity"
  || String.eqb lit "-Infinity".

(** A value [json.dump] can be given: the keys of a dict are distinct and
    the numbers are literals. *)
Fixpoint well_formed (v : pyval) : Prop :=
  match v with
  | PyNum lit => valid_number lit = true
  | PyList items =>
      (fix all (l : list pyval) : Prop :=
         match l with
         | [] => True
         | x :: l' => well_formed x /\ all l'
         end) items
  | PyDict items =>
      NoDup (map fst items)
      /\ (fix all (l : list (string * pyval)) : Prop :=
            match l with
            | [] => True
            | (_, x) :: l' => well_formed x /\ all l'
            end) items
  | _ => True
  end.

(** What [json.load] reads where [json.dump] has written a value: the
    texts reread, those of the keys too, a later item of a dict replacing
    an earlier one under the same key. *)
Fixpoint reread_value (v : pyval) : pyval :=
  match v with
  | PyStr s => PyStr (reread s)
  | PyList items =>
      PyList ((fix each (l : list pyval) : list pyval :=
                 match l with
                 | [] => []
                 | x :: l' => reread_value x :: each l'
                 end) items)
  | PyDict items =>
      PyDict ((fix each (d : list (string * pyval))
                 (l : list (string * pyval)) : list (string * pyval) :=
                 match l with
                 | [] => d
                 | (k, x) :: l' =>
                     each (dict_set d (reread k) (reread_value x)) l'
                 end) [] items)
  | _ => v
  end.

(** The items of a list and of a dict, reread; those of a dict are set
    one after the other in [d]. *)
Definition reread_list (l : list pyval) : list pyval := map reread_value l.

Definition reread_items (d l : list (string * pyval)) : list (string * pyval) :=
  fold_left (fun d kv => dict_set d (reread (fst kv)) (reread_value (snd kv)))
            l d.

Fixpoint size (v : pyval) : nat :=
  match v with
  | PyList items =>
      S ((fix sum (l : list pyval) : nat :=
            match l with
            | [] => 0
            | x :: l' => size x + sum l'
            end) items)
  | PyDict items =>
      S ((fix sum (l : list (string * pyval)) : nat :=
            match l with
            | [] => 0
            | (_, x) :: l' => size x + sum l'
            end) items)
  | _ => 1
  end.

(** What [json.dump] writes, at nesting [level], for the items of a list
    and of a dict after the first. *)
Fixpoint items_text (level : nat) (l : list pyval) : string :=
  match l with
  | [] => EmptyString
  | y :: l' =>
      "," ++ Json.newline_indent (S level) ++ Json.encode (S level) y
      ++ items_text level l'
  end.

Fixpoint fields_text (level : nat) (l : list (string * pyval)) : string :=
  match l with
  | [] => EmptyString
  | (k, y) :: l' =>
      "," ++ Json.newline_indent (S level)
      ++ Json.encode_str k ++ ": " ++ Json.encode (S level) y
      ++ fields_text level l'
  end.

(** The decoder reads the encoding of every well-formed value of size at
    most [n] as that value reread, whatever follows it in the document. *)
Definition roundtrip_upto (n : nat) : Prop :=
  forall v, size v <= n -> well_formed v ->
  forall level tail g,
    stops tail = true ->
    String.length (Json.encode level v ++ tail) <= g ->
    Json.scan_once g (Json.encode level v ++ tail)
    = Some (reread_value v, tail).

(** [text] is a JSON document that stands for [v]: with some fuel the
    scanner reads [v] from it and leaves white space only. *)
Definition json_document (text : string) (v : pyval) : Prop :=
  exists fuel rest,
    Json.scan_once fuel (Json.skip_ws text) = Some (v, rest)
    /\ Json.skip_ws rest = EmptyString.

(** A successful scan with fuel [f] consumes input and succeeds alike with
    any fuel that is at least the number of characters consumed. *)
Definition fuel_enough (f : nat) : Prop :=
  (forall s v r,
      Json.scan_once f s = Some (v, r) ->
      String.length r < String.length s
      /\ forall g, String.length s - String.length r <= g ->
                   Json.scan_once g s = Some (v, r))
  /\ (forall d s v r,
         Json.members f d s = Some (v, r) ->
         String.length r < String.length s
         /\ forall g, String.length s - String.length r <= g ->
                      Json.members g d s = Some (v, r))
  /\ (forall acc s v r,
         Json.elements f acc s = Some (v, r) ->
         String.length r < String.length s
         /\ forall g, String.length s - String.length r <= g ->
                      Json.elements g acc s = Some (v, r)).

(** The events of a refresh run. *)
Definition fetching_message : event :=
  ConsolePrint (Str "🔄 Fetching fresh data...") (Some "bold green").

Definition request (language : option string) : event :=
  HttpGet (trending_url language) user_agent.

Definition completion (repos : list repo) : event :=
  ChatCompletion system_prompt (summary_prompt repos) "llama3-70b-8192".

(** What a refresh run has done when it stops on an exception: it stops
    at the request or at the completion call that raised. *)
Inductive aborted_run : list event -> Prop :=
| aborted_fetch_all :
    aborted_run [fetching_message; request None]
| aborted_summary_all (all_trending : list repo) :
    aborted_run [fetching_message; request None; StdoutPrint all_trending;
                 completion all_trending]
| aborted_fetch_go (all_trending : list repo) :
    aborted_run [fetching_message; request None; StdoutPrint all_trending;
                 completion all_trending; request (Some "go")]
| aborted_summary_go (all_trending golang_trending : list repo) :
    aborted_run [fetching_message; request None; StdoutPrint all_trending;
                 completion all_trending; request (Some "go");
                 completion golang_trending].

(** The state of a refresh run once its opening message is printed, and
    the state after the records of the first request are printed. *)
Definition after_message `{World} (st : State) : State :=
  snd (emit fetching_message (snd (should_refresh_cache st))).

Definition after_print `{World} (all_trending : list repo) (st : State)
  : State :=
  snd (emit (StdoutPrint all_trending) st).

(** In the refresh run that starts in [st], one of the four calls raises
    [e] and leaves the state [st']: the calls before it have returned. *)
Inductive call_raises `{World} (st : State) (e : exn) (st' : State) : Prop :=
| fetch_all_raises :
    fetch_trending_repos None (after_message st) = (Raise e, st') ->
    call_raises st e st'
| summary_all_raises (all_trending : list repo) (s1 : State) :
    fetch_trending_repos None (after_message st) = (Ok all_trending, s1) ->
    generate_repo_summary all_trending (after_print all_trending s1)
    = (Raise e, st') ->
    call_raises st e st'
| fetch_go_raises (all_trending : list repo) (s1 s2 : State)
    (all_repos_summary : string) :
    fetch_trending_repos None (after_message st) = (Ok all_trending, s1) ->
    generate_repo_summary all_trending (after_print all_trending s1)
    = (Ok all_repos_summary, s2) ->
    fetch_trending_repos (Some "go") s2 = (Raise e, st') ->
    call_raises st e st'
| summary_go_raises (all_trending golang_trending : list repo)
    (s1 s2 s3 : State) (all_repos_summary : string) :
    fetch_trending_repos None (after_message st) = (Ok all_trending, s1) ->
    generate_repo_summary all_trending (after_print all_trending s1)
    = (Ok all_repos_summary, s2) ->
    fetch_trending_repos (Some "go") s2 = (Ok golang_trending, s3) ->
    generate_repo_summary golang_trending s3 = (Raise e, st') ->
    call_raises st e st'.

(** [st'] is [st] after the events [evs], the cache file untouched. *)
Definition extends `{World} (st st' : State) (evs : list event) : Prop :=
  cache_file st' = cache_file st /\ trace st' = (trace st ++ evs)%list.

(** ** Vocabulary of the further properties *)

Definition loading_message : event :=
  ConsolePrint (Str "📂 Loading report from cache...") (Some "bold blue").

Definition done_message : event :=
  ConsolePrint (Str "✨ Fresh report generated and cached!")
               (Some "bold green").

(** An event that stays on the console. *)
Definition console (ev : event) : bool :=
  match ev with
  | ConsolePrint _ _ => true
  | _ => false
  end.

(** The dict that [generate_daily_report] caches. *)
Definition cache_data (stamp full_report : string) : pyval :=
  PyDict [("timestamp", PyStr stamp); ("full_report", PyStr full_report)].

(** The four prints that open [display_report]. *)
Definition banner (date : string) : list event :=
  [ConsolePrint (Str nl) None;
   ConsolePrint
     (Panel (Text "🚀 GitHub Trending Repositories Report" "bold magenta")
            None "bright_blue") None;
   ConsolePrint (Text ("Generated on: " ++ date) "italic cyan") None;
   ConsolePrint (Str nl) None].

(** The two prints of [display_report] for each section that is not
    blank. *)
Definition section_events (sections : list string) : list event :=
  flat_map (fun section =>
              [ConsolePrint (section_panel section) None;
               ConsolePrint (Str nl) None])
           (filter nonblank sections).

(** The first and the last character of a text, when it has any. *)
Definition first_char (s : string) : option char :=
  match s with
  | String c _ => Some c
  | EmptyString => None
  end.

Fixpoint last_char (s : string) : option char :=
  match s with
  | EmptyString => None
  | String c EmptyString => Some c
  | String _ s' => last_char s'
  end.

(** Neither end of the text is white space. *)
Definition trimmed (s : string) : bool :=
  match first_char s, last_char s with
  | Some a, Some b => negb (isspace a) && negb (isspace b)
  | _, _ => true
  end.

(** What can follow a value inside a list or a dict: white space, a comma
    or a closing bracket. *)
Definition closes (rest : string) : bool :=
  match rest with
  | String c _ =>
      Json.is_ws c || Char.eqb c "," || Char.eqb c "}" || Char.eqb c "]"
  | EmptyString => false
  end.

(** What a successful scan has read does not depend on what comes after
    it: more text after the input is left over with the rest.  A number
    is the exception, when nothing that closes it follows. *)
Definition scan_local (f : nat) : Prop :=
  (forall s v r t,
      Json.scan_once f s = Some (v, r) ->
      closes r = true \/ Json.match_number s = None ->
      Json.scan_once f (s ++ t) = Some (v, r ++ t))
  /\ (forall d s v r t,
         Json.members f d s = Some (v, r) ->
         Json.members f d (s ++ t) = Some (v, r ++ t))
  /\ (forall acc s v r t,
         Json.elements f acc s = Some (v, r) ->
         Json.elements f acc (s ++ t) = Some (v, r ++ t)).


(** A printable ASCII character or a line feed. *)
Definition plain (c : char) : bool :=
  (N.leb 32 c && N.leb c 126) || Char.eqb c LF.

Definition plain_text (s : string) : bool :=
  forallb plain (list_of_string s).

(** * Properties *)

(** ** Characters and strings *)

Lemma char_eqb_eq (a b : char) : Char.eqb a b = true <-> a = b.
Proof. apply N.eqb_eq. Qed.

Lemma char_eqb_neq (a b : char) : Char.eqb a b = false <-> a <> b.
Proof. apply N.eqb_neq. Qed.

Lemma char_eqb_refl (a : char) : Char.eqb a a = true.
Proof. apply N.eqb_refl. Qed.

Lemma char_eqb_sym (a b : char) : Char.eqb a b = Char.eqb b a.
Proof. apply N.eqb_sym. Qed.

Lemma string_eqb_eq (a b : string) : String.eqb a b = true <-> a = b.
Proof.
  revert b. induction a as [|x a IH]; intros [|y b]; cbn [String.eqb];
    try (split; [discriminate | discriminate]); [tauto|].
  rewrite andb_true_iff, char_eqb_eq, IH. split.
  - intros [-> ->]. reflexivity.
  - intros Heq. injection Heq as -> ->. auto.
Qed.

(** ** The freshness policy *)

Section Freshness.

Context `{World}.

Lemma should_refresh_cache_absent (st : State) :
  cache_file st = None -> should_refresh_cache st = (Ok true, st).
Proof.
  intros Hnone. unfold should_refresh_cache. rewrite Hnone. reflexivity.
Qed.

Lemma should_refresh_cache_present (st : State) (f : File) :
  cache_file st = Some f ->
  fst (should_refresh_cache st)
  = Ok (Z.gtb (fst (datetime_now (world st)) - fromtimestamp (mtime f))
              (timedelta_hours 24)).
Proof.
  intros Hsome. unfold should_refresh_cache. rewrite Hsome.
  unfold bind, ret, now. destruct (datetime_now (world st)) as [t w].
  reflexivity.
Qed.

(** The difference of the two naive datetimes: the time elapsed, and the
    change of the offset of the zone. *)
Lemma naive_age (st : State) (f : File) :
  let current := fst (time_time (world st)) in
  (fst (datetime_now (world st)) - fromtimestamp (mtime f)
   = (current - mtime f) + (utcoffset current - utcoffset (mtime f)))%Z.
Proof.
  cbv zeta. unfold datetime_now, fromtimestamp.
  destruct (time_time (world st)) as [t w]. cbn [fst]. lia.
Qed.

(** C1.  Without a cache file a refresh is required.  With one, the report
    is fresh (no refresh) exactly when the naive local time of the check
    minus the naive local time of the file's modification is at most 24
    hours, that is 86,400,000,000 microseconds: the time elapsed since the
    modification, plus the change of the zone's UTC offset between the two
    instants.  Where the offset has not changed, a file modified 24 hours
    less one second ago is fresh, one modified 24 hours and one second ago
    is stale. *)
Theorem should_refresh_cache_policy (st : State) :
  match cache_file st with
  | None => fst (should_refresh_cache st) = Ok true
  | Some f =>
      let current := fst (time_time (world st)) in
      let elapsed := (current - mtime f)%Z in
      let shift := (utcoffset current - utcoffset (mtime f))%Z in
      (fst (should_refresh_cache st) = Ok false
       <-> (elapsed + shift <= 86400000000)%Z)
      /\ (fst (should_refresh_cache st) = Ok true
          <-> (elapsed + shift > 86400000000)%Z)
      /\ (shift = 0%Z ->
          (elapsed = 86399000000%Z ->
           fst (should_refresh_cache st) = Ok false)
          /\ (elapsed = 86401000000%Z ->
              fst (should_refresh_cache st) = Ok true))
  end.
Proof.
  destruct (cache_file st) as [f|] eqn:Hfile.
  - cbv zeta. rewrite (should_refresh_cache_present st f Hfile).
    pose proof (naive_age st f) as Hage. cbv zeta in Hage. rewrite Hage.
    set (elapsed := (fst (time_time (world st)) - mtime f)%Z).
    set (shift := (utcoffset (fst (time_time (world st)))
                   - utcoffset (mtime f))%Z).
    unfold timedelta_hours.
    destruct (Z.gtb_spec (elapsed + shift) (24 * 3600 * 1000000)) as [Hgt|Hle];
      repeat split; intros; try discriminate; try reflexivity; lia.
  - rewrite (should_refresh_cache_absent st Hfile). reflexivity.
Qed.

(** C9.  The decision reads the file's existence and modification time
    only: two states with the same clock in which the cache file exists
    alike and, where it exists, was modified at the same time decide
    alike, whatever the two files contain. *)
Theorem should_refresh_cache_ignores_content (st1 st2 : State) :
  option_map mtime (cache_file st1) = option_map mtime (cache_file st2) ->
  world st1 = world st2 ->
  fst (should_refresh_cache st1) = fst (should_refresh_cache st2).
Proof.
  intros Hm Hw.
  destruct (cache_file st1) as [f1|] eqn:H1;
    destruct (cache_file st2) as [f2|] eqn:H2;
    try discriminate Hm.
  - rewrite (should_refresh_cache_present st1 f1 H1).
    rewrite (should_refresh_cache_present st2 f2 H2).
    cbn [option_map] in Hm. injection Hm as Hm.
    rewrite Hm, Hw. reflexivity.
  - rewrite (should_refresh_cache_absent st1 H1).
    rewrite (should_refresh_cache_absent st2 H2). reflexivity.
Qed.

End Freshness.

(** The boundary, on a clock that stands at noon of some day, in a zone
    that keeps the time of UTC: a file written 24 hours less a second
    before is fresh, at 24 hours sharp it is still fresh, a second later
    it is stale. *)
Example should_refresh_cache_boundary :
  let noon := 1714564800000000%Z in
  let clock := fixed_world (Raise ConnectionError) (Raise APIError) noon in
  let run age :=
    fst (@should_refresh_cache clock
           (@initial_state clock
              (Some {| mtime := noon - age; content := "{}" |}) tt)) in
  run 86399000000%Z = Ok false
  /\ run 86400000000%Z = Ok false
  /\ run 86401000000%Z = Ok true.
Proof.
  repeat split.
Qed.

(** C1 fails as stated.  In Paris the clocks went forward on 31 March
    2024: a file modified on 30 March at 12:00:00 UTC is judged stale on
    31 March at 11:59:59 UTC, 24 hours less one second later.  They went
    back on 27 October 2024: a file modified on 26 October at 12:00:00 UTC
    is judged fresh on 27 October at 12:00:01 UTC, 24 hours and one second
    later. *)
Lemma should_refresh_cache_daylight_saving :
  (let modified := 1711800000000000%Z in
   let checked := (modified + 86399000000)%Z in
   let paris := zone_world europe_paris checked in
   fst (@should_refresh_cache paris
          (@initial_state paris
             (Some {| mtime := modified; content := "{}" |}) tt))
   = Ok true)
  /\ (let modified := 1729944000000000%Z in
      let checked := (modified + 86401000000)%Z in
      let paris := zone_world europe_paris checked in
      fst (@should_refresh_cache paris
             (@initial_state paris
                (Some {| mtime := modified; content := "{}" |}) tt))
      = Ok false).
Proof.
  split; reflexivity.
Qed.

Lemma should_refresh_cache_ignores_content_witness :
  fst (@should_refresh_cache world_twelve
         (@initial_state world_twelve
            (Some {| mtime := 0; content := Json.dumps (PyDict sample_report) |})
            tt))
  = fst (@should_refresh_cache world_twelve
           (@initial_state world_twelve
              (Some {| mtime := 0; content := "{}" |}) tt)).
Proof.
  apply (@should_refresh_cache_ignores_content world_twelve); reflexivity.
Defined.

(** ** Strings: what [replace] removes *)

Lemma startswith_single (c a : char) (s : string) :
  startswith (String a s) (String c EmptyString) = Char.eqb c a.
Proof.
  simpl. apply andb_true_r.
Qed.

(** Replacing a character by nothing keeps exactly the other characters. *)
Lemma replace_char_In (c a : char) (s : string) :
  In a (list_of_string (replace (String c EmptyString) EmptyString s))
  <-> In a (list_of_string s) /\ a <> c.
Proof.
  unfold replace. induction s as [|b s IH].
  - simpl. tauto.
  - cbn [replace_from]. rewrite startswith_single.
    destruct (Char.eqb c b) eqn:Hcb.
    + apply char_eqb_eq in Hcb. subst b. cbn [String.length Nat.sub append].
      rewrite IH. simpl. split.
      * intros [Hin Hne]. auto.
      * intros [[Heq|Hin] Hne]; [congruence | auto].
    + apply char_eqb_neq in Hcb. simpl. rewrite IH. split.
      * intros [Heq|[Hin Hne]]; [subst; split; auto; congruence | auto].
      * intros [[Heq|Hin] Hne]; auto.
Qed.

(** ** The scraper *)

Lemma scrape_articles_acc (articles : list node) :
  forall acc,
    scrape_articles articles acc
    = match scrape_articles articles [] with
      | Ok records => Ok (acc ++ records)%list
      | Raise e => Raise e
      end.
Proof.
  induction articles as [|a l IH]; intros acc; simpl.
  - rewrite app_nil_r. reflexivity.
  - destruct (scrape_article a) as [r|e]; [|reflexivity].
    rewrite (IH (acc ++ [r])%list), (IH [r]).
    destruct (scrape_articles l []) as [rs|e]; [|reflexivity].
    rewrite <- app_assoc. reflexivity.
Qed.

Lemma scrape_articles_cons (a : node) (l : list node) :
  scrape_articles (a :: l) []
  = match scrape_article a with
    | Ok r => match scrape_articles l [] with
              | Ok rs => Ok (r :: rs)
              | Raise e => Raise e
              end
    | Raise e => Raise e
    end.
Proof.
  simpl. destruct (scrape_article a) as [r|e]; [|reflexivity].
  rewrite scrape_articles_acc. reflexivity.
Qed.

(** The loop returns exactly when every article can be scraped, and then
    the records are those of the articles, in their order. *)
Lemma scrape_articles_Ok (articles : list node) (records : list repo) :
  scrape_articles articles [] = Ok records
  <-> map scrape_article articles = map Ok records.
Proof.
  revert records. induction articles as [|a l IH]; intros records.
  - simpl. split.
    + intros Heq. injection Heq as <-. reflexivity.
    + destruct records; [reflexivity | discriminate].
  - rewrite scrape_articles_cons. simpl. split.
    + destruct (scrape_article a) as [r|e]; [|discriminate].
      destruct (scrape_articles l []) as [rs|e] eqn:Hl; [|discriminate].
      intros Heq. injection Heq as <-. simpl. f_equal. apply IH. reflexivity.
    + destruct records as [|r rs]; [discriminate|]. simpl.
      intros Heq. injection Heq as Ha Hl. rewrite Ha.
      apply IH in Hl. rewrite Hl. reflexivity.
Qed.

Lemma scrapable_Ok (article : node) :
  scrapable article = true <-> exists r, scrape_article article = Ok r.
Proof.
  unfold scrapable, scrape_article.
  destruct (select_one "h2" "h3" article) as [t|].
  - destruct (nth_error (select "a" "Link--muted" article) 1) as [s|].
    + split; [eauto | reflexivity].
    + split; [discriminate | intros [r Hr]; discriminate].
  - split; [discriminate | intros [r Hr]; discriminate].
Qed.

Lemma scrape_articles_scrapable (articles : list node) :
  forallb scrapable articles = true ->
  exists records, scrape_articles articles [] = Ok records.
Proof.
  induction articles as [|a l IH]; simpl.
  - eauto.
  - intros Hall. apply andb_prop in Hall as [Ha Hl].
    apply scrapable_Ok in Ha as [r Hr]. destruct (IH Hl) as [rs Hrs].
    exists (r :: rs). change (scrape_articles (a :: l) [] = Ok (r :: rs)).
    rewrite scrape_articles_cons, Hr, Hrs. reflexivity.
Qed.

(** What a record looks like when the loop body returns one. *)
Lemma scrape_article_record (article : node) (r : repo) :
  scrape_article article = Ok r ->
  html_url r = "https://github.com/" ++ full_name r
  /\ (exists title, full_name r = replace " " "" (replace nl "" title))
  /\ (select_one "p" "col-9" article = None -> description r = "").
Proof.
  unfold scrape_article.
  destruct (select_one "h2" "h3" article) as [t|]; [|discriminate].
  destruct (nth_error (select "a" "Link--muted" article) 1) as [s|];
    [|discriminate].
  intros Heq. injection Heq as <-. cbn [html_url full_name description].
  split; [reflexivity|]. split; [eauto|].
  intros ->. reflexivity.
Qed.

Section Fetch.

Context `{World}.

(** The request is made and recorded; the call raises what the request
    raises, and otherwise returns what the loop makes of the body. *)
Lemma fetch_trending_repos_unfold (language : option string) (st : State) :
  fetch_trending_repos language st
  = let url := trending_url language in
    let (response, w) := requests_get url user_agent (world st) in
    let st' := {| cache_file := cache_file st;
                  trace := trace st ++ [HttpGet url user_agent];
                  world := w |} in
    match response with
    | Raise e => (Raise e, st')
    | Ok page =>
        match scrape_articles (select "article" "Box-row" (soup page)) [] with
        | Ok records => (Ok (firstn 10 records), st')
        | Raise e => (Raise e, st')
        end
    end.
Proof.
  unfold fetch_trending_repos, bind, call, lift, ret. cbv zeta.
  destruct (requests_get (trending_url language) user_agent (world st))
    as [[page|e] w]; [|reflexivity].
  destruct (scrape_articles (select "article" "Box-row" (soup page)) []);
    reflexivity.
Qed.

Lemma fetch_trending_repos_state (language : option string) (st : State) :
  let st' := snd (fetch_trending_repos language st) in
  cache_file st' = cache_file st
  /\ trace st' = (trace st ++ [HttpGet (trending_url language) user_agent])%list.
Proof.
  rewrite fetch_trending_repos_unfold. cbv zeta.
  destruct (requests_get (trending_url language) user_agent (world st))
    as [[page|e] w]; [|split; reflexivity].
  destruct (scrape_articles (select "article" "Box-row" (soup page)) []);
    split; reflexivity.
Qed.

End Fetch.

Lemma In_firstn {A : Type} (n : nat) (l : list A) (x : A) :
  In x (firstn n l) -> In x l.
Proof.
  intros Hin. rewrite <- (firstn_skipn n l). apply in_or_app. left. exact Hin.
Qed.

Lemma scrape_articles_unscrapable (articles : list node) :
  forallb scrapable articles = false ->
  exists e, scrape_articles articles [] = Raise e.
Proof.
  induction articles as [|a l IH]; [discriminate|].
  intros Hall. rewrite scrape_articles_cons.
  destruct (scrape_article a) as [r|e] eqn:Ha; [|eauto].
  assert (Hs : scrapable a = true) by (apply scrapable_Ok; eauto).
  simpl in Hall. rewrite Hs in Hall. destruct (IH Hall) as [e He].
  rewrite He. eauto.
Qed.

Section FetchProperties.

Context `{World}.

(** On a page whose entries can all be scraped, the call returns the
    records of the first ten of them. *)
Lemma fetch_trending_repos_scrapable (language : option string) (st : State)
  (page : Response) (w : W) :
  requests_get (trending_url language) user_agent (world st) = (Ok page, w) ->
  let articles := select "article" "Box-row" (soup page) in
  forallb scrapable articles = true ->
  exists records,
    fst (fetch_trending_repos language st) = Ok records
    /\ map scrape_article (firstn 10 articles) = map Ok records.
Proof.
  intros Hget articles Hall.
  destruct (scrape_articles_scrapable articles Hall) as [rs Hrs].
  exists (firstn 10 rs). rewrite fetch_trending_repos_unfold. cbv zeta.
  rewrite Hget. fold articles. rewrite Hrs. split; [reflexivity|].
  apply scrape_articles_Ok in Hrs.
  rewrite <- !firstn_map, Hrs. reflexivity.
Qed.

(** C2, as the code has it.  The call raises what [requests.get] raises.
    When the request returns, its status code is not looked at: the
    outcome is what the loop makes of the body, and two responses with the
    same body give the same outcome, whatever their status codes. *)
Theorem fetch_trending_repos_status_unchecked
  (language : option string) (st : State) :
  let url := trending_url language in
  (forall e w,
      requests_get url user_agent (world st) = (Raise e, w) ->
      fst (fetch_trending_repos language st) = Raise e)
  /\ (forall page w,
        requests_get url user_agent (world st) = (Ok page, w) ->
        fst (fetch_trending_repos language st)
        = match scrape_articles (select "article" "Box-row" (soup page)) []
          with
          | Ok records => Ok (firstn 10 records)
          | Raise e => Raise e
          end
        /\ forall st' page' w',
            requests_get url user_agent (world st') = (Ok page', w') ->
            soup page' = soup page ->
            fst (fetch_trending_repos language st')
            = fst (fetch_trending_repos language st)).
Proof.
  cbv zeta. split.
  - intros e w Hget. rewrite fetch_trending_repos_unfold. cbv zeta.
    rewrite Hget. reflexivity.
  - intros page w Hget.
    assert (Hout : forall s p w0,
               requests_get (trending_url language) user_agent (world s)
               = (Ok p, w0) ->
               fst (fetch_trending_repos language s)
               = match scrape_articles
                         (select "article" "Box-row" (soup p)) [] with
                 | Ok records => Ok (firstn 10 records)
                 | Raise e => Raise e
                 end).
    { intros s p w0 Hs. rewrite fetch_trending_repos_unfold. cbv zeta.
      rewrite Hs.
      destruct (scrape_articles (select "article" "Box-row" (soup p)) []);
        reflexivity. }
    split; [exact (Hout st page w Hget)|].
    intros st' page' w' Hget' Hbody.
    rewrite (Hout st page w Hget), (Hout st' page' w' Hget'), Hbody.
    reflexivity.
Qed.

(** C4, as the code has it.  When each of the N entries of the page has a
    title and a second muted link, the call returns min(N, 10) records,
    those of the first entries in page order; when an entry lacks one of
    the two, the call raises. *)
Theorem fetch_trending_repos_bound (language : option string) (st : State)
  (page : Response) (w : W) :
  requests_get (trending_url language) user_agent (world st) = (Ok page, w) ->
  let articles := select "article" "Box-row" (soup page) in
  (forallb scrapable articles = true ->
   exists records,
     fst (fetch_trending_repos language st) = Ok records
     /\ List.length records = Nat.min (List.length articles) 10
     /\ map scrape_article (firstn 10 articles) = map Ok records)
  /\ (forallb scrapable articles = false ->
      exists e, fst (fetch_trending_repos language st) = Raise e).
Proof.
  intros Hget articles. split; intros Hall.
  - destruct (fetch_trending_repos_scrapable language st page w Hget Hall)
      as [records [Hret Hmap]].
    exists records. split; [exact Hret|]. split; [|exact Hmap].
    apply (f_equal (@List.length _)) in Hmap.
    rewrite !length_map, length_firstn in Hmap. fold articles in Hmap. lia.
  - destruct (scrape_articles_unscrapable articles Hall) as [e He].
    exists e. rewrite fetch_trending_repos_unfold. cbv zeta.
    rewrite Hget. fold articles. rewrite He. reflexivity.
Qed.

(** C8, as the code has it.  On a page whose entries all have a title and
    a second muted link, an entry among the first ten that has no
    description element yields the record at its position, with the empty
    string as description. *)
Theorem fetch_trending_repos_missing_description
  (language : option string) (st : State) (page : Response) (w : W)
  (i : nat) (article : node) :
  requests_get (trending_url language) user_agent (world st) = (Ok page, w) ->
  forallb scrapable (select "article" "Box-row" (soup page)) = true ->
  nth_error (select "article" "Box-row" (soup page)) i = Some article ->
  i < 10 ->
  select_one "p" "col-9" article = None ->
  exists records r,
    fst (fetch_trending_repos language st) = Ok records
    /\ nth_error records i = Some r
    /\ scrape_article article = Ok r
    /\ description r = "".
Proof.
  intros Hget Hall Hnth Hi Hnone.
  destruct (fetch_trending_repos_scrapable language st page w Hget Hall)
    as [records [Hret Hmap]].
  apply (f_equal (fun l => nth_error l i)) in Hmap.
  rewrite !nth_error_map, nth_error_firstn in Hmap.
  apply Nat.ltb_lt in Hi. rewrite Hi, Hnth in Hmap. cbn [option_map] in Hmap.
  destruct (nth_error records i) as [r|] eqn:Hr; [|discriminate].
  cbn [option_map] in Hmap. injection Hmap as Hart.
  exists records, r. repeat split; try assumption.
  apply (scrape_article_record article r Hart). exact Hnone.
Qed.

(** C10.  In every record returned, the URL is the fixed prefix followed
    by the full name, and the full name holds neither a space nor a line
    feed. *)
Theorem fetch_trending_repos_urls (language : option string) (st : State)
  (records : list repo) (r : repo) :
  fst (fetch_trending_repos language st) = Ok records ->
  In r records ->
  html_url r = "https://github.com/" ++ full_name r
  /\ forall c, In c (list_of_string (full_name r)) ->
               c <> " "%char /\ c <> LF.
Proof.
  rewrite fetch_trending_repos_unfold. cbv zeta.
  destruct (requests_get (trending_url language) user_agent (world st))
    as [[page|e] w]; [|discriminate].
  destruct (scrape_articles (select "article" "Box-row" (soup page)) [])
    as [rs|e] eqn:Hrs; [|discriminate].
  cbn [fst]. intros Heq Hin.
  assert (Hrec : firstn 10 rs = records) by (injection Heq as Hx; exact Hx).
  rewrite <- Hrec in Hin. clear Heq Hrec.
  apply In_firstn in Hin. apply scrape_articles_Ok in Hrs.
  assert (Hok : In (Ok r) (map scrape_article
                             (select "article" "Box-row" (soup page)))).
  { rewrite Hrs. apply in_map. exact Hin. }
  apply in_map_iff in Hok as [article [Hart _]].
  destruct (scrape_article_record article r Hart) as [Hurl [[title Hname] _]].
  split; [exact Hurl|].
  intros c Hc. rewrite Hname in Hc.
  apply (replace_char_In " " c) in Hc as [Hc Hspace].
  apply (replace_char_In LF c) in Hc as [_ Hlf].
  split; assumption.
Qed.

End FetchProperties.

(** *** The scraper on concrete pages *)

(** C2 fails as stated: the listing request is answered 404, with a body
    that holds no entry, and the call returns normally, with the empty
    list of records; it is answered 503, with a body that lists an entry,
    and the call returns the record of that entry. *)
Lemma fetch_trending_repos_not_found :
  (status_code page_not_found = 404%Z
   /\ fst (@requests_get world_not_found (trending_url None) user_agent tt)
      = Ok page_not_found
   /\ fst (@fetch_trending_repos world_not_found None
             (@initial_state world_not_found None tt))
      = Ok [])
  /\ (status_code page_unavailable = 503%Z
      /\ fst (@requests_get world_unavailable (trending_url None)
                user_agent tt)
         = Ok page_unavailable
      /\ fst (@fetch_trending_repos world_unavailable None
                (@initial_state world_unavailable None tt))
         = Ok [{| full_name := "octo/cat";
                  description := "A cat.";
                  html_url := "https://github.com/octo/cat";
                  stargazers_count := "1,234" |}]).
Proof.
  repeat split.
Qed.

(** C4 fails as stated: the page has two entries matching
    article.Box-row, the first complete, the second without a title, and
    the call raises instead of returning records. *)
Lemma fetch_trending_repos_bare_entry :
  select "article" "Box-row" (soup page_bare)
  = [entry "octo / cat" (Some "A cat.") ["98"; "1,234"]; bare_entry]
  /\ fst (@fetch_trending_repos world_bare None
            (@initial_state world_bare None tt))
     = Raise AttributeError.
Proof.
  split; reflexivity.
Qed.

Lemma fetch_trending_repos_bound_witness :
  exists records,
    fst (@fetch_trending_repos world_twelve None
           (@initial_state world_twelve None tt)) = Ok records
    /\ List.length records = Nat.min 12 10
    /\ map scrape_article
         (firstn 10 (select "article" "Box-row" (soup page_twelve)))
       = map Ok records.
Proof.
  destruct (@fetch_trending_repos_bound world_twelve None
              (@initial_state world_twelve None tt) page_twelve tt eq_refl)
    as [Hall _].
  apply Hall. reflexivity.
Defined.

(** C8 fails as stated.  The first entry of a page has a title and two
    muted links and no description, the second has a single muted link:
    the call raises, no record comes of the first entry.  The eleventh
    entry of a page of twelve complete entries has no description: the
    call returns ten records, none of them for that entry. *)
Lemma fetch_trending_repos_one_link :
  (let cat := entry "octo / cat" None ["98"; "1,234"] in
   nth_error (select "article" "Box-row" (soup page_one_link)) 0 = Some cat
   /\ scrapable cat = true
   /\ select_one "p" "col-9" cat = None
   /\ fst (@fetch_trending_repos world_one_link None
             (@initial_state world_one_link None tt))
      = Raise IndexError)
  /\ (let k := entry "octo / k" None ["98"; "1,234"] in
      nth_error (select "article" "Box-row" (soup page_twelve)) 10 = Some k
      /\ scrapable k = true
      /\ select_one "p" "col-9" k = None
      /\ exists records,
           fst (@fetch_trending_repos world_twelve None
                  (@initial_state world_twelve None tt)) = Ok records
           /\ List.length records = 10
           /\ forallb (fun r => negb (String.eqb (full_name r) "octo/k"))
                      records = true).
Proof.
  split.
  - repeat split.
  - split; [reflexivity|]. split; [reflexivity|]. split; [reflexivity|].
    eexists. split; [reflexivity|]. split; reflexivity.
Qed.

Lemma fetch_trending_repos_missing_description_witness :
  exists records r,
    fst (@fetch_trending_repos world_twelve None
           (@initial_state world_twelve None tt)) = Ok records
    /\ nth_error records 1 = Some r
    /\ scrape_article
         (entry "octo / b" None ["98"; "1,234"]) = Ok r
    /\ description r = "".
Proof.
  apply (@fetch_trending_repos_missing_description world_twelve None
           (@initial_state world_twelve None tt) page_twelve tt 1
           (entry "octo / b" None ["98"; "1,234"]));
    try reflexivity.
  apply Nat.ltb_lt. reflexivity.
Defined.

Lemma fetch_trending_repos_urls_witness :
  let r := {| full_name := "octo/b";
              description := "";
              html_url := "https://github.com/octo/b";
              stargazers_count := "1,234" |} in
  html_url r = "https://github.com/" ++ full_name r
  /\ forall c, In c (list_of_string (full_name r)) ->
               c <> " "%char /\ c <> LF.
Proof.
  intros r.
  apply (@fetch_trending_repos_urls world_twelve None
           (@initial_state world_twelve None tt)
           (firstn 10 (map (fun name =>
              {| full_name := "octo/" ++ name;
                 description :=
                   if String.eqb name "b" then "" else "about " ++ name;
                 html_url := "https://github.com/octo/" ++ name;
                 stargazers_count := "1,234" |})
              ["a"; "b"; "c"; "d"; "e"; "f"; "g"; "h"; "i"; "j"]))).
  - reflexivity.
  - right. left. reflexivity.
Defined.

(** ** The refresh pipeline *)

Section Pipeline.

Context `{World}.

Lemma extends_trans (st1 st2 st3 : State) (e1 e2 : list event) :
  extends st1 st2 e1 -> extends st2 st3 e2 -> extends st1 st3 (e1 ++ e2)%list.
Proof.
  intros [Hc1 Ht1] [Hc2 Ht2]. split.
  - congruence.
  - rewrite Ht2, Ht1, app_assoc. reflexivity.
Qed.

Lemma bind_Raise {A B : Type} (m : M A) (k : A -> M B) (st st' : State)
  (e : exn) :
  bind m k st = (Raise e, st') ->
  m st = (Raise e, st')
  \/ exists a st1, m st = (Ok a, st1) /\ k a st1 = (Raise e, st').
Proof.
  unfold bind. destruct (m st) as [[a|e0] st1]; intros Hrun.
  - right. eauto.
  - left. injection Hrun as -> ->. reflexivity.
Qed.

Lemma emit_extends (ev : event) (st : State) :
  exists st1, emit ev st = (Ok tt, st1) /\ extends st st1 [ev].
Proof.
  eexists. split; [reflexivity|]. split; reflexivity.
Qed.

Lemma now_extends (st : State) :
  exists t st1, now st = (Ok t, st1) /\ extends st st1 [].
Proof.
  unfold now. destruct (datetime_now (world st)) as [t w].
  eexists _, _. split; [reflexivity|]. split; cbn; [|rewrite app_nil_r];
    reflexivity.
Qed.

Lemma should_refresh_cache_extends (st : State) :
  exists b st1, should_refresh_cache st = (Ok b, st1) /\ extends st st1 [].
Proof.
  unfold should_refresh_cache. destruct (cache_file st) as [f|] eqn:Hfile.
  - unfold bind, ret. destruct (now_extends st) as [t [st1 [Hnow Hext]]].
    rewrite Hnow. eauto.
  - eexists _, _. split; [reflexivity|]. split; [|rewrite app_nil_r];
      reflexivity.
Qed.

Lemma fetch_trending_repos_extends (language : option string) (st : State) :
  extends st (snd (fetch_trending_repos language st)) [request language].
Proof.
  exact (fetch_trending_repos_state language st).
Qed.

Lemma generate_repo_summary_extends (repos : list repo) (st : State) :
  extends st (snd (generate_repo_summary repos st)) [completion repos].
Proof.
  unfold generate_repo_summary, call.
  destruct (chat_completions_create system_prompt (summary_prompt repos)
              "llama3-70b-8192" (world st)) as [r w].
  split; reflexivity.
Qed.

Lemma save_cache_Ok (report_data : pyval) (st : State) :
  fst (save_cache report_data st) = Ok tt.
Proof.
  unfold save_cache. destruct (time_time (world st)). reflexivity.
Qed.

Lemma display_sections_Ok (sections : list string) :
  forall st, fst (display_sections sections st) = Ok tt.
Proof.
  induction sections as [|section rest IH]; intros st; [reflexivity|].
  cbn [display_sections]. unfold bind at 1.
  destruct (truthy (strip section)); cbn; apply IH.
Qed.

Lemma display_report_Ok (text : string) (st : State) :
  fst (display_report (PyStr text) st) = Ok tt.
Proof.
  unfold display_report, bind, console_print, emit. cbn.
  unfold now. cbn. destruct (datetime_now (world st)) as [t w]. cbn.
  apply display_sections_Ok.
Qed.

End Pipeline.

Section Refresh.

Context `{World}.

Lemma aborted_run_no_write (events : list event) :
  aborted_run events -> forall text, ~ In (FileWrite text) events.
Proof.
  intros Hab text Hin.
  destruct Hab; cbn in Hin;
    repeat (destruct Hin as [Hin|Hin]; [discriminate Hin|]); exact Hin.
Qed.

(** Once the four calls have returned, nothing raises any more. *)
Lemma refresh_tail_Ok (all_repos_summary golang_repos_summary : string)
  (st : State) :
  fst ((today <- now ;;
        let full_report :=
          report_text (strftime_Ymd today) all_repos_summary
                      golang_repos_summary in
        stamp <- now ;;
        let cache_data :=
          PyDict [("timestamp", PyStr (isoformat stamp));
                  ("full_report", PyStr full_report)] in
        save_cache cache_data ;;;
        display_report (PyStr full_report) ;;;
        console_print (Str "✨ Fresh report generated and cached!")
                      (Some "bold green")) st)
  = Ok tt.
Proof.
  unfold bind.
  destruct (now_extends st) as [t1 [st1 [Hn1 _]]]. rewrite Hn1.
  destruct (now_extends st1) as [t2 [st2 [Hn2 _]]]. rewrite Hn2.
  match goal with
  | |- context [save_cache ?d st2] =>
      pose proof (save_cache_Ok d st2) as Hsave;
      destruct (save_cache d st2) as [[u|e] st3]
  end; [|discriminate Hsave].
  match goal with
  | |- context [display_report (PyStr ?t) st3] =>
      pose proof (display_report_Ok t st3) as Hshow;
      destruct (display_report (PyStr t) st3) as [[u'|e] st4]
  end; [|discriminate Hshow].
  reflexivity.
Qed.

(** When a refresh run raises, it has stopped at the request or at the
    completion call that raised: no later stage has run, the cache has not
    been written and the cache file is what it was. *)
Lemma refresh_raise_aborted (st st' : State) (e : exn) :
  fst (should_refresh_cache st) = Ok true ->
  generate_daily_report st = (Raise e, st') ->
  cache_file st' = cache_file st
  /\ exists events,
       trace st' = (trace st ++ events)%list
       /\ aborted_run events
       /\ forall text, ~ In (FileWrite text) events.
Proof.
  intros Href Hrun.
  destruct (should_refresh_cache_extends st) as [b [st1 [Hsr E1]]].
  rewrite Hsr in Href. injection Href as ->.
  unfold generate_daily_report in Hrun.
  unfold bind at 1 in Hrun. rewrite Hsr in Hrun. cbn [negb] in Hrun.
  unfold bind at 1 in Hrun.
  destruct (emit_extends fetching_message st1) as [st2 [Hp E2]].
  unfold console_print in Hrun. fold fetching_message in Hrun.
  rewrite Hp in Hrun.
  pose proof (extends_trans _ _ _ _ _ E1 E2) as E12. cbn [app] in E12.
  (* the request for all languages *)
  unfold bind at 1 in Hrun.
  pose proof (fetch_trending_repos_extends None st2) as E3.
  destruct (fetch_trending_repos None st2) as [[all_trending|e1] st3].
  2:{ injection Hrun as -> ->. cbn [snd] in E3.
      destruct (extends_trans _ _ _ _ _ E12 E3) as [Hc Ht].
      split; [exact Hc|]. eexists. split; [exact Ht|].
      split; [constructor | apply aborted_run_no_write; constructor]. }
  cbn [snd] in E3. pose proof (extends_trans _ _ _ _ _ E12 E3) as E13.
  cbn [app] in E13.
  unfold bind at 1 in Hrun.
  destruct (emit_extends (StdoutPrint all_trending) st3) as [st4 [Hp4 E4]].
  rewrite Hp4 in Hrun.
  pose proof (extends_trans _ _ _ _ _ E13 E4) as E14. cbn [app] in E14.
  (* its summary *)
  unfold bind at 1 in Hrun.
  pose proof (generate_repo_summary_extends all_trending st4) as E5.
  destruct (generate_repo_summary all_trending st4)
    as [[all_repos_summary|e1] st5].
  2:{ injection Hrun as -> ->. cbn [snd] in E5.
      destruct (extends_trans _ _ _ _ _ E14 E5) as [Hc Ht].
      split; [exact Hc|]. eexists. split; [exact Ht|].
      split; [constructor | apply aborted_run_no_write; constructor]. }
  cbn [snd] in E5. pose proof (extends_trans _ _ _ _ _ E14 E5) as E15.
  cbn [app] in E15.
  (* the request for Go *)
  unfold bind at 1 in Hrun.
  pose proof (fetch_trending_repos_extends (Some "go") st5) as E6.
  destruct (fetch_trending_repos (Some "go") st5)
    as [[golang_trending|e1] st6].
  2:{ injection Hrun as -> ->. cbn [snd] in E6.
      destruct (extends_trans _ _ _ _ _ E15 E6) as [Hc Ht].
      split; [exact Hc|]. eexists. split; [exact Ht|].
      split; [constructor | apply aborted_run_no_write; constructor]. }
  cbn [snd] in E6. pose proof (extends_trans _ _ _ _ _ E15 E6) as E16.
  cbn [app] in E16.
  (* its summary *)
  unfold bind at 1 in Hrun.
  pose proof (generate_repo_summary_extends golang_trending st6) as E7.
  destruct (generate_repo_summary golang_trending st6)
    as [[golang_repos_summary|e1] st7].
  2:{ injection Hrun as -> ->. cbn [snd] in E7.
      destruct (extends_trans _ _ _ _ _ E16 E7) as [Hc Ht].
      split; [exact Hc|]. eexists. split; [exact Ht|].
      split; [constructor | apply aborted_run_no_write; constructor]. }
  (* the rest cannot raise *)
  pose proof (refresh_tail_Ok all_repos_summary golang_repos_summary st7)
    as Htail.
  apply (f_equal fst) in Hrun. cbn [fst] in Hrun.
  assert (Hno : @Ok unit tt = Raise e) by (rewrite <- Htail; exact Hrun).
  discriminate Hno.
Qed.

(** A raising call ends the run, in the state the call leaves. *)
Lemma call_raises_run (st st' : State) (e : exn) :
  fst (should_refresh_cache st) = Ok true ->
  call_raises st e st' ->
  generate_daily_report st = (Raise e, st').
Proof.
  intros Href Hcall. unfold generate_daily_report.
  unfold bind at 1.
  assert (Hstart : exists s0,
             should_refresh_cache st = (Ok true, s0)
             /\ after_message st = snd (emit fetching_message s0)).
  { unfold after_message.
    destruct (should_refresh_cache st) as [[b|e0] s0]; [|discriminate Href].
    cbn [fst] in Href. injection Href as ->. eauto. }
  destruct Hstart as [s0 [Hsr Hmsg]]. rewrite Hsr. cbn [negb].
  unfold bind at 1. unfold console_print. fold fetching_message.
  destruct (emit fetching_message s0) as [[u|e0] sm] eqn:Hemit;
    [|discriminate Hemit].
  cbn [snd] in Hmsg. unfold bind at 1.
  destruct Hcall as [Hf1 | all s1 Hf1 Hs1 | all s1 s2 sum1 Hf1 Hs1 Hf2
                    | all go s1 s2 s3 sum1 Hf1 Hs1 Hf2 Hs2];
    rewrite Hmsg in Hf1; rewrite Hf1; [reflexivity| | |];
    unfold bind at 1; unfold after_print in Hs1;
    destruct (emit (StdoutPrint all) s1) as [[u1|e1] sp] eqn:Hprint;
    try discriminate Hprint;
    cbn [snd] in Hs1; unfold bind at 1; rewrite Hs1; try reflexivity;
    unfold bind at 1; rewrite Hf2; try reflexivity.
  unfold bind at 1. rewrite Hs2. reflexivity.
Qed.

(** C3.  If, in a refresh run, a fetch or a summarize call raises, the
    run raises the same exception in the state that call leaves: no later
    stage runs (after a failed request no completion is asked for that
    variant), save_cache is not called, and the cache file is what it
    was. *)
Theorem generate_daily_report_aborts (st st' : State) (e : exn) :
  fst (should_refresh_cache st) = Ok true ->
  call_raises st e st' ->
  generate_daily_report st = (Raise e, st')
  /\ cache_file st' = cache_file st
  /\ exists events,
       trace st' = (trace st ++ events)%list
       /\ aborted_run events
       /\ forall text, ~ In (FileWrite text) events.
Proof.
  intros Href Hcall.
  pose proof (call_raises_run st st' e Href Hcall) as Hrun.
  split; [exact Hrun|].
  exact (refresh_raise_aborted st st' e Href Hrun).
Qed.

(** Scenario C: the first request fails.  The run raises the same
    exception, having printed its opening message and made that one
    request; the cache file is left as it was. *)
Lemma generate_daily_report_transport_error (st : State) (e : exn) (w : W) :
  cache_file st = None ->
  requests_get (trending_url None) user_agent (world st) = (Raise e, w) ->
  generate_daily_report st
  = (Raise e, {| cache_file := None;
                 trace := (trace st ++ [fetching_message; request None])%list;
                 world := w |}).
Proof.
  intros Hfile Hget. unfold generate_daily_report.
  unfold bind at 1. rewrite (should_refresh_cache_absent st Hfile).
  cbn [negb]. unfold bind at 1. unfold console_print, emit.
  unfold bind at 1. rewrite fetch_trending_repos_unfold. cbv zeta.
  cbn [world cache_file trace]. rewrite Hget, Hfile, <- app_assoc.
  reflexivity.
Qed.

End Refresh.

(** The completion service fails on the first summary: the run stops
    there, after one request, and writes nothing. *)
Example generate_daily_report_service_error :
  let st := @initial_state world_no_service None tt in
  exists all_trending,
    @generate_daily_report world_no_service st
    = (Raise APIError,
       @Build_State world_no_service None
         [fetching_message; request None; StdoutPrint all_trending;
          completion all_trending]
         tt)
    /\ List.length all_trending = 10.
Proof.
  eexists. split; reflexivity.
Qed.

Lemma generate_daily_report_aborts_witness :
  let st := @initial_state world_offline None tt in
  let st' := snd (@fetch_trending_repos world_offline None
                    (@after_message world_offline st)) in
  @generate_daily_report world_offline st = (Raise ConnectionError, st')
  /\ cache_file st' = cache_file st
  /\ exists events,
       trace st' = (trace st ++ events)%list
       /\ aborted_run events
       /\ forall text, ~ In (FileWrite text) events.
Proof.
  apply (@generate_daily_report_aborts world_offline).
  - reflexivity.
  - apply fetch_all_raises. reflexivity.
Defined.

(** ** Strings: [split] and [join] *)

Lemma split_from_nonempty (sep : string) (s : string) :
  forall skip, split_from sep skip s <> [].
Proof.
  induction s as [|c s IH]; intros skip; cbn [split_from].
  - discriminate.
  - destruct skip as [|k]; [|apply IH].
    destruct (startswith (String c s) sep); [discriminate|].
    destruct (split_from sep 0 s); discriminate.
Qed.

(** A text in which the separator does not occur is a single piece. *)
Lemma split_without_separator (sep s : string) :
  contains sep s = false -> split sep s = [s].
Proof.
  unfold split. induction s as [|c s IH]; cbn [contains split_from].
  - reflexivity.
  - intros Hno. apply orb_false_elim in Hno as [Hstart Hrest].
    rewrite Hstart, (IH Hrest). reflexivity.
Qed.

Lemma split_char_cons (c a : char) (s : string) :
  split (String c EmptyString) (String a s)
  = if Char.eqb c a
    then EmptyString :: split (String c EmptyString) s
    else match split (String c EmptyString) s with
         | piece :: rest => String a piece :: rest
         | [] => [String a EmptyString]
         end.
Proof.
  unfold split. cbn [split_from]. rewrite startswith_single. reflexivity.
Qed.

Lemma join_cons (sep x y : string) (l : list string) :
  join sep (x :: y :: l) = x ++ sep ++ join sep (y :: l).
Proof.
  reflexivity.
Qed.

(** Joining the pieces of a text with the separating character gives the
    text back. *)
Lemma join_split_char (c : char) (s : string) :
  join (String c EmptyString) (split (String c EmptyString) s) = s.
Proof.
  induction s as [|a s IH]; [reflexivity|].
  rewrite split_char_cons.
  destruct (split (String c EmptyString) s) as [|piece rest] eqn:Hs.
  - exfalso. exact (split_from_nonempty _ _ _ Hs).
  - destruct (Char.eqb c a) eqn:Hca.
    + apply char_eqb_eq in Hca. subst a.
      rewrite join_cons, IH. reflexivity.
    + destruct rest as [|y rest].
      * cbn in IH |- *. rewrite IH. reflexivity.
      * rewrite join_cons in IH |- *. rewrite <- IH. reflexivity.
Qed.

(** No piece holds the separating character. *)
Lemma split_char_pieces (c : char) (s : string) :
  Forall (fun piece => contains (String c EmptyString) piece = false)
         (split (String c EmptyString) s).
Proof.
  induction s as [|a s IH].
  - repeat constructor.
  - rewrite split_char_cons.
    destruct (Char.eqb c a) eqn:Hca.
    + constructor; [reflexivity | exact IH].
    + destruct (split (String c EmptyString) s) as [|piece rest].
      * constructor; [|constructor]. cbn. rewrite Hca. reflexivity.
      * inversion IH as [|? ? Hpiece Hrest]; subst.
        constructor; [|exact Hrest].
        cbn [contains]. rewrite startswith_single, Hca. exact Hpiece.
Qed.

(** The title of a section is the first line of the stripped section and
    the content is what follows that line. *)
Lemma section_block_lines (section title body : string) :
  section_block section = (title, body) ->
  contains nl title = false
  /\ (strip section = title \/ strip section = title ++ nl ++ body).
Proof.
  unfold section_block. intros Heq.
  pose proof (join_split_char LF (strip section)) as Hjoin.
  pose proof (split_char_pieces LF (strip section)) as Hpieces.
  fold nl in Hjoin, Hpieces.
  destruct (split nl (strip section)) as [|first rest] eqn:Hlines.
  - exfalso. exact (split_from_nonempty _ _ _ Hlines).
  - cbn [hd tl] in Heq. injection Heq as <- <-.
    inversion Hpieces as [|? ? Hfirst _]; subst. split; [exact Hfirst|].
    destruct rest as [|y rest].
    + left. symmetry. exact Hjoin.
    + right. symmetry. exact Hjoin.
Qed.

(** ** The renderer *)

Section Renderer.

Context `{World}.

Lemma display_sections_blocks (sections : list string) :
  forall st,
  exists events,
    trace (snd (display_sections sections st)) = (trace st ++ events)%list
    /\ section_blocks events = map section_block (filter nonblank sections).
Proof.
  induction sections as [|section rest IH]; intros st.
  - exists []. cbn. rewrite app_nil_r. split; reflexivity.
  - cbn [display_sections filter]. unfold nonblank at 1.
    unfold bind at 1. destruct (truthy (strip section)).
    + unfold bind at 1. unfold console_print, emit. cbn [trace cache_file world].
      match goal with
      | |- context [display_sections rest ?s] => destruct (IH s) as [evs [Ht Hb]]
      end.
      exists ([ConsolePrint (section_panel section) None;
               ConsolePrint (Str nl) None] ++ evs)%list.
      split.
      * rewrite Ht. cbn [trace]. rewrite <- !app_assoc. reflexivity.
      * unfold section_blocks in *. rewrite flat_map_app, Hb. reflexivity.
    + unfold ret. destruct (IH st) as [evs [Ht Hb]]. exists evs. split; assumption.
Qed.

Lemma display_report_blocks (body : string) (st : State) :
  exists events,
    trace (snd (display_report (PyStr body) st)) = (trace st ++ events)%list
    /\ section_blocks events
       = map section_block (filter nonblank (split "---" body)).
Proof.
  unfold display_report, bind, console_print, emit, now.
  cbn [trace cache_file world].
  destruct (datetime_now (world st)) as [today w]. cbn [trace cache_file world].
  match goal with
  | |- context [display_sections _ ?s] =>
      destruct (display_sections_blocks (split "---" body) s) as [evs [Ht Hb]]
  end.
  eexists (_ :: _ :: _ :: _ :: evs). split.
  - rewrite Ht. cbn [trace]. rewrite <- !app_assoc. reflexivity.
  - exact Hb.
Qed.

(** C5, as the code has it.  The call returns, and it prints one titled
    panel for each section that is not blank (that holds a character
    other than white space), in order; the title of a panel is the first
    line of its section stripped of the white space around it, the content
    the lines after it.  A body without delimiter that is not blank is
    printed as one panel, the title and the content of which make up the
    stripped body. *)
Theorem display_report_panels (body : string) (st : State) :
  fst (display_report (PyStr body) st) = Ok tt
  /\ exists events,
       trace (snd (display_report (PyStr body) st)) = (trace st ++ events)%list
       /\ section_blocks events
          = map section_block (filter nonblank (split "---" body))
       /\ List.length (section_blocks events)
          = List.length (filter nonblank (split "---" body))
       /\ (forall title content,
             In (title, content) (section_blocks events) ->
             exists section,
               In section (split "---" body)
               /\ nonblank section = true
               /\ contains nl title = false
               /\ (strip section = title
                   \/ strip section = title ++ nl ++ content))
       /\ (contains "---" body = false -> nonblank body = true ->
           exists title content,
             section_blocks events = [(title, content)]
             /\ (strip body = title \/ strip body = title ++ nl ++ content)).
Proof.
  split; [apply display_report_Ok|].
  destruct (display_report_blocks body st) as [events [Ht Hb]].
  exists events. split; [exact Ht|]. split; [exact Hb|].
  split; [rewrite Hb; apply length_map|]. split.
  - intros title content Hin. rewrite Hb in Hin.
    apply in_map_iff in Hin as [section [Hblock Hsec]].
    apply filter_In in Hsec as [Hsec Hnb].
    exists section. split; [exact Hsec|]. split; [exact Hnb|].
    exact (section_block_lines section title content Hblock).
  - intros Hno Hnb. rewrite Hb, (split_without_separator _ _ Hno).
    cbn [filter]. rewrite Hnb. cbn [map].
    destruct (section_block body) as [title content] eqn:Hblock.
    exists title, content. split; [reflexivity|].
    exact (proj2 (section_block_lines body title content Hblock)).
Qed.

End Renderer.

(** C5 fails as stated.  A body of one space has no delimiter and is not
    empty, it is one non-empty section, and no panel is printed for it.
    A body of an empty line followed by the lines A and B is one section,
    the first line of which is empty; its panel is titled A and holds B. *)
Lemma display_report_blank_body :
  let st := @initial_state world_twelve None tt in
  let blank := " " in
  let text := nl ++ "A" ++ nl ++ "B" in
  (contains "---" blank = false
   /\ blank <> ""
   /\ filter (fun section => negb (String.eqb section ""))
             (split "---" blank) = [blank]
   /\ section_blocks (trace (snd (@display_report world_twelve
                                    (PyStr blank) st))) = [])
  /\ (split "---" text = [text]
      /\ split nl text = [""; "A"; "B"]
      /\ section_blocks (trace (snd (@display_report world_twelve
                                       (PyStr text) st))) = [("A", "B")]).
Proof.
  cbv zeta. repeat split. discriminate.
Qed.

(** ** The cache file: json.dump, then json.load *)

Lemma append_assoc (a b c : string) : (a ++ b) ++ c = a ++ (b ++ c).
Proof.
  induction a as [|x a IH]; cbn; [|rewrite IH]; reflexivity.
Qed.

Lemma length_append (a b : string) :
  String.length (a ++ b) = String.length a + String.length b.
Proof.
  induction a as [|x a IH]; cbn; [|rewrite IH]; reflexivity.
Qed.

(** The scanner reads back what an escape stands for. *)

Ltac divlia := zify; Z.to_euclidean_division_equations; lia.

(** Every test on a code point of the goal is decided; the cases that
    the hypotheses exclude are dropped. *)
Ltac tests :=
  repeat (match goal with
          | |- context [N.eqb ?a ?b] => destruct (N.eqb_spec a b)
          | |- context [N.leb ?a ?b] => destruct (N.leb_spec a b)
          | |- context [N.ltb ?a ?b] => destruct (N.ltb_spec a b)
          end; try (exfalso; lia); cbn [andb orb negb]).

Lemma hexval_hexdigit (d : N) :
  (d < 16)%N -> Json.hexval (Json.hexdigit d) = Some d.
Proof.
  intros Hd. unfold Json.hexval, Json.hexdigit.
  destruct (N.ltb_spec d 10); tests; f_equal; lia.
Qed.

Lemma hex4_escape_u (n : N) (rest : string) :
  (n < 0x10000)%N ->
  exists h1 h2 h3 h4,
    Json.escape_u n ++ rest
    = String "\" (String "u"
        (String h1 (String h2 (String h3 (String h4 rest)))))
    /\ Json.hex4 h1 h2 h3 h4 = Some n.
Proof.
  intros Hn. unfold Json.escape_u. eexists _, _, _, _.
  split; [reflexivity|]. unfold Json.hex4.
  rewrite !hexval_hexdigit by divlia. f_equal. divlia.
Qed.

Lemma scanstring_u (h1 h2 h3 h4 : char) (rest : string) :
  Json.scanstring
    (String "\" (String "u"
       (String h1 (String h2 (String h3 (String h4 rest))))))
  = match Json.hex4 h1 h2 h3 h4 with
    | Some uni =>
        if Json.is_high uni then
          match rest with
          | String b (String u r) =>
              if Char.eqb b "\" && Char.eqb u "u" then
                match r with
                | String g1 (String g2 (String g3 (String g4 rest2))) =>
                    match Json.hex4 g1 g2 g3 g4 with
                    | Some uni2 =>
                        if Json.is_low uni2
                        then Json.cons_char (Json.join_pair uni uni2)
                                            (Json.scanstring rest2)
                        else Json.cons_char uni (Json.scanstring rest)
                    | None => None
                    end
                | _ => None
                end
              else Json.cons_char uni (Json.scanstring rest)
          | _ => Json.cons_char uni (Json.scanstring rest)
          end
        else Json.cons_char uni (Json.scanstring rest)
    | None => None
    end.
Proof. reflexivity. Qed.

(** The escape of a code point below 0x10000 that is no high surrogate
    is read as that code point, whatever follows. *)
Lemma scanstring_escape_u (n : N) (rest : string) :
  (n < 0x10000)%N -> Json.is_high n = false ->
  Json.scanstring (Json.escape_u n ++ rest)
  = Json.cons_char n (Json.scanstring rest).
Proof.
  intros Hn Hhigh.
  destruct (hex4_escape_u n rest Hn) as [h1 [h2 [h3 [h4 [-> Hhex]]]]].
  rewrite scanstring_u, Hhex, Hhigh. reflexivity.
Qed.

(** The escapes of a high and of a low surrogate are read as one
    character. *)
Lemma scanstring_escape_pair (n m : N) (rest : string) :
  Json.is_high n = true -> Json.is_low m = true ->
  Json.scanstring (Json.escape_u n ++ Json.escape_u m ++ rest)
  = Json.cons_char (Json.join_pair n m) (Json.scanstring rest).
Proof.
  intros Hhigh Hlow.
  assert (Hn : (n < 0x10000)%N).
  { unfold Json.is_high in Hhigh. apply andb_prop in Hhigh as [_ Hle].
    apply N.leb_le in Hle. lia. }
  assert (Hm : (m < 0x10000)%N).
  { unfold Json.is_low in Hlow. apply andb_prop in Hlow as [_ Hle].
    apply N.leb_le in Hle. lia. }
  destruct (hex4_escape_u n (Json.escape_u m ++ rest) Hn)
    as [h1 [h2 [h3 [h4 [-> Hhex]]]]].
  destruct (hex4_escape_u m rest Hm) as [g1 [g2 [g3 [g4 [-> Hhex2]]]]].
  rewrite scanstring_u, Hhex, Hhigh.
  change (Char.eqb "\" "\" && Char.eqb "u" "u") with true. cbv iota.
  rewrite Hhex2, Hlow. reflexivity.
Qed.

Lemma lor_add (k a : N) :
  (a < 1024)%N -> N.lor (k * 1024) a = (k * 1024 + a)%N.
Proof.
  intros Ha.
  assert (Hland : N.land (k * 1024) a = 0%N).
  { apply N.bits_inj. intros i. rewrite N.land_spec, N.bits_0.
    destruct (N.lt_ge_cases i 10) as [Hi|Hi].
    - change 1024%N with (2 ^ 10)%N.
      rewrite N.mul_pow2_bits_low by exact Hi. reflexivity.
    - rewrite <- (N.mod_small a (2 ^ 10)) by exact Ha.
      rewrite N.mod_pow2_bits_high by exact Hi. apply andb_false_r. }
  rewrite <- N.lxor_lor by exact Hland.
  symmetry. apply N.add_nocarry_lxor. exact Hland.
Qed.

Lemma land_low (n : N) : N.land n 0x3ff = (n mod 1024)%N.
Proof. change 0x3ff%N with (N.ones 10). apply N.land_ones. Qed.

(** The two surrogates written for a character above U+FFFF. *)
Lemma surrogates (n : N) :
  let s1 := N.lor 0xd800 (N.land (N.shiftr n 10) 0x3ff) in
  let s2 := N.lor 0xdc00 (N.land n 0x3ff) in
  s1 = (0xd800 + (n / 1024) mod 1024)%N
  /\ s2 = (0xdc00 + n mod 1024)%N
  /\ Json.is_high s1 = true /\ Json.is_low s2 = true
  /\ Json.join_pair s1 s2 = (0x10000 + n mod 0x100000)%N.
Proof.
  cbv zeta. rewrite !land_low, N.shiftr_div_pow2.
  change (2 ^ 10)%N with 1024%N.
  change 0xd800%N with (54 * 1024)%N. change 0xdc00%N with (55 * 1024)%N.
  rewrite !lor_add by divlia.
  split; [reflexivity|]. split; [reflexivity|].
  unfold Json.is_high, Json.is_low, Json.join_pair.
  repeat split.
  - tests; try reflexivity; exfalso; divlia.
  - tests; try reflexivity; exfalso; divlia.
  - rewrite N.shiftl_mul_pow2. change (2 ^ 10)%N with 1024%N.
    replace (54 * 1024 + (n / 1024) mod 1024 - 0xd800)%N
      with ((n / 1024) mod 1024)%N by divlia.
    replace (55 * 1024 + n mod 1024 - 0xdc00)%N with (n mod 1024)%N
      by divlia.
    rewrite lor_add by divlia. divlia.
Qed.

(** A character that is no high surrogate is read back from its escape,
    whatever follows. *)
Lemma scanstring_escape_char (c : char) (rest : string) :
  Json.is_high c = false ->
  Json.scanstring (Json.escape_char c ++ rest)
  = Json.cons_char (reread_char c) (Json.scanstring rest).
Proof.
  intros Hhigh. unfold Json.escape_char, reread_char, Char.eqb, DQ.
  destruct (N.eqb_spec c 34) as [->|Hdq]; [reflexivity|].
  destruct (N.eqb_spec c "\"%char) as [->|Hbs]; [reflexivity|].
  destruct (N.eqb_spec c 8) as [->|H8]; [reflexivity|].
  destruct (N.eqb_spec c 9) as [->|H9]; [reflexivity|].
  destruct (N.eqb_spec c 10) as [->|H10]; [reflexivity|].
  destruct (N.eqb_spec c 12) as [->|H12]; [reflexivity|].
  destruct (N.eqb_spec c 13) as [->|H13]; [reflexivity|].
  destruct (N.leb_spec 32 c) as [H32|H32];
    [destruct (N.leb_spec c 126) as [H126|H126]|]; cbn [andb].
  - replace (c <? 0x10000)%N with true by (symmetry; apply N.ltb_lt; lia).
    cbn [append Json.scanstring]. unfold Char.eqb, DQ.
    replace (c =? 34)%N with false by (symmetry; apply N.eqb_neq; exact Hdq).
    replace (c =? "\"%char)%N with false by (symmetry; apply N.eqb_neq; exact Hbs).
    replace (c <? 32)%N with false by (symmetry; apply N.ltb_ge; exact H32).
    reflexivity.
  - destruct (N.ltb_spec c 0x10000) as [Hbmp|Hbmp].
    + apply scanstring_escape_u; assumption.
    + cbv zeta. destruct (surrogates (c - 0x10000)) as [_ [_ [H1 [H2 Hj]]]].
      cbv zeta in H1, H2, Hj.
      rewrite append_assoc, scanstring_escape_pair, Hj by assumption.
      reflexivity.
  - destruct (N.ltb_spec c 0x10000) as [Hbmp|Hbmp]; [|lia].
    apply scanstring_escape_u; assumption.
Qed.

Lemma is_high_bmp (n : N) : Json.is_high n = true -> (n < 0x10000)%N.
Proof.
  unfold Json.is_high. intros Hhigh. apply andb_prop in Hhigh as [_ Hle].
  apply N.leb_le in Hle. lia.
Qed.

Lemma is_high_not_low (n : N) :
  Json.is_high n = true -> Json.is_low n = false.
Proof.
  unfold Json.is_high, Json.is_low. intros Hhigh.
  apply andb_prop in Hhigh as [_ Hle]. apply N.leb_le in Hle.
  tests; reflexivity.
Qed.

Lemma is_high_escape (n : N) :
  Json.is_high n = true -> Json.escape_char n = Json.escape_u n.
Proof.
  unfold Json.is_high, Json.escape_char, Char.eqb, DQ. intros Hhigh.
  apply andb_prop in Hhigh as [Hge Hle].
  apply N.leb_le in Hge, Hle. tests; reflexivity.
Qed.

Lemma is_low_escape (n : N) :
  Json.is_low n = true -> Json.escape_char n = Json.escape_u n.
Proof.
  unfold Json.is_low, Json.escape_char, Char.eqb, DQ. intros Hlow.
  apply andb_prop in Hlow as [Hge Hle].
  apply N.leb_le in Hge, Hle. tests; reflexivity.
Qed.

(** The escape of a high surrogate before the closing quote. *)
Lemma scanstring_high_quote (n : N) (tail : string) :
  Json.is_high n = true ->
  Json.scanstring (Json.escape_u n ++ String DQ tail)
  = Some (String n EmptyString, tail).
Proof.
  intros Hhigh.
  destruct (hex4_escape_u n (String DQ tail) (is_high_bmp n Hhigh))
    as [h1 [h2 [h3 [h4 [-> Hhex]]]]].
  rewrite scanstring_u, Hhex, Hhigh. destruct tail; reflexivity.
Qed.

(** The escape of a high surrogate before a character that is no low
    surrogate: it is read alone, and the scan goes on at that
    character. *)
Lemma scanstring_high_char (n : N) (b : char) (rest : string) :
  Json.is_high n = true -> Json.is_low b = false ->
  Json.scanstring (Json.escape_u n ++ Json.escape_char b ++ rest)
  = Json.cons_char n (Json.scanstring (Json.escape_char b ++ rest)).
Proof.
  intros Hhigh Hlow.
  destruct (hex4_escape_u n (Json.escape_char b ++ rest)
              (is_high_bmp n Hhigh)) as [h1 [h2 [h3 [h4 [-> Hhex]]]]].
  rewrite scanstring_u, Hhex, Hhigh.
  unfold Json.escape_char, Char.eqb, DQ.
  destruct (N.eqb_spec b 34) as [->|Hdq]; [reflexivity|].
  destruct (N.eqb_spec b "\"%char) as [->|Hbs]; [reflexivity|].
  destruct (N.eqb_spec b 8) as [->|H8]; [reflexivity|].
  destruct (N.eqb_spec b 9) as [->|H9]; [reflexivity|].
  destruct (N.eqb_spec b 10) as [->|H10]; [reflexivity|].
  destruct (N.eqb_spec b 12) as [->|H12]; [reflexivity|].
  destruct (N.eqb_spec b 13) as [->|H13]; [reflexivity|].
  assert (Hu : forall m Y,
             (m < 0x10000)%N -> Json.is_low m = false ->
             match Json.escape_u m ++ Y with
             | String b0 (String u r) =>
                 if Char.eqb b0 "\" && Char.eqb u "u" then
                   match r with
                   | String g1 (String g2 (String g3 (String g4 rest2))) =>
                       match Json.hex4 g1 g2 g3 g4 with
                       | Some uni2 =>
                           if Json.is_low uni2
                           then Json.cons_char (Json.join_pair n uni2)
                                               (Json.scanstring rest2)
                           else Json.cons_char n
                                  (Json.scanstring (Json.escape_u m ++ Y))
                       | None => None
                       end
                   | _ => None
                   end
                 else Json.cons_char n (Json.scanstring (Json.escape_u m ++ Y))
             | _ => Json.cons_char n (Json.scanstring (Json.escape_u m ++ Y))
             end
             = Json.cons_char n (Json.scanstring (Json.escape_u m ++ Y))).
  { intros m Y Hm Hmlow.
    destruct (hex4_escape_u m Y Hm) as [g1 [g2 [g3 [g4 [-> Hhex2]]]]].
    change (Char.eqb "\" "\" && Char.eqb "u" "u") with true. cbv iota.
    rewrite Hhex2, Hmlow. reflexivity. }
  destruct (N.leb_spec 32 b) as [H32|H32];
    [destruct (N.leb_spec b 126) as [H126|H126]|]; cbn [andb].
  - cbn [append]. destruct rest as [|u r]; [reflexivity|].
    unfold Char.eqb.
    replace (b =? "\"%char)%N with false by (symmetry; apply N.eqb_neq; exact Hbs).
    reflexivity.
  - destruct (N.ltb_spec b 0x10000) as [Hbmp|Hbmp].
    + apply Hu; assumption.
    + cbv zeta. destruct (surrogates (b - 0x10000)) as [_ [_ [H1 [H2 _]]]].
      cbv zeta in H1, H2. rewrite append_assoc.
      apply Hu; [apply is_high_bmp; exact H1 | apply is_high_not_low; exact H1].
  - destruct (N.ltb_spec b 0x10000) as [Hbmp|Hbmp]; [|lia].
    apply Hu; assumption.
Qed.

Lemma reread_char_bmp (c : char) : (c < 0x10000)%N -> reread_char c = c.
Proof.
  intros Hc. unfold reread_char.
  destruct (N.ltb_spec c 0x10000); [reflexivity | lia].
Qed.

Lemma reread_not_high (a : char) (t : string) :
  Json.is_high a = false ->
  reread (String a t) = String (reread_char a) (reread t).
Proof.
  intros Hhigh. destruct t; cbn [reread]; [reflexivity|].
  rewrite Hhigh. reflexivity.
Qed.

Lemma reread_cons (a b : char) (t : string) :
  reread (String a (String b t))
  = if Json.is_high a && Json.is_low b
    then String (Json.join_pair a b) (reread t)
    else String (reread_char a) (reread (String b t)).
Proof. reflexivity. Qed.

(** What the scanner reads where the encoder has written a text. *)
Lemma scanstring_escape_upto (n : nat) :
  forall s tail,
    String.length s <= n ->
    Json.scanstring (Json.escape s ++ String DQ tail) = Some (reread s, tail).
Proof.
  induction n as [|n IH]; intros s tail Hn.
  { destruct s; [reflexivity | cbn in Hn; lia]. }
  destruct s as [|a t]; [reflexivity|].
  cbn [String.length] in Hn. cbn [Json.escape]. rewrite append_assoc.
  destruct (Json.is_high a) eqn:Hhigh.
  - rewrite (is_high_escape a Hhigh).
    destruct t as [|b t'].
    + cbn [Json.escape append]. rewrite scanstring_high_quote by exact Hhigh.
      cbn [reread]. rewrite reread_char_bmp by (apply is_high_bmp; exact Hhigh).
      reflexivity.
    + cbn [String.length] in Hn. cbn [Json.escape]. rewrite append_assoc.
      destruct (Json.is_low b) eqn:Hlow.
      * rewrite (is_low_escape b Hlow).
        rewrite scanstring_escape_pair by assumption.
        rewrite IH by lia. rewrite reread_cons, Hhigh, Hlow. reflexivity.
      * rewrite scanstring_high_char by assumption.
        rewrite <- append_assoc.
        change (Json.escape_char b ++ Json.escape t')
          with (Json.escape (String b t')).
        rewrite IH by (cbn [String.length]; lia).
        rewrite reread_cons, Hhigh, Hlow. cbn [andb Json.cons_char].
        rewrite reread_char_bmp by (apply is_high_bmp; exact Hhigh).
        reflexivity.
  - rewrite scanstring_escape_char by exact Hhigh.
    rewrite IH by lia. rewrite reread_not_high by exact Hhigh. reflexivity.
Qed.

Lemma scanstring_escape (s tail : string) :
  Json.scanstring (Json.escape s ++ String DQ tail) = Some (reread s, tail).
Proof. apply (scanstring_escape_upto (String.length s)). apply le_n. Qed.

Lemma encode_str_append (s tail : string) :
  Json.encode_str s ++ tail = String DQ (Json.escape s ++ String DQ tail).
Proof.
  unfold Json.encode_str. cbn [append]. rewrite append_assoc. reflexivity.
Qed.

Lemma scan_once_str (fuel : nat) (s tail : string) :
  Json.scan_once (S fuel) (Json.encode_str s ++ tail)
  = Some (PyStr (reread s), tail).
Proof.
  rewrite encode_str_append. cbn [Json.scan_once].
  rewrite char_eqb_refl, scanstring_escape. reflexivity.
Qed.

(** A text of Python in which no high surrogate is directly followed by a
    low one is reread as it is. *)
Lemma reread_unpaired (s : string) :
  python_str s = true -> unpaired s = true -> reread s = s.
Proof.
  unfold python_str. induction s as [|a t IH]; [reflexivity|].
  cbn [list_of_string forallb]. intros Hpy Hun.
  apply andb_prop in Hpy as [Ha Hpy]. apply N.ltb_lt in Ha.
  assert (Hchar : reread_char a = a).
  { unfold reread_char. destruct (N.ltb_spec a 0x10000); [reflexivity|].
    divlia. }
  destruct t as [|b t'].
  - cbn [reread]. rewrite Hchar. reflexivity.
  - cbn [unpaired] in Hun. apply andb_prop in Hun as [Hpair Hun].
    apply negb_true_iff in Hpair.
    rewrite reread_cons, Hpair, Hchar, (IH Hpy Hun). reflexivity.
Qed.

Lemma dict_set_fresh (d : list (string * pyval)) (key : string) (v : pyval) :
  ~ In key (map fst d) -> dict_set d key v = (d ++ [(key, v)])%list.
Proof.
  induction d as [|[k w] d IH]; intros Hfresh; [reflexivity|].
  cbn [dict_set]. destruct (String.eqb k key) eqn:Hk.
  - apply string_eqb_eq in Hk. exfalso. apply Hfresh. left. exact Hk.
  - rewrite IH; [reflexivity|]. intros Hin. apply Hfresh. right. exact Hin.
Qed.

Lemma skip_ws_encode_str (s tail : string) :
  Json.skip_ws (Json.encode_str s ++ tail) = Json.encode_str s ++ tail.
Proof.
  reflexivity.
Qed.

(** *** The decoder does not depend on its fuel *)

Lemma skip_ws_length (s : string) :
  String.length (Json.skip_ws s) <= String.length s.
Proof.
  induction s as [|c s IH]; cbn [Json.skip_ws String.length]; [lia|].
  destruct (Json.is_ws c); cbn [String.length]; lia.
Qed.

Lemma skip_ws_cons (s : string) (c : char) (r : string) :
  Json.skip_ws s = String c r -> String.length r < String.length s.
Proof.
  intros Heq. pose proof (skip_ws_length s) as Hle. rewrite Heq in Hle.
  cbn [String.length] in Hle. lia.
Qed.

Lemma cons_char_Some (c : char) (o : option (string * string)) (x r : string) :
  Json.cons_char c o = Some (x, r) -> exists y, o = Some (y, r).
Proof.
  destruct o as [[y r']|]; cbn; [|discriminate].
  intros Heq. injection Heq as _ <-. eauto.
Qed.

Lemma scanstring_length (n : nat) :
  forall s x r,
    String.length s <= n ->
    Json.scanstring s = Some (x, r) -> String.length r < String.length s.
Proof.
  induction n as [|n IH]; intros s x r Hn Hscan.
  - destruct s; [discriminate Hscan | cbn in Hn; lia].
  - destruct s as [|c s]; [discriminate Hscan|].
    cbn [Json.scanstring String.length] in *.
    destruct (Char.eqb c DQ).
    { injection Hscan as _ <-. lia. }
    destruct (Char.eqb c "\").
    + destruct s as [|e s]; [discriminate|].
      destruct (Char.eqb e "u").
      * destruct s as [|h1 [|h2 [|h3 [|h4 rest]]]]; try discriminate.
        destruct (Json.hex4 h1 h2 h3 h4) as [k|]; [|discriminate].
        assert (Halone :
                  Json.cons_char k (Json.scanstring rest) = Some (x, r) ->
                  String.length r
                  < S (String.length
                         (String e (String h1 (String h2 (String h3
                            (String h4 rest))))))).
        { intros Hrest. apply cons_char_Some in Hrest as [y Hy].
          apply IH in Hy; cbn [String.length] in *; lia. }
        destruct (Json.is_high k); [|exact (Halone Hscan)].
        destruct rest as [|b [|u r0]]; try exact (Halone Hscan).
        destruct (Char.eqb b "\" && Char.eqb u "u"); [|exact (Halone Hscan)].
        destruct r0 as [|g1 [|g2 [|g3 [|g4 rest2]]]]; try discriminate.
        destruct (Json.hex4 g1 g2 g3 g4) as [k2|]; [|discriminate].
        destruct (Json.is_low k2); [|exact (Halone Hscan)].
        apply cons_char_Some in Hscan as [y Hy].
        apply IH in Hy; cbn [String.length] in *; lia.
      * destruct (Json.unescape e); [|discriminate].
        apply cons_char_Some in Hscan as [y Hy].
        apply IH in Hy; cbn [String.length] in *; lia.
    + destruct (N.ltb c 32); [discriminate|].
      apply cons_char_Some in Hscan as [y Hy].
      apply IH in Hy; cbn [String.length] in *; lia.
Qed.

Lemma after_prefix_length (p : string) :
  forall s r, Json.after_prefix p s = Some r ->
              String.length s = String.length p + String.length r.
Proof.
  induction p as [|a p IH]; intros s r; cbn [Json.after_prefix String.length].
  - intros Heq. injection Heq as <-. reflexivity.
  - destruct s as [|b s]; [discriminate|]. destruct (Char.eqb a b); [|discriminate].
    intros Heq. apply IH in Heq. cbn [String.length]. lia.
Qed.

Lemma span_digits_length (s : string) :
  String.length (snd (Json.span_digits s)) <= String.length s.
Proof.
  induction s as [|c s IH]; cbn [Json.span_digits]; [cbn; lia|].
  destruct (Json.is_digit c); [|cbn; lia].
  destruct (Json.span_digits s) as [d r]. cbn [snd String.length] in *. lia.
Qed.

Lemma number_sign_length (s : string) :
  String.length (snd (Json.number_sign s)) <= String.length s.
Proof.
  destruct s as [|c s]; [cbn; lia|]. cbn [Json.number_sign].
  destruct (Char.eqb c "-"); cbn; lia.
Qed.

Lemma number_integer_length (s int r : string) :
  Json.number_integer s = Some (int, r) -> String.length r < String.length s.
Proof.
  destruct s as [|c s]; [discriminate|]. cbn [Json.number_integer].
  destruct (Char.eqb c "0").
  - intros Heq. injection Heq as _ <-. cbn. lia.
  - destruct (Json.is_digit c); [|discriminate].
    pose proof (span_digits_length s) as Hsp.
    destruct (Json.span_digits s) as [d r0]. intros Heq.
    injection Heq as _ <-. cbn [snd String.length] in *. lia.
Qed.

Lemma number_fraction_length (s : string) :
  String.length (snd (Json.number_fraction s)) <= String.length s.
Proof.
  destruct s as [|c s]; [cbn; lia|]. cbn [Json.number_fraction].
  destruct (Char.eqb c "."); [|cbn; lia].
  pose proof (span_digits_length s) as Hsp.
  destruct (Json.span_digits s) as [[|x d] r];
    cbn [snd String.length] in *; lia.
Qed.

Lemma number_exponent_length (s : string) :
  String.length (snd (Json.number_exponent s)) <= String.length s.
Proof.
  destruct s as [|c s]; [cbn; lia|]. cbn [Json.number_exponent].
  destruct (Char.eqb c "e" || Char.eqb c "E"); [|cbn; lia].
  assert (Hsg : forall sg r',
             match s with
             | String g r'' =>
                 if Char.eqb g "-" || Char.eqb g "+"
                 then (String g "", r'') else ("", s)
             | EmptyString => ("", s)
             end = (sg, r') -> String.length r' <= String.length s).
  { intros sg r'. destruct s as [|g r'']; [intros Heq; injection Heq as _ <-; lia|].
    destruct (Char.eqb g "-" || Char.eqb g "+"); intros Heq;
      injection Heq as _ <-; cbn; lia. }
  destruct (match s with
            | String g r'' =>
                if Char.eqb g "-" || Char.eqb g "+"
                then (String g "", r'') else ("", s)
            | EmptyString => ("", s)
            end) as [sg r'].
  specialize (Hsg sg r' eq_refl).
  pose proof (span_digits_length r') as Hsp.
  destruct (Json.span_digits r') as [[|x d] r''];
    cbn [snd String.length] in *; lia.
Qed.

Lemma match_number_length (s lit r : string) :
  Json.match_number s = Some (lit, r) -> String.length r < String.length s.
Proof.
  unfold Json.match_number.
  pose proof (number_sign_length s) as Hsign.
  destruct (Json.number_sign s) as [sign s1]. cbn [snd] in Hsign.
  destruct (Json.number_integer s1) as [[int r1]|] eqn:Hint; [|discriminate].
  apply number_integer_length in Hint.
  pose proof (number_fraction_length r1) as Hfrac.
  destruct (Json.number_fraction r1) as [frac r2]. cbn [snd] in Hfrac.
  pose proof (number_exponent_length r2) as Hexp.
  destruct (Json.number_exponent r2) as [exp r3]. cbn [snd] in Hexp.
  intros Heq. injection Heq as _ <-. lia.
Qed.

Lemma scan_literal_length (s : string) (v : pyval) (r : string) :
  match Json.after_prefix "null" s, Json.after_prefix "true" s,
        Json.after_prefix "false" s with
  | Some r, _, _ => Some (PyNone, r)
  | _, Some r, _ => Some (PyBool true, r)
  | _, _, Some r => Some (PyBool false, r)
  | None, None, None =>
      match Json.match_number s with
      | Some (lit, r) => Some (PyNum lit, r)
      | None =>
          match Json.after_prefix "NaN" s, Json.after_prefix "Infinity" s,
                Json.after_prefix "-Infinity" s with
          | Some r, _, _ => Some (PyNum "NaN", r)
          | _, Some r, _ => Some (PyNum "Infinity", r)
          | _, _, Some r => Some (PyNum "-Infinity", r)
          | None, None, None => None
          end
      end
  end = Some (v, r) ->
  String.length r < String.length s.
Proof.
  destruct (Json.after_prefix "null" s) as [r0|] eqn:H1.
  { intros Heq. injection Heq as _ <-. apply after_prefix_length in H1.
    cbn in H1. lia. }
  destruct (Json.after_prefix "true" s) as [r0|] eqn:H2.
  { intros Heq. injection Heq as _ <-. apply after_prefix_length in H2.
    cbn in H2. lia. }
  destruct (Json.after_prefix "false" s) as [r0|] eqn:H3.
  { intros Heq. injection Heq as _ <-. apply after_prefix_length in H3.
    cbn in H3. lia. }
  destruct (Json.match_number s) as [[lit r0]|] eqn:H4.
  { intros Heq. injection Heq as _ <-. exact (match_number_length _ _ _ H4). }
  destruct (Json.after_prefix "NaN" s) as [r0|] eqn:H5.
  { intros Heq. injection Heq as _ <-. apply after_prefix_length in H5.
    cbn in H5. lia. }
  destruct (Json.after_prefix "Infinity" s) as [r0|] eqn:H6.
  { intros Heq. injection Heq as _ <-. apply after_prefix_length in H6.
    cbn in H6. lia. }
  destruct (Json.after_prefix "-Infinity" s) as [r0|] eqn:H7; [|discriminate].
  intros Heq. injection Heq as _ <-. apply after_prefix_length in H7.
  cbn in H7. lia.
Qed.

Lemma fuel_enough_all (f : nat) : fuel_enough f.
Proof.
  induction f as [|f [IHscan [IHmem IHelem]]].
  { repeat split; intros; discriminate. }
  split; [|split].
  - intros s v r Hrun. cbn [Json.scan_once] in Hrun.
    destruct s as [|c s']; [discriminate|].
    destruct (Char.eqb c DQ) eqn:Hdq.
    { destruct (Json.scanstring s') as [[str rest]|] eqn:Hstr; [|discriminate].
      injection Hrun as <- <-.
      pose proof (scanstring_length _ _ _ _ (le_n _) Hstr) as Hlen.
      split; [cbn [String.length]; lia|].
      intros [|g] Hg; [cbn [String.length] in Hg; lia|].
      cbn [Json.scan_once]. rewrite Hdq, Hstr. reflexivity. }
    destruct (Char.eqb c "{") eqn:Hbrace.
    { destruct (Json.skip_ws s') as [|d0 r0] eqn:Hws; [discriminate|].
      pose proof (skip_ws_cons _ _ _ Hws) as Hlen0.
      destruct (Char.eqb d0 "}") eqn:Hclose.
      { injection Hrun as <- <-. split; [cbn [String.length]; lia|].
        intros [|g] Hg; [cbn [String.length] in Hg; lia|].
        cbn [Json.scan_once]. rewrite Hdq, Hbrace, Hws, Hclose. reflexivity. }
      destruct (Char.eqb d0 DQ) eqn:Hquote; [|discriminate].
      apply IHmem in Hrun as [Hlen Hmore].
      split; [cbn [String.length]; lia|].
      intros [|g] Hg; [cbn [String.length] in Hg; lia|].
      cbn [Json.scan_once]. rewrite Hdq, Hbrace, Hws, Hclose, Hquote.
      apply Hmore. cbn [String.length] in Hg. lia. }
    destruct (Char.eqb c "[") eqn:Hbracket.
    { destruct (Json.skip_ws s') as [|d0 r0] eqn:Hws; [discriminate|].
      pose proof (skip_ws_cons _ _ _ Hws) as Hlen0.
      destruct (Char.eqb d0 "]") eqn:Hclose.
      { injection Hrun as <- <-. split; [cbn [String.length]; lia|].
        intros [|g] Hg; [cbn [String.length] in Hg; lia|].
        cbn [Json.scan_once]. rewrite Hdq, Hbrace, Hbracket, Hws, Hclose.
        reflexivity. }
      apply IHelem in Hrun as [Hlen Hmore].
      cbn [String.length] in Hlen.
      split; [cbn [String.length]; lia|].
      intros [|g] Hg; [cbn [String.length] in Hg; lia|].
      cbn [Json.scan_once]. rewrite Hdq, Hbrace, Hbracket, Hws, Hclose.
      apply Hmore. cbn [String.length] in Hg |- *. lia. }
    pose proof (scan_literal_length _ _ _ Hrun) as Hlen.
    split; [exact Hlen|].
    intros [|g] Hg; [lia|].
    cbn [Json.scan_once]. rewrite Hdq, Hbrace, Hbracket. exact Hrun.
  - intros d s v r Hrun. cbn [Json.members] in Hrun.
    destruct (Json.scanstring s) as [[key r0]|] eqn:Hkey; [|discriminate].
    pose proof (scanstring_length _ _ _ _ (le_n _) Hkey) as Hlen0.
    destruct (Json.skip_ws r0) as [|c r1] eqn:Hws0; [discriminate|].
    pose proof (skip_ws_cons _ _ _ Hws0) as Hlen1.
    destruct (Char.eqb c ":") eqn:Hcolon; [|discriminate].
    destruct (Json.scan_once f (Json.skip_ws r1)) as [[x r2]|] eqn:Hval;
      [|discriminate].
    apply IHscan in Hval as [Hlen2 Hmore2].
    pose proof (skip_ws_length r1) as Hlen1'.
    destruct (Json.skip_ws r2) as [|e r3] eqn:Hws2; [discriminate|].
    pose proof (skip_ws_cons _ _ _ Hws2) as Hlen3.
    destruct (Char.eqb e "}") eqn:Hclose.
    { injection Hrun as <- <-. split; [lia|].
      intros [|g] Hg; [lia|].
      cbn [Json.members]. rewrite Hkey, Hws0, Hcolon, (Hmore2 g), Hws2, Hclose;
        [reflexivity | lia]. }
    destruct (Char.eqb e ",") eqn:Hcomma; [|discriminate].
    destruct (Json.skip_ws r3) as [|q r4] eqn:Hws3; [discriminate|].
    pose proof (skip_ws_cons _ _ _ Hws3) as Hlen4.
    destruct (Char.eqb q DQ) eqn:Hquote; [|discriminate].
    apply IHmem in Hrun as [Hlen Hmore].
    split; [lia|].
    intros [|g] Hg; [lia|].
    cbn [Json.members].
    rewrite Hkey, Hws0, Hcolon, (Hmore2 g), Hws2, Hclose, Hcomma, Hws3, Hquote;
      [apply Hmore; lia | lia].
  - intros acc s v r Hrun. cbn [Json.elements] in Hrun.
    destruct (Json.scan_once f s) as [[x r0]|] eqn:Hval; [|discriminate].
    apply IHscan in Hval as [Hlen0 Hmore0].
    destruct (Json.skip_ws r0) as [|e r1] eqn:Hws0; [discriminate|].
    pose proof (skip_ws_cons _ _ _ Hws0) as Hlen1.
    destruct (Char.eqb e "]") eqn:Hclose.
    { injection Hrun as <- <-. split; [lia|].
      intros [|g] Hg; [lia|].
      cbn [Json.elements]. rewrite (Hmore0 g), Hws0, Hclose;
        [reflexivity | lia]. }
    destruct (Char.eqb e ",") eqn:Hcomma; [|discriminate].
    apply IHelem in Hrun as [Hlen Hmore].
    pose proof (skip_ws_length r1) as Hlen1'.
    split; [lia|].
    intros [|g] Hg; [lia|].
    cbn [Json.elements]. rewrite (Hmore0 g), Hws0, Hclose, Hcomma;
      [apply Hmore; lia | lia].
Qed.

(** The fuel [loads] gives is enough: no more fuel decodes more. *)
Lemma loads_fuel (text : string) (fuel : nat) (v : pyval) (rest : string) :
  Json.scan_once fuel (Json.skip_ws text) = Some (v, rest) ->
  Json.scan_once (S (String.length text)) (Json.skip_ws text) = Some (v, rest).
Proof.
  intros Hrun. destruct (fuel_enough_all fuel) as [Hscan _].
  destruct (Hscan _ _ _ Hrun) as [_ Hmore]. apply Hmore.
  pose proof (skip_ws_length text). lia.
Qed.

Lemma loads_document (text : string) (v : pyval) :
  Json.loads text = Ok v <-> json_document text v.
Proof.
  unfold Json.loads, json_document. split.
  - destruct (Json.scan_once (S (String.length text)) (Json.skip_ws text))
      as [[x rest]|] eqn:Hrun; [|discriminate].
    destruct (Json.skip_ws rest) eqn:Hrest; [|discriminate].
    intros Heq. injection Heq as <-. eauto.
  - intros [fuel [rest [Hrun Hrest]]].
    rewrite (loads_fuel text fuel v rest Hrun), Hrest. reflexivity.
Qed.

(** *** json.load reads back what json.dump writes *)

Lemma encode_list (level : nat) (x : pyval) (xs : list pyval) :
  Json.encode level (PyList (x :: xs))
  = "[" ++ Json.newline_indent (S level) ++ Json.encode (S level) x
    ++ items_text level xs ++ Json.newline_indent level ++ "]".
Proof.
  cbn [Json.encode]. do 4 f_equal.
  induction xs as [|y xs IH]; [reflexivity|].
  cbn [items_text]. rewrite <- IH. reflexivity.
Qed.

Lemma encode_dict (level : nat) (k : string) (x : pyval)
  (xs : list (string * pyval)) :
  Json.encode level (PyDict ((k, x) :: xs))
  = "{" ++ Json.newline_indent (S level) ++ Json.encode_str k ++ ": "
    ++ Json.encode (S level) x ++ fields_text level xs
    ++ Json.newline_indent level ++ "}".
Proof.
  cbn [Json.encode]. do 6 f_equal.
  induction xs as [|[k2 y] xs IH]; [reflexivity|].
  cbn [fields_text]. rewrite <- IH. reflexivity.
Qed.

Lemma stops_cases (tail : string) :
  stops tail = true ->
  tail = "" \/ exists r, tail = String "," r \/ tail = String LF r.
Proof.
  destruct tail as [|c r]; [auto|]. cbn [stops]. intros Hc. right. exists r.
  apply orb_prop in Hc as [Hc|Hc]; apply char_eqb_eq in Hc; subst; auto.
Qed.

Ltac stop_cases H :=
  let r := fresh "r" in
  apply stops_cases in H as [-> | [r [-> | ->]]].

Lemma span_digits_app (s tail : string) :
  stops tail = true ->
  Json.span_digits (s ++ tail)
  = (fst (Json.span_digits s), snd (Json.span_digits s) ++ tail).
Proof.
  intros Hstop. induction s as [|c s IH].
  - stop_cases Hstop; reflexivity.
  - cbn [append Json.span_digits]. destruct (Json.is_digit c); [|reflexivity].
    rewrite IH. destruct (Json.span_digits s). reflexivity.
Qed.

Lemma number_sign_app (s tail : string) :
  stops tail = true ->
  Json.number_sign (s ++ tail)
  = (fst (Json.number_sign s), snd (Json.number_sign s) ++ tail).
Proof.
  intros Hstop. destruct s as [|c s].
  - stop_cases Hstop; reflexivity.
  - cbn [append Json.number_sign]. destruct (Char.eqb c "-"); reflexivity.
Qed.

Lemma number_integer_app (s tail int r : string) :
  stops tail = true ->
  Json.number_integer s = Some (int, r) ->
  Json.number_integer (s ++ tail) = Some (int, r ++ tail).
Proof.
  intros Hstop. destruct s as [|c s]; [discriminate|].
  cbn [append Json.number_integer]. destruct (Char.eqb c "0").
  - intros Heq. injection Heq as <- <-. reflexivity.
  - destruct (Json.is_digit c); [|discriminate].
    rewrite (span_digits_app s tail Hstop).
    destruct (Json.span_digits s) as [d r0]. cbn [fst snd].
    intros Heq. injection Heq as <- <-. reflexivity.
Qed.

Lemma number_fraction_app (s tail : string) :
  stops tail = true ->
  Json.number_fraction (s ++ tail)
  = (fst (Json.number_fraction s), snd (Json.number_fraction s) ++ tail).
Proof.
  intros Hstop. destruct s as [|c s].
  - stop_cases Hstop; reflexivity.
  - cbn [append Json.number_fraction]. destruct (Char.eqb c "."); [|reflexivity].
    rewrite (span_digits_app s tail Hstop).
    destruct (Json.span_digits s) as [[|x d] r0]; reflexivity.
Qed.

Lemma number_exponent_app (s tail : string) :
  stops tail = true ->
  Json.number_exponent (s ++ tail)
  = (fst (Json.number_exponent s), snd (Json.number_exponent s) ++ tail).
Proof.
  intros Hstop. destruct s as [|c s].
  - stop_cases Hstop; reflexivity.
  - cbn [append Json.number_exponent].
    destruct (Char.eqb c "e" || Char.eqb c "E"); [|reflexivity].
    destruct s as [|g s].
    + cbn [append]. pose proof Hstop as Hstop'.
      stop_cases Hstop; reflexivity.
    + cbn [append]. destruct (Char.eqb g "-" || Char.eqb g "+").
      * rewrite (span_digits_app s tail Hstop).
        destruct (Json.span_digits s) as [[|x d] r0]; reflexivity.
      * change (String g (s ++ tail)) with (String g s ++ tail).
        rewrite (span_digits_app (String g s) tail Hstop).
        destruct (Json.span_digits (String g s)) as [[|x d] r0]; reflexivity.
Qed.

Lemma match_number_app (s tail lit r : string) :
  stops tail = true ->
  Json.match_number s = Some (lit, r) ->
  Json.match_number (s ++ tail) = Some (lit, r ++ tail).
Proof.
  intros Hstop. unfold Json.match_number.
  rewrite (number_sign_app s tail Hstop).
  destruct (Json.number_sign s) as [sign s1]. cbn [fst snd].
  destruct (Json.number_integer s1) as [[int r1]|] eqn:Hint; [|discriminate].
  rewrite (number_integer_app s1 tail int r1 Hstop Hint).
  rewrite (number_fraction_app r1 tail Hstop).
  destruct (Json.number_fraction r1) as [frac r2]. cbn [fst snd].
  rewrite (number_exponent_app r2 tail Hstop).
  destruct (Json.number_exponent r2) as [exp r3]. cbn [fst snd].
  intros Heq. injection Heq as <- <-. reflexivity.
Qed.

Lemma match_number_first (s lit r : string) :
  Json.match_number s = Some (lit, r) ->
  exists c s', s = String c s'
               /\ (Char.eqb c "-" = true \/ Json.is_digit c = true).
Proof.
  unfold Json.match_number. destruct s as [|c s']; [discriminate|].
  intros Hrun. exists c, s'. split; [reflexivity|].
  cbn [Json.number_sign] in Hrun. destruct (Char.eqb c "-"); [auto|].
  right. cbn [Json.number_integer] in Hrun.
  destruct (Char.eqb c "0") eqn:Hzero.
  - apply char_eqb_eq in Hzero. subst c. reflexivity.
  - destruct (Json.is_digit c); [reflexivity | discriminate].
Qed.

Lemma number_start (c : char) :
  Char.eqb c "-" = true \/ Json.is_digit c = true ->
  Char.eqb c DQ = false /\ Char.eqb c "{" = false /\ Char.eqb c "[" = false
  /\ Char.eqb "n" c = false /\ Char.eqb "t" c = false
  /\ Char.eqb "f" c = false /\ Json.is_ws c = false
  /\ Char.eqb c "]" = false.
Proof.
  unfold Json.is_digit, Json.is_ws, Char.eqb, DQ. intros Hc.
  assert (Hrange : (c = 45 \/ 48 <= c <= 57)%N).
  { destruct Hc as [Hc|Hc]; [left; apply N.eqb_eq; exact Hc | right].
    apply andb_prop in Hc as [Hlow Hhigh]. apply N.leb_le in Hlow, Hhigh.
    lia. }
  repeat split; tests; reflexivity.
Qed.

Lemma scan_once_number (fuel : nat) (lit tail : string) :
  valid_number lit = true ->
  stops tail = true ->
  Json.scan_once (S fuel) (lit ++ tail) = Some (PyNum lit, tail).
Proof.
  intros Hvalid Hstop. unfold valid_number in Hvalid.
  apply orb_prop in Hvalid as [Hvalid|Hinf].
  2:{ apply string_eqb_eq in Hinf. subst lit. reflexivity. }
  apply orb_prop in Hvalid as [Hvalid|Hinf].
  2:{ apply string_eqb_eq in Hinf. subst lit. reflexivity. }
  apply orb_prop in Hvalid as [Hvalid|Hnan].
  2:{ apply string_eqb_eq in Hnan. subst lit. reflexivity. }
  destruct (Json.match_number lit) as [[l [|x r]]|] eqn:Hnum;
    try discriminate Hvalid.
  apply string_eqb_eq in Hvalid. subst l.
  destruct (match_number_first _ _ _ Hnum) as [c [s' [-> Hc]]].
  destruct (number_start c Hc) as [H1 [H2 [H3 [H4 [H5 [H6 _]]]]]].
  pose proof (match_number_app _ tail _ _ Hstop Hnum) as Happ.
  cbn [append] in Happ |- *. cbn [Json.scan_once Json.after_prefix].
  rewrite H1, H2, H3, H4, H5, H6, Happ. reflexivity.
Qed.

Lemma skip_ws_spaces (n : nat) (tail : string) :
  Json.skip_ws (Json.spaces n ++ tail) = Json.skip_ws tail.
Proof.
  induction n as [|n IH]; [reflexivity|]. exact IH.
Qed.

Lemma skip_ws_newline_indent (level : nat) (tail : string) :
  Json.skip_ws (Json.newline_indent level ++ tail) = Json.skip_ws tail.
Proof.
  unfold Json.newline_indent. rewrite append_assoc.
  change (Json.skip_ws (nl ++ ?x)) with (Json.skip_ws x).
  apply skip_ws_spaces.
Qed.

(** An encoding starts with a character that is neither white space nor
    a closing bracket. *)
Lemma encode_first (level : nat) (v : pyval) (tail : string) :
  well_formed v ->
  exists c rest,
    Json.encode level v ++ tail = String c rest
    /\ Json.is_ws c = false /\ Char.eqb c "]" = false.
Proof.
  intros Hwf. destruct v as [|[]|lit|s|[|x xs]|[|[k x] xs]];
    try (eexists _, _; split; [reflexivity | split; reflexivity]).
  cbn [well_formed] in Hwf. unfold valid_number in Hwf. cbn [Json.encode].
  apply orb_prop in Hwf as [Hwf|Hinf].
  2:{ apply string_eqb_eq in Hinf. subst lit.
      eexists _, _; split; [reflexivity | split; reflexivity]. }
  apply orb_prop in Hwf as [Hwf|Hinf].
  2:{ apply string_eqb_eq in Hinf. subst lit.
      eexists _, _; split; [reflexivity | split; reflexivity]. }
  apply orb_prop in Hwf as [Hwf|Hnan].
  2:{ apply string_eqb_eq in Hnan. subst lit.
      eexists _, _; split; [reflexivity | split; reflexivity]. }
  destruct (Json.match_number lit) as [[l r]|] eqn:Hnum; [|discriminate].
  destruct (match_number_first _ _ _ Hnum) as [c [s' [-> Hc]]].
  destruct (number_start c Hc) as [_ [_ [_ [_ [_ [_ [Hws Hclose]]]]]]].
  exists c, (s' ++ tail). auto.
Qed.

Lemma skip_ws_encode (level : nat) (v : pyval) (tail : string) :
  well_formed v ->
  Json.skip_ws (Json.encode level v ++ tail) = Json.encode level v ++ tail.
Proof.
  intros Hwf. destruct (encode_first level v tail Hwf) as [c [rest [-> [Hws _]]]].
  cbn [Json.skip_ws]. rewrite Hws. reflexivity.
Qed.

Lemma stops_newline_indent (level : nat) (tail : string) :
  stops (Json.newline_indent level ++ tail) = true.
Proof.
  reflexivity.
Qed.

Lemma stops_items_text (level : nat) (xs : list pyval) (tail : string) :
  stops (items_text level xs ++ Json.newline_indent level ++ tail) = true.
Proof.
  destruct xs; reflexivity.
Qed.

Lemma stops_fields_text (level : nat) (xs : list (string * pyval))
  (tail : string) :
  stops (fields_text level xs ++ Json.newline_indent level ++ tail) = true.
Proof.
  destruct xs as [|[k x] xs]; reflexivity.
Qed.

Ltac lengths H :=
  repeat (progress (repeat rewrite length_append in H;
                    cbn [String.length] in H));
  repeat (progress (repeat rewrite length_append; cbn [String.length])).

Lemma reread_value_list (items : list pyval) :
  reread_value (PyList items) = PyList (reread_list items).
Proof.
  reflexivity.
Qed.

Lemma reread_value_dict (items : list (string * pyval)) :
  reread_value (PyDict items) = PyDict (reread_items [] items).
Proof.
  cbn [reread_value]. f_equal. unfold reread_items. generalize (@nil (string * pyval)).
  induction items as [|[k x] xs IH]; intros d; [reflexivity|].
  cbn [fold_left fst snd]. rewrite <- IH. reflexivity.
Qed.

Lemma elements_encode (n : nat) (IHn : roundtrip_upto n) (xs : list pyval) :
  forall x acc level tail g,
    Forall (fun y => size y <= n /\ well_formed y) (x :: xs) ->
    stops tail = true ->
    S (String.length (Json.encode (S level) x ++ items_text level xs
                      ++ Json.newline_indent level ++ "]" ++ tail)) <= g ->
    Json.elements g acc
      (Json.encode (S level) x ++ items_text level xs
       ++ Json.newline_indent level ++ "]" ++ tail)
    = Some (PyList (acc ++ reread_list (x :: xs)), tail).
Proof.
  induction xs as [|y ys IH]; intros x acc level tail g Hall Hstop Hfuel;
    inversion Hall as [|? ? [Hsize Hwf] Hrest]; subst;
    (destruct g as [|g]; [lia|]); cbn [Json.elements];
    (rewrite (IHn x Hsize Hwf);
     [| apply stops_items_text | try lia ]).
  - cbn [items_text append]. rewrite skip_ws_newline_indent.
    change (Json.skip_ws (String "]" ?t)) with (String "]" t).
    cbv beta iota. rewrite char_eqb_refl. reflexivity.
  - cbn [items_text]. rewrite !append_assoc.
    change (Json.skip_ws ("," ++ ?t)) with (String "," t). cbv beta iota.
    change (Char.eqb "," "]") with false. cbv beta iota.
    rewrite char_eqb_refl, skip_ws_newline_indent.
    inversion Hrest as [|? ? [Hsize' Hwf'] Hrest']; subst.
    rewrite (skip_ws_encode _ _ _ Hwf'). rewrite (IH y); [| exact Hrest | exact Hstop |].
    + rewrite <- app_assoc. reflexivity.
    + cbn [items_text] in Hfuel. lengths Hfuel. lia.
Qed.

Lemma members_encode (n : nat) (IHn : roundtrip_upto n)
  (xs : list (string * pyval)) :
  forall k x d level tail g,
    Forall (fun kv => size (snd kv) <= n /\ well_formed (snd kv))
           ((k, x) :: xs) ->
    stops tail = true ->
    String.length
      (Json.escape k
       ++ String DQ (": " ++ Json.encode (S level) x ++ fields_text level xs
                     ++ Json.newline_indent level ++ "}" ++ tail)) <= g ->
    Json.members g d
      (Json.escape k
       ++ String DQ (": " ++ Json.encode (S level) x ++ fields_text level xs
                     ++ Json.newline_indent level ++ "}" ++ tail))
    = Some (PyDict (reread_items d ((k, x) :: xs)), tail).
Proof.
  induction xs as [|[k2 y] ys IH];
    intros k x d level tail g Hall Hstop Hfuel;
    inversion Hall as [|? ? [Hsize Hwf] Hrest]; subst; cbn [snd] in *;
    (destruct g as [|g]; [lengths Hfuel; lia|]); cbn [Json.members];
    rewrite scanstring_escape;
    change (Json.skip_ws (": " ++ ?t)) with (String ":" (String " " t));
    cbv beta iota; rewrite char_eqb_refl;
    change (Json.skip_ws (String " " ?t)) with (Json.skip_ws t);
    rewrite (skip_ws_encode _ _ _ Hwf);
    (rewrite (IHn x Hsize Hwf);
     [| apply stops_fields_text | lengths Hfuel; lia]).
  - cbn [fields_text append]. rewrite skip_ws_newline_indent.
    change (Json.skip_ws (String "}" ?t)) with (String "}" t).
    cbv beta iota. rewrite char_eqb_refl. reflexivity.
  - cbn [fields_text]. rewrite !append_assoc.
    change (Json.skip_ws ("," ++ ?t)) with (String "," t). cbv beta iota.
    change (Char.eqb "," "}") with false. cbv beta iota.
    rewrite char_eqb_refl, skip_ws_newline_indent, skip_ws_encode_str.
    rewrite encode_str_append. rewrite char_eqb_refl.
    rewrite (IH k2 y); [| exact Hrest | exact Hstop |].
    + reflexivity.
    + cbn [fields_text] in Hfuel. rewrite encode_str_append in Hfuel.
      lengths Hfuel. lia.
Qed.

Lemma newline_indent_length (level : nat) :
  1 <= String.length (Json.newline_indent level).
Proof.
  unfold Json.newline_indent. rewrite length_append. cbn. lia.
Qed.

Lemma size_positive (v : pyval) : 1 <= size v.
Proof.
  destruct v; cbn; lia.
Qed.

Lemma list_items_small (n : nat) (items : list pyval) :
  size (PyList items) <= S n ->
  well_formed (PyList items) ->
  Forall (fun y => size y <= n /\ well_formed y) items.
Proof.
  induction items as [|x xs IH]; intros Hsize Hwf; [constructor|].
  cbn [size well_formed] in Hsize, Hwf. destruct Hwf as [Hx Hxs].
  constructor.
  - split; [lia | exact Hx].
  - apply IH; [cbn [size]; lia | exact Hxs].
Qed.

Lemma dict_items_small (n : nat) (items : list (string * pyval)) :
  size (PyDict items) <= S n ->
  well_formed (PyDict items) ->
  Forall (fun kv => size (snd kv) <= n /\ well_formed (snd kv)) items.
Proof.
  intros Hsize [_ Hwf]. revert Hsize Hwf.
  induction items as [|[k x] xs IH]; intros Hsize Hwf; [constructor|].
  cbn [size] in Hsize. destruct Hwf as [Hx Hxs].
  constructor.
  - cbn [snd]. split; [lia | exact Hx].
  - apply IH; [cbn [size]; lia | exact Hxs].
Qed.

Lemma roundtrip_all (n : nat) : roundtrip_upto n.
Proof.
  induction n as [|n IHn]; intros v Hsize Hwf level tail g Hstop Hfuel.
  { pose proof (size_positive v). lia. }
  destruct v as [|b|lit|s|items|items].
  - destruct g as [|g]; [cbn in Hfuel; lia | reflexivity].
  - destruct g as [|g]; [destruct b; cbn in Hfuel; lia|].
    destruct b; reflexivity.
  - destruct g as [|g].
    { destruct (encode_first level (PyNum lit) tail Hwf) as [c [r [Heq _]]].
      rewrite Heq in Hfuel. cbn in Hfuel. lia. }
    exact (scan_once_number g lit tail Hwf Hstop).
  - destruct g as [|g]; [cbn in Hfuel; lia|]. apply scan_once_str.
  - destruct items as [|x xs].
    { destruct g as [|g]; [cbn in Hfuel; lia | reflexivity]. }
    pose proof (list_items_small n _ Hsize Hwf) as Hall.
    inversion Hall as [|? ? [_ Hwfx] _]; subst.
    rewrite encode_list in Hfuel |- *. rewrite !append_assoc in Hfuel |- *.
    destruct g as [|g]; [cbn in Hfuel; lia|].
    change ("[" ++ ?t) with (String "[" t) in Hfuel |- *.
    cbn [Json.scan_once].
    change (Char.eqb "[" DQ) with false.
    change (Char.eqb "[" "{") with false. cbv beta iota.
    rewrite char_eqb_refl, skip_ws_newline_indent.
    rewrite (skip_ws_encode _ _ _ Hwfx).
    destruct (encode_first (S level) x
                (items_text level xs ++ Json.newline_indent level ++ "]" ++ tail)
                Hwfx) as [c [r [Heq [_ Hclose]]]].
    rewrite Heq, Hclose, <- Heq.
    rewrite (elements_encode n IHn xs x [] level tail g Hall Hstop);
      [reflexivity|].
    lengths Hfuel. pose proof (newline_indent_length (S level)). lia.
  - destruct items as [|[k x] xs].
    { destruct g as [|g]; [cbn in Hfuel; lia | reflexivity]. }
    pose proof (dict_items_small n _ Hsize Hwf) as Hall.
    rewrite reread_value_dict.
    rewrite encode_dict in Hfuel |- *. rewrite !append_assoc in Hfuel |- *.
    destruct g as [|g]; [cbn in Hfuel; lia|].
    change ("{" ++ ?t) with (String "{" t) in Hfuel |- *.
    cbn [Json.scan_once].
    change (Char.eqb "{" DQ) with false. cbv beta iota.
    rewrite char_eqb_refl, skip_ws_newline_indent, skip_ws_encode_str.
    rewrite encode_str_append in Hfuel |- *.
    change (Char.eqb DQ "}") with false. cbv beta iota.
    rewrite char_eqb_refl.
    rewrite (members_encode n IHn xs k x [] level tail g Hall Hstop);
      [reflexivity|].
    lengths Hfuel. lia.
Qed.

(** What [json.dumps] writes for a well-formed value, [json.loads] reads
    back as that value reread. *)
Theorem loads_dumps (v : pyval) :
  well_formed v -> Json.loads (Json.dumps v) = Ok (reread_value v).
Proof.
  intros Hwf. apply loads_document. unfold json_document, Json.dumps.
  exists (String.length (Json.encode 0 v)), "". split; [|reflexivity].
  pose proof (roundtrip_all (size v) v (le_n _) Hwf 0 ""
                (String.length (Json.encode 0 v)) eq_refl) as Hrun.
  assert (Hnil : forall s, s ++ "" = s).
  { induction s as [|c s IH]; cbn; [|rewrite IH]; reflexivity. }
  rewrite Hnil in Hrun.
  destruct (encode_first 0 v "" Hwf) as [c [r [Heq [Hws _]]]].
  rewrite Hnil in Heq.
  replace (Json.skip_ws (Json.encode 0 v)) with (Json.encode 0 v)
    by (rewrite Heq; cbn [Json.skip_ws]; rewrite Hws; reflexivity).
  apply Hrun. apply le_n.
Qed.

Lemma loads_Raise (text : string) (e : exn) :
  Json.loads text = Raise e -> e = JSONDecodeError.
Proof.
  unfold Json.loads.
  destruct (Json.scan_once (S (String.length text)) (Json.skip_ws text))
    as [[v rest]|]; [destruct (Json.skip_ws rest)|]; congruence.
Qed.

(** *** The fields of a dict after a round trip *)

Lemma string_eqb_refl (s : string) : String.eqb s s = true.
Proof. apply string_eqb_eq. reflexivity. Qed.

Lemma dict_get_set (d : list (string * pyval)) (k key : string) (v : pyval) :
  dict_get (dict_set d k v) key
  = if String.eqb k key then Some v else dict_get d key.
Proof.
  induction d as [|[k0 w] d IH]; cbn [dict_set dict_get]; [reflexivity|].
  destruct (String.eqb k0 k) eqn:Hk0; cbn [dict_get].
  - apply string_eqb_eq in Hk0. subst k0.
    destruct (String.eqb k key); reflexivity.
  - rewrite IH. destruct (String.eqb k0 key) eqn:Hkey; [|reflexivity].
    apply string_eqb_eq in Hkey. subst key. destruct (String.eqb k k0) eqn:Hkk; [|reflexivity]. apply string_eqb_eq in Hkk. subst k. rewrite string_eqb_refl in Hk0. discriminate Hk0.
Qed.

Lemma dict_get_absent (d : list (string * pyval)) (key : string) :
  ~ In key (map fst d) -> dict_get d key = None.
Proof.
  induction d as [|[k w] d IH]; [reflexivity|].
  cbn [map fst In dict_get]. intros Hout.
  destruct (String.eqb k key) eqn:Hk.
  - apply string_eqb_eq in Hk. tauto.
  - apply IH. tauto.
Qed.

(** A text without character above U+FFFF is reread from itself only. *)
Lemma reread_bmp (k : string) :
  forall key,
    forallb (fun c => N.ltb c 0x10000) (list_of_string key) = true ->
    reread k = key -> k = key.
Proof.
  assert (Hpair : forall a b, (0x10000 <= Json.join_pair a b)%N).
  { intros a b. unfold Json.join_pair. apply N.le_add_r. }
  assert (Hchar : forall a c, reread_char a = c -> (c < 0x10000)%N -> a = c).
  { intros a c. unfold reread_char.
    destruct (N.ltb_spec a 0x10000); intros Heq Hc; [exact Heq|].
    subst c. exfalso. apply N.lt_nge in Hc. apply Hc, N.le_add_r. }
  assert (Hlen : forall n k key, String.length k <= n ->
            forallb (fun c => N.ltb c 0x10000) (list_of_string key) = true ->
            reread k = key -> k = key).
  { clear k. induction n as [|n IH]; intros k key Hn Hbmp Heq.
    { destruct k; [exact Heq | cbn in Hn; lia]. }
    destruct k as [|a [|b t]]; [exact Heq | |].
    - cbn [reread] in Heq. subst key. cbn in Hbmp.
      apply andb_prop in Hbmp as [Hc _]. apply N.ltb_lt in Hc.
      f_equal. exact (Hchar a _ eq_refl Hc).
    - rewrite reread_cons in Heq. cbn [String.length] in Hn.
      destruct (Json.is_high a && Json.is_low b); subst key;
        cbn [list_of_string forallb] in Hbmp;
        apply andb_prop in Hbmp as [Hc Hrest]; apply N.ltb_lt in Hc.
      + specialize (Hpair a b). lia.
      + f_equal; [exact (Hchar a _ eq_refl Hc)|].
        apply IH; [cbn [String.length]; lia | exact Hrest | reflexivity]. }
  intros key. apply (Hlen (String.length k)). apply le_n.
Qed.

Lemma dict_get_reread_items (key : string) (items : list (string * pyval)) :
  forallb (fun c => N.ltb c 0x10000) (list_of_string key) = true ->
  reread key = key ->
  NoDup (map fst items) ->
  forall d,
    dict_get (reread_items d items) key
    = match dict_get items key with
      | Some v => Some (reread_value v)
      | None => dict_get d key
      end.
Proof.
  intros Hbmp Hkey. induction items as [|[k x] xs IH]; intros Hkeys d;
    [reflexivity|].
  cbn [map fst] in Hkeys. inversion Hkeys as [|? ? Hout Hrest]; subst.
  unfold reread_items. cbn [fold_left fst snd].
  fold (reread_items (dict_set d (reread k) (reread_value x)) xs).
  rewrite (IH Hrest). cbn [dict_get].
  destruct (String.eqb k key) eqn:Hk.
  - apply string_eqb_eq in Hk. subst k.
    rewrite (dict_get_absent xs key Hout), dict_get_set, Hkey.
    rewrite string_eqb_refl. reflexivity.
  - destruct (dict_get xs key); [reflexivity|].
    rewrite dict_get_set.
    destruct (String.eqb (reread k) key) eqn:Hrk; [|reflexivity].
    apply string_eqb_eq in Hrk. apply (reread_bmp k key Hbmp) in Hrk.
    subst k. rewrite string_eqb_refl in Hk. discriminate Hk.
Qed.

(** A field with a name without surrogates, such as timestamp: what is
    loaded under it is what was saved under it, reread. *)
Lemma getitem_reread (key : string) (items : list (string * pyval))
  (v : pyval) :
  forallb (fun c => N.ltb c 0x10000) (list_of_string key) = true ->
  reread key = key ->
  NoDup (map fst items) ->
  getitem (PyDict items) key = Ok v ->
  getitem (reread_value (PyDict items)) key = Ok (reread_value v).
Proof.
  intros Hbmp Hkey Hkeys. rewrite reread_value_dict. cbn [getitem].
  rewrite (dict_get_reread_items key items Hbmp Hkey Hkeys).
  destruct (dict_get items key) as [w|]; [|discriminate].
  intros Heq. injection Heq as <-. reflexivity.
Qed.

Section CacheFile.

Context `{World}.

Lemma save_cache_file (report_data : pyval) (st : State) :
  exists t,
    cache_file (snd (save_cache report_data st))
    = Some {| mtime := t; content := Json.dumps report_data |}.
Proof.
  unfold save_cache. destruct (time_time (world st)) as [t w].
  exists t. reflexivity.
Qed.

Lemma load_cached_report_present (st : State) (f : File) :
  cache_file st = Some f ->
  load_cached_report st = (Json.loads (content f), st).
Proof.
  intros Hfile. unfold load_cached_report. rewrite Hfile. reflexivity.
Qed.

(** C6.  A report dictionary with a string timestamp and a string
    full_report (a Python dict: its keys are distinct; its numbers, if it
    holds any, are literals), saved and then loaded, comes back with the
    timestamp and the full_report that were saved, but for the
    surrogates: a high surrogate directly followed by a low one comes
    back as the one character the pair stands for.  A field that holds no
    such pair comes back as it was saved. *)
Theorem save_cache_load_cached_report (report_data : list (string * pyval))
  (timestamp full_report : string) (st : State) :
  well_formed (PyDict report_data) ->
  getitem (PyDict report_data) "timestamp" = Ok (PyStr timestamp) ->
  getitem (PyDict report_data) "full_report" = Ok (PyStr full_report) ->
  exists loaded,
    fst (load_cached_report (snd (save_cache (PyDict report_data) st)))
    = Ok loaded
    /\ getitem loaded "timestamp" = Ok (PyStr (reread timestamp))
    /\ getitem loaded "full_report" = Ok (PyStr (reread full_report))
    /\ (python_str timestamp = true -> unpaired timestamp = true ->
        getitem loaded "timestamp" = Ok (PyStr timestamp))
    /\ (python_str full_report = true -> unpaired full_report = true ->
        getitem loaded "full_report" = Ok (PyStr full_report)).
Proof.
  intros Hwf Htimestamp Hreport.
  destruct (save_cache_file (PyDict report_data) st) as [t Hfile].
  exists (reread_value (PyDict report_data)).
  rewrite (load_cached_report_present _ _ Hfile). cbn [fst content].
  rewrite (loads_dumps _ Hwf). destruct Hwf as [Hkeys _].
  pose proof (getitem_reread "timestamp" report_data _ eq_refl eq_refl
                Hkeys Htimestamp) as Ht.
  pose proof (getitem_reread "full_report" report_data _ eq_refl eq_refl
                Hkeys Hreport) as Hr.
  change (reread_value (PyStr timestamp)) with (PyStr (reread timestamp)) in Ht.
  change (reread_value (PyStr full_report))
    with (PyStr (reread full_report)) in Hr.
  split; [reflexivity|]. split; [exact Ht|]. split; [exact Hr|].
  split; intros Hpy Hun.
  - rewrite Ht, (reread_unpaired _ Hpy Hun). reflexivity.
  - rewrite Hr, (reread_unpaired _ Hpy Hun). reflexivity.
Qed.



End CacheFile.

(** The sample report, whose note holds characters outside ASCII and one
    above U+FFFF: its timestamp and its full_report come back as saved. *)
Lemma save_cache_load_cached_report_witness :
  let full_report :=
    report_text "2024-05-01"
                ("Fine, " ++ String DQ "really" ++ String DQ ".") "C:\go" in
  exists loaded,
    fst (@load_cached_report world_twelve
           (snd (@save_cache world_twelve (PyDict sample_report)
                   (@initial_state world_twelve None tt))))
    = Ok loaded
    /\ getitem loaded "timestamp" = Ok (PyStr "2024-05-01T12:00:00")
    /\ getitem loaded "full_report" = Ok (PyStr full_report).
Proof.
  intros full_report.
  assert (Hwf : well_formed (PyDict sample_report)).
  { split; [repeat constructor; cbn; intuition discriminate|].
    cbn. repeat split; solve [reflexivity | constructor]. }
  destruct (@save_cache_load_cached_report world_twelve sample_report
              "2024-05-01T12:00:00" full_report
              (@initial_state world_twelve None tt) Hwf eq_refl eq_refl)
    as [loaded [Hload [_ [_ [Htimestamp Hreport]]]]].
  exists loaded. split; [exact Hload|]. split.
  - apply Htimestamp; reflexivity.
  - apply Hreport; reflexivity.
Defined.

(** C6 fails as stated: the report text is a high surrogate followed by a
    low one, two characters that json.dump writes as two escapes; what
    json.load reads from them is one character, U+1F600, and the
    full_report that is loaded is not the one that was saved. *)
Lemma save_cache_load_cached_report_surrogates :
  let full_report := String 0xd83d%N (String 0xde00%N "") in
  let report_data := cache_data "2024-05-01T12:00:00" full_report in
  let st := snd (@save_cache world_twelve report_data
                   (@initial_state world_twelve None tt)) in
  getitem report_data "timestamp" = Ok (PyStr "2024-05-01T12:00:00")
  /\ getitem report_data "full_report" = Ok (PyStr full_report)
  /\ Json.encode_str full_report
     = String DQ ("\ud83d\ude00" ++ String DQ "")
  /\ exists loaded,
       fst (@load_cached_report world_twelve st) = Ok loaded
       /\ getitem loaded "full_report" = Ok (PyStr (String 0x1f600%N ""))
       /\ getitem loaded "full_report" <> getitem report_data "full_report".
Proof.
  split; [reflexivity|]. split; [reflexivity|]. split; [reflexivity|].
  eexists. split; [vm_compute; reflexivity|].
  split; [reflexivity | discriminate].
Qed.

(** * Further properties *)

(** ** The renderer: what it prints and what it leaves alone *)

Section RendererEffects.

Context `{World}.

Lemma display_sections_events (sections : list string) :
  forall st,
    display_sections sections st
    = (Ok tt, {| cache_file := cache_file st;
                 trace := (trace st ++ section_events sections)%list;
                 world := world st |}).
Proof.
  induction sections as [|section rest IH]; intros st.
  - cbn. rewrite app_nil_r. destruct st; reflexivity.
  - cbn [display_sections]. unfold section_events. cbn [filter].
    unfold nonblank at 1. unfold bind at 1.
    destruct (truthy (strip section)).
    + unfold bind at 1. unfold console_print, emit. cbn [trace cache_file world].
      rewrite IH. cbn [trace cache_file world flat_map].
      rewrite <- !app_assoc. reflexivity.
    + unfold ret. rewrite IH. reflexivity.
Qed.

(** The state [display_report] leaves: the banner, then the panels when
    it is given a string. *)
Lemma display_report_run (report : pyval) (st : State) :
  let today := fst (datetime_now (world st)) in
  let st' := snd (display_report report st) in
  cache_file st' = cache_file st
  /\ world st' = snd (datetime_now (world st))
  /\ match report with
     | PyStr text =>
         fst (display_report report st) = Ok tt
         /\ trace st'
            = (trace st ++ banner (strftime_Ymd today)
               ++ section_events (split "---" text))%list
     | _ =>
         fst (display_report report st) = Raise AttributeError
         /\ trace st' = (trace st ++ banner (strftime_Ymd today))%list
     end.
Proof.
  cbv zeta. unfold display_report, bind, console_print, emit, now.
  cbn [trace cache_file world].
  destruct (datetime_now (world st)) as [today w].
  cbn [trace cache_file world fst snd].
  destruct report;
    try (unfold raise; cbn [fst snd trace cache_file world];
         rewrite <- !app_assoc; repeat split; reflexivity).
  rewrite display_sections_events. cbn [fst snd trace cache_file world].
  rewrite <- !app_assoc. repeat split; reflexivity.
Qed.

Lemma section_events_console (sections : list string) :
  forallb console (section_events sections) = true.
Proof.
  unfold section_events.
  induction (filter nonblank sections) as [|s l IH]; [reflexivity|].
  cbn. exact IH.
Qed.

Lemma section_events_blocks (sections : list string) :
  section_blocks (section_events sections)
  = map section_block (filter nonblank sections).
Proof.
  unfold section_events, section_blocks.
  induction (filter nonblank sections) as [|s l IH]; [reflexivity|].
  cbn [flat_map map app]. rewrite IH. reflexivity.
Qed.

(** X10.  [display_report] prints and does nothing else.  Whatever it is
    given, it leaves the cache file alone and its events are console
    prints, first the banner with the date of the day it runs; given a
    string it returns, and the panels after the banner are those of the
    sections that are not blank; given anything else it raises
    AttributeError once the banner is printed. *)
Theorem display_report_effects (report : pyval) (st : State) :
  let today := fst (datetime_now (world st)) in
  let st' := snd (display_report report st) in
  cache_file st' = cache_file st
  /\ exists shown,
       trace st'
       = (trace st
          ++ [ConsolePrint (Str nl) None;
              ConsolePrint
                (Panel (Text "🚀 GitHub Trending Repositories Report"
                             "bold magenta") None "bright_blue") None;
              ConsolePrint
                (Text ("Generated on: " ++ strftime_Ymd today) "italic cyan")
                None;
              ConsolePrint (Str nl) None]
          ++ shown)%list
       /\ forallb console shown = true
       /\ match report with
          | PyStr text =>
              fst (display_report report st) = Ok tt
              /\ section_blocks shown
                 = map section_block (filter nonblank (split "---" text))
          | _ =>
              fst (display_report report st) = Raise AttributeError
              /\ shown = []
          end.
Proof.
  cbv zeta. destruct (display_report_run report st) as [Hcache [_ Hshow]].
  cbv zeta in Hshow. split; [exact Hcache|].
  change [ConsolePrint (Str nl) None;
          ConsolePrint
            (Panel (Text "🚀 GitHub Trending Repositories Report"
                         "bold magenta") None "bright_blue") None;
          ConsolePrint
            (Text ("Generated on: "
                   ++ strftime_Ymd (fst (datetime_now (world st))))
                  "italic cyan") None;
          ConsolePrint (Str nl) None]
    with (banner (strftime_Ymd (fst (datetime_now (world st))))).
  destruct report as [|b|lit|text|items|items];
    destruct Hshow as [Hres Htrace]; rewrite Htrace;
    try (exists []; rewrite app_nil_r; repeat split; assumption).
  exists (section_events (split "---" text)).
  split; [reflexivity|]. split; [apply section_events_console|].
  split; [exact Hres | apply section_events_blocks].
Qed.

End RendererEffects.

(** ** The two paths of a run *)

Section Runs.

Context `{World}.

Lemma display_report_str (text : string) (st : State) :
  display_report (PyStr text) st
  = (Ok tt,
     {| cache_file := cache_file st;
        trace := (trace st
                  ++ banner (strftime_Ymd (fst (datetime_now (world st))))
                  ++ section_events (split "---" text))%list;
        world := snd (datetime_now (world st)) |}).
Proof.
  unfold display_report, bind, console_print, emit, now.
  cbn [trace cache_file world].
  destruct (datetime_now (world st)) as [today w].
  cbn [trace cache_file world fst snd].
  rewrite display_sections_events. cbn [fst snd trace cache_file world].
  rewrite <- !app_assoc. reflexivity.
Qed.

(** The state the four calls of a refresh leave, when they all return. *)
Lemma refresh_calls_extend (st s1 s2 s3 s4 : State)
  (all_trending golang_trending : list repo)
  (all_repos_summary golang_repos_summary : string) :
  fetch_trending_repos None (after_message st) = (Ok all_trending, s1) ->
  generate_repo_summary all_trending (after_print all_trending s1)
  = (Ok all_repos_summary, s2) ->
  fetch_trending_repos (Some "go") s2 = (Ok golang_trending, s3) ->
  generate_repo_summary golang_trending s3 = (Ok golang_repos_summary, s4) ->
  extends st s4
    [fetching_message; request None; StdoutPrint all_trending;
     completion all_trending; request (Some "go"); completion golang_trending].
Proof.
  intros Hf1 Hs1 Hf2 Hs2.
  destruct (should_refresh_cache_extends st) as [b [s0 [Hsr E0]]].
  assert (Em : extends s0 (after_message st) [fetching_message]).
  { unfold after_message. rewrite Hsr. split; reflexivity. }
  pose proof (fetch_trending_repos_extends None (after_message st)) as E1.
  rewrite Hf1 in E1. cbn [snd] in E1.
  assert (Ep : extends s1 (after_print all_trending s1)
                 [StdoutPrint all_trending]) by (split; reflexivity).
  pose proof (generate_repo_summary_extends all_trending
                (after_print all_trending s1)) as E2.
  rewrite Hs1 in E2. cbn [snd] in E2.
  pose proof (fetch_trending_repos_extends (Some "go") s2) as E3.
  rewrite Hf2 in E3. cbn [snd] in E3.
  pose proof (generate_repo_summary_extends golang_trending s3) as E4.
  rewrite Hs2 in E4. cbn [snd] in E4.
  pose proof (extends_trans _ _ _ _ _ E0 Em) as T1.
  pose proof (extends_trans _ _ _ _ _ T1 E1) as T2.
  pose proof (extends_trans _ _ _ _ _ T2 Ep) as T3.
  pose proof (extends_trans _ _ _ _ _ T3 E2) as T4.
  pose proof (extends_trans _ _ _ _ _ T4 E3) as T5.
  pose proof (extends_trans _ _ _ _ _ T5 E4) as T6.
  exact T6.
Qed.

(** The state a refresh leaves when its calls all return. *)
Lemma refresh_run_state (st s1 s2 s3 s4 : State)
  (all_trending golang_trending : list repo)
  (all_repos_summary golang_repos_summary : string) :
  fst (should_refresh_cache st) = Ok true ->
  fetch_trending_repos None (after_message st) = (Ok all_trending, s1) ->
  generate_repo_summary all_trending (after_print all_trending s1)
  = (Ok all_repos_summary, s2) ->
  fetch_trending_repos (Some "go") s2 = (Ok golang_trending, s3) ->
  generate_repo_summary golang_trending s3 = (Ok golang_repos_summary, s4) ->
  exists today stamp written shown w,
    let full_report :=
      report_text (strftime_Ymd today) all_repos_summary
                  golang_repos_summary in
    let text := Json.dumps (cache_data (isoformat stamp) full_report) in
    generate_daily_report st
    = (Ok tt,
       {| cache_file := Some {| mtime := written; content := text |};
          trace :=
            (trace st
             ++ [fetching_message; request None; StdoutPrint all_trending;
                 completion all_trending; request (Some "go");
                 completion golang_trending; FileWrite text]
             ++ banner (strftime_Ymd shown)
             ++ section_events (split "---" full_report)
             ++ [done_message])%list;
          world := w |}).
Proof.
  intros Href Hf1 Hs1 Hf2 Hs2.
  destruct (refresh_calls_extend _ _ _ _ _ _ _ _ _ Hf1 Hs1 Hf2 Hs2)
    as [_ Htrace].
  unfold generate_daily_report. unfold bind at 1.
  assert (Hstart : exists s0,
             should_refresh_cache st = (Ok true, s0)
             /\ after_message st = snd (emit fetching_message s0)).
  { unfold after_message.
    destruct (should_refresh_cache st) as [[b|e0] s0]; [|discriminate Href].
    cbn [fst] in Href. injection Href as ->. eauto. }
  destruct Hstart as [s0 [Hsr Hmsg]]. rewrite Hsr. cbn [negb].
  unfold bind at 1. unfold console_print at 1. fold fetching_message.
  destruct (emit fetching_message s0) as [[u|e0] sm] eqn:Hemit;
    [|discriminate Hemit].
  cbn [snd] in Hmsg. rewrite Hmsg in Hf1.
  unfold bind at 1. rewrite Hf1.
  unfold bind at 1. unfold after_print in Hs1.
  destruct (emit (StdoutPrint all_trending) s1) as [[u1|e1] sp] eqn:Hprint;
    [|discriminate Hprint].
  cbn [snd] in Hs1. unfold bind at 1. rewrite Hs1.
  unfold bind at 1. rewrite Hf2. unfold bind at 1. rewrite Hs2.
  unfold bind at 1. unfold now at 1.
  destruct (datetime_now (world s4)) as [today w1].
  unfold bind at 1. unfold now at 1. cbn [world].
  destruct (datetime_now w1) as [stamp w2].
  unfold bind at 1. unfold save_cache. cbn [world trace cache_file].
  destruct (time_time w2) as [written w3] eqn:Hw3.
  unfold bind at 1. rewrite display_report_str. cbn [world trace cache_file].
  destruct (datetime_now w3) as [shown w4]. cbn [fst snd].
  unfold console_print, emit. cbn [world trace cache_file].
  exists today, stamp, written, shown, w4. cbv zeta.
  rewrite Htrace. unfold cache_data, done_message.
  rewrite <- !app_assoc. reflexivity.
Qed.

Lemma cache_data_well_formed (stamp full_report : string) :
  well_formed (cache_data stamp full_report).
Proof.
  split; [|cbn; auto].
  repeat constructor; cbn; intuition discriminate.
Qed.

Lemma banner_console (date : string) : forallb console (banner date) = true.
Proof.
  reflexivity.
Qed.

Lemma banner_blocks (date : string) : section_blocks (banner date) = [].
Proof.
  reflexivity.
Qed.


(** A run on a fresh cache: the check, the message, the load, the
    lookup and the display. *)
Lemma cache_hit_run (st : State) (f : File) :
  cache_file st = Some f ->
  fst (should_refresh_cache st) = Ok false ->
  let loaded :=
    {| cache_file := Some f;
       trace := (trace st ++ [loading_message])%list;
       world := snd (datetime_now (world st)) |} in
  generate_daily_report st
  = match Json.loads (content f) with
    | Raise e => (Raise e, loaded)
    | Ok cached_data =>
        match getitem cached_data "full_report" with
        | Raise e => (Raise e, loaded)
        | Ok report => display_report report loaded
        end
    end.
Proof.
  intros Hfile Hfresh. cbv zeta.
  unfold generate_daily_report. unfold bind at 1.
  unfold should_refresh_cache in Hfresh |- *. rewrite Hfile in Hfresh |- *.
  unfold bind, ret, now in Hfresh. unfold bind at 1. unfold ret at 1.
  unfold bind at 1. unfold now at 1.
  destruct (datetime_now (world st)) as [t w]. cbn [fst snd] in Hfresh |- *.
  unfold ret at 1. injection Hfresh as ->. cbn [negb].
  unfold bind at 1. unfold console_print at 1. unfold emit.
  fold loading_message. unfold bind at 1.
  unfold load_cached_report. cbn [cache_file trace world].
  rewrite Hfile. unfold lift at 1.
  destruct (Json.loads (content f)) as [cached|e]; [|reflexivity].
  unfold bind at 1. unfold lift.
  destruct (getitem cached "full_report") as [report|e]; reflexivity.
Qed.

(** X2.  A run on a fresh cache stays at home.  Whatever the file holds
    and however the run ends, the cache file is left as it was and the
    run does nothing but print: no request, no completion call, no write.
    When the file holds a dict whose full_report is a string, the run
    returns and the panels printed are those of that string. *)
Theorem generate_daily_report_cache_hit_effects (st : State) :
  fst (should_refresh_cache st) = Ok false ->
  let st' := snd (generate_daily_report st) in
  cache_file st' = cache_file st
  /\ exists f shown,
       cache_file st = Some f
       /\ trace st' = (trace st ++ loading_message :: shown)%list
       /\ forallb console shown = true
       /\ forall cached_data text,
            Json.loads (content f) = Ok cached_data ->
            getitem cached_data "full_report" = Ok (PyStr text) ->
            fst (generate_daily_report st) = Ok tt
            /\ section_blocks shown
               = map section_block (filter nonblank (split "---" text)).
Proof.
  intros Hfresh. cbv zeta.
  destruct (cache_file st) as [f|] eqn:Hfile.
  2:{ rewrite (should_refresh_cache_absent st Hfile) in Hfresh.
      discriminate Hfresh. }
  rewrite (cache_hit_run st f Hfile Hfresh). cbv zeta.
  set (loaded := {| cache_file := Some f;
                    trace := (trace st ++ [loading_message])%list;
                    world := snd (datetime_now (world st)) |}).
  destruct (Json.loads (content f)) as [cached|e] eqn:Hload.
  2:{ cbn [snd cache_file trace]. split; [reflexivity|].
      exists f, []. split; [reflexivity|]. split; [reflexivity|].
      split; [reflexivity|]. intros ? ? Heq. rewrite Hload in Heq.
      discriminate Heq. }
  destruct (getitem cached "full_report") as [report|e] eqn:Hitem.
  2:{ cbn [snd cache_file trace]. split; [reflexivity|].
      exists f, []. split; [reflexivity|]. split; [reflexivity|].
      split; [reflexivity|]. intros ? ? Heq Hget. rewrite Hload in Heq.
      injection Heq as <-. rewrite Hitem in Hget. discriminate Hget. }
  pose proof (display_report_run report loaded) as Hshow.
  cbv zeta in Hshow. destruct Hshow as [Hcache [_ Hshow]].
  split; [exact Hcache|].
  assert (Hother : (forall text, report <> PyStr text) ->
            forall cached_data text',
              Json.loads (content f) = Ok cached_data ->
              getitem cached_data "full_report" = Ok (PyStr text') ->
              False).
  { intros Hne cached_data text' Heq Hget. rewrite Hload in Heq.
    injection Heq as <-.
    rewrite Hitem in Hget. injection Hget as ->. exact (Hne text' eq_refl). }
  destruct report as [|b|lit|text|items|items];
    destruct Hshow as [Hres Htrace]; rewrite Htrace; cbn [trace loaded];
    rewrite <- app_assoc; cbn [app];
    eexists f, _; (split; [reflexivity|]); (split; [reflexivity|]);
    try (split; [reflexivity
                | intros cd t Heq Hget; exfalso;
                  apply (Hother ltac:(intros; discriminate) cd t Heq Hget)]).
  split.
  - rewrite forallb_app, banner_console, section_events_console. reflexivity.
  - intros cached_data text' Heq Hget. rewrite Hload in Heq.
    injection Heq as <-.
    rewrite Hitem in Hget. injection Hget as <-. split; [exact Hres|].
    unfold section_blocks. rewrite flat_map_app.
    fold (section_blocks (section_events (split "---" text))).
    rewrite section_events_blocks. reflexivity.
Qed.

(** X3.  A refresh, then a second run while the cache is fresh.  The
    second run returns, leaves the cache file alone, does nothing but
    print, and prints the panels of the report text as json.load reads it
    back: those the refresh printed when the text holds no high surrogate
    directly followed by a low one. *)
Theorem generate_daily_report_rerun (st s1 s2 s3 s4 : State)
  (all_trending golang_trending : list repo)
  (all_repos_summary golang_repos_summary : string) :
  fst (should_refresh_cache st) = Ok true ->
  fetch_trending_repos None (after_message st) = (Ok all_trending, s1) ->
  generate_repo_summary all_trending (after_print all_trending s1)
  = (Ok all_repos_summary, s2) ->
  fetch_trending_repos (Some "go") s2 = (Ok golang_trending, s3) ->
  generate_repo_summary golang_trending s3 = (Ok golang_repos_summary, s4) ->
  let st' := snd (generate_daily_report st) in
  let st'' := snd (generate_daily_report st') in
  fst (should_refresh_cache st') = Ok false ->
  fst (generate_daily_report st') = Ok tt
  /\ cache_file st'' = cache_file st'
  /\ exists today first second,
       let full_report :=
         report_text (strftime_Ymd today) all_repos_summary
                     golang_repos_summary in
       trace st' = (trace st ++ first)%list
       /\ trace st'' = (trace st' ++ second)%list
       /\ forallb console second = true
       /\ section_blocks first
          = map section_block (filter nonblank (split "---" full_report))
       /\ section_blocks second
          = map section_block
              (filter nonblank (split "---" (reread full_report)))
       /\ (reread full_report = full_report ->
           section_blocks second = section_blocks first).
Proof.
  intros Href Hf1 Hs1 Hf2 Hs2.
  destruct (refresh_run_state _ _ _ _ _ _ _ _ _ Href Hf1 Hs1 Hf2 Hs2)
    as [today [stamp [written [shown [w Hrun]]]]].
  cbv zeta in Hrun |- *. rewrite Hrun. cbn [snd].
  set (full_report := report_text (strftime_Ymd today) all_repos_summary
                                  golang_repos_summary) in *.
  set (text := Json.dumps (cache_data (isoformat stamp) full_report)) in *.
  set (file := {| mtime := written; content := text |}).
  match goal with
  | |- fst (should_refresh_cache ?s) = _ -> _ => set (st' := s)
  end.
  assert (Hc : cache_file st' = Some file) by reflexivity.
  assert (Ht : trace st'
               = (trace st
                  ++ [fetching_message; request None; StdoutPrint all_trending;
                      completion all_trending; request (Some "go");
                      completion golang_trending; FileWrite text]
                  ++ banner (strftime_Ymd shown)
                  ++ section_events (split "---" full_report)
                  ++ [done_message])%list) by reflexivity.
  clearbody st'. intros Hfresh.
  pose proof (cache_hit_run st' file Hc Hfresh) as Hhit.
  cbv zeta in Hhit. cbn [content file] in Hhit. unfold text in Hhit.
  rewrite (loads_dumps _ (cache_data_well_formed _ _)) in Hhit.
  change (getitem (reread_value (cache_data (isoformat stamp) full_report))
            "full_report")
    with (Ok (PyStr (reread full_report))) in Hhit.
  cbv beta iota in Hhit. rewrite display_report_str in Hhit.
  rewrite Hhit. cbn [fst snd cache_file trace world].
  split; [reflexivity|]. split; [symmetry; exact Hc|].
  assert (Hblocks : forall date report tail,
             section_blocks
               (banner date ++ section_events (split "---" report) ++ tail)
             = (map section_block (filter nonblank (split "---" report))
                ++ section_blocks tail)%list).
  { intros date report tail. unfold section_blocks. rewrite !flat_map_app.
    fold (section_blocks (banner date)).
    fold (section_blocks (section_events (split "---" report))).
    rewrite banner_blocks, section_events_blocks. reflexivity. }
  assert (Hfirst : section_blocks
            ([fetching_message; request None; StdoutPrint all_trending;
              completion all_trending; request (Some "go");
              completion golang_trending; FileWrite text]
             ++ banner (strftime_Ymd shown)
             ++ section_events (split "---" full_report)
             ++ [done_message])
            = map section_block (filter nonblank (split "---" full_report))).
  { change (section_blocks (?l ++ ?r)) with (section_blocks r).
    rewrite Hblocks. apply app_nil_r. }
  assert (Hsecond : forall date,
            section_blocks
              (loading_message
               :: banner date
                  ++ section_events (split "---" (reread full_report)))
            = map section_block
                (filter nonblank (split "---" (reread full_report)))).
  { intros date.
    change (section_blocks (loading_message :: ?r)) with (section_blocks r).
    rewrite <- (app_nil_r (section_events _)), Hblocks. apply app_nil_r. }
  eexists today, _, (loading_message :: _ ++ _)%list. cbv zeta.
  fold full_report.
  split; [exact Ht|]. split.
  { rewrite <- app_assoc. reflexivity. }
  split.
  { cbn [forallb console loading_message andb app].
    rewrite forallb_app, banner_console, section_events_console. reflexivity. }
  split; [exact Hfirst|]. split; [apply Hsecond|].
  intros Hsame. rewrite Hfirst. etransitivity; [apply Hsecond|].
  rewrite Hsame. reflexivity.
Qed.

End Runs.

Section Listing.

Context `{World}.

Lemma fetch_trending_repos_no_entry (language : option string) (st : State)
  (page : Response) (w : W) :
  requests_get (trending_url language) user_agent (world st) = (Ok page, w) ->
  select "article" "Box-row" (soup page) = [] ->
  fst (fetch_trending_repos language st) = Ok [].
Proof.
  intros Hget Hnone. rewrite fetch_trending_repos_unfold. cbv zeta.
  rewrite Hget, Hnone. reflexivity.
Qed.

(** X4.  Pages without entries are reported and cached like any other.
    When every answer to a listing request is a page without
    article.Box-row entry (an error page, say) and the completion service
    answers, a refresh returns: both summaries are asked for an empty list
    of records and the cache file is written. *)
Theorem generate_daily_report_empty_listing (st : State) :
  (forall url agent w,
      exists page w',
        requests_get url agent w = (Ok page, w')
        /\ select "article" "Box-row" (soup page) = []) ->
  (forall system user model w,
      exists text w',
        chat_completions_create system user model w = (Ok text, w')) ->
  fst (should_refresh_cache st) = Ok true ->
  let st' := snd (generate_daily_report st) in
  fst (generate_daily_report st) = Ok tt
  /\ exists f shown,
       cache_file st' = Some f
       /\ trace st'
          = (trace st
             ++ [fetching_message; request None; StdoutPrint [];
                 completion []; request (Some "go"); completion [];
                 FileWrite (content f)]
             ++ shown)%list.
Proof.
  intros Hpages Hservice Href. cbv zeta.
  assert (Hfetch : forall language s,
             exists s', fetch_trending_repos language s = (Ok [], s')).
  { intros language s.
    destruct (Hpages (trending_url language) user_agent (world s))
      as [page [w' [Hget Hnone]]].
    pose proof (fetch_trending_repos_no_entry language s page w' Hget Hnone)
      as Hres.
    destruct (fetch_trending_repos language s) as [r s']. cbn [fst] in Hres.
    subst r. eauto. }
  assert (Hsum : forall repos s,
             exists text s', generate_repo_summary repos s = (Ok text, s')).
  { intros repos s. unfold generate_repo_summary, call.
    destruct (Hservice system_prompt (summary_prompt repos) "llama3-70b-8192"
                (world s)) as [text [w' Hchat]].
    rewrite Hchat. eauto. }
  destruct (Hfetch None (after_message st)) as [s1 Hf1].
  destruct (Hsum [] (after_print [] s1)) as [sum1 [s2 Hs1]].
  destruct (Hfetch (Some "go") s2) as [s3 Hf2].
  destruct (Hsum [] s3) as [sum2 [s4 Hs2]].
  destruct (refresh_run_state _ _ _ _ _ _ _ _ _ Href Hf1 Hs1 Hf2 Hs2)
    as [today [stamp [written [shown [w Hrun]]]]].
  cbv zeta in Hrun. rewrite Hrun. cbn [fst snd cache_file trace].
  split; [reflexivity|].
  eexists _, _. split; reflexivity.
Qed.

(** X5.  A call of [fetch_trending_repos] makes one request, with the
    browser's user agent, to the listing of the language, and nothing
    else: whether it returns or raises, the cache file is as before and
    that request is its only event.  What it returns has at most ten
    records. *)
Theorem fetch_trending_repos_effects (language : option string) (st : State) :
  let st' := snd (fetch_trending_repos language st) in
  cache_file st' = cache_file st
  /\ trace st'
     = (trace st
        ++ [HttpGet ("https://github.com/trending/"
                     ++ match language with Some l => l | None => "" end)
                    user_agent])%list
  /\ forall records,
       fst (fetch_trending_repos language st) = Ok records ->
       List.length records <= 10.
Proof.
  cbv zeta. destruct (fetch_trending_repos_state language st) as [Hc Ht].
  split; [exact Hc|]. split; [exact Ht|].
  intros records. rewrite fetch_trending_repos_unfold. cbv zeta.
  destruct (requests_get (trending_url language) user_agent (world st))
    as [[page|e] w]; [|discriminate].
  destruct (scrape_articles (select "article" "Box-row" (soup page)) [])
    as [rs|e]; [|discriminate].
  cbn [fst]. intros Heq.
  assert (Hrec : firstn 10 rs = records) by (injection Heq as Hx; exact Hx).
  rewrite <- Hrec. apply firstn_le_length.
Qed.

End Listing.


(** A cache file written at the time of the run: the run shows the
    sections of the cached report and leaves the file as it is. *)
Lemma generate_daily_report_cache_hit_effects_witness :
  let f := {| mtime := 0; content := Json.dumps (PyDict sample_report) |} in
  let st := @initial_state world_twelve (Some f) tt in
  let st' := snd (@generate_daily_report world_twelve st) in
  cache_file st' = cache_file st
  /\ exists f shown,
       cache_file st = Some f
       /\ trace st' = (trace st ++ loading_message :: shown)%list
       /\ forallb console shown = true
       /\ forall cached_data text,
            Json.loads (content f) = Ok cached_data ->
            getitem cached_data "full_report" = Ok (PyStr text) ->
            fst (@generate_daily_report world_twelve st) = Ok tt
            /\ section_blocks shown
               = map section_block (filter nonblank (split "---" text)).
Proof.
  intros f st st'.
  apply (@generate_daily_report_cache_hit_effects world_twelve st).
  reflexivity.
Defined.

(** The clock of this world stands still: the file written by the first
    run is fresh at the second, which shows the same sections. *)
Lemma generate_daily_report_rerun_witness :
  let st := @initial_state world_twelve None tt in
  let st' := snd (@generate_daily_report world_twelve st) in
  let st'' := snd (@generate_daily_report world_twelve st') in
  fst (@generate_daily_report world_twelve st') = Ok tt
  /\ cache_file st'' = cache_file st'
  /\ exists today first second,
       let full_report :=
         report_text (@strftime_Ymd world_twelve today) "Fine." "Fine." in
       trace st' = (trace st ++ first)%list
       /\ trace st'' = (trace st' ++ second)%list
       /\ forallb console second = true
       /\ section_blocks first
          = map section_block (filter nonblank (split "---" full_report))
       /\ section_blocks second
          = map section_block
              (filter nonblank (split "---" (reread full_report)))
       /\ (reread full_report = full_report ->
           section_blocks second = section_blocks first).
Proof.
  intros st st' st''.
  eapply (@generate_daily_report_rerun world_twelve st);
    reflexivity.
Defined.

(** Every request is answered by a page that says Not Found. *)
Lemma generate_daily_report_empty_listing_witness :
  let st := @initial_state world_not_found None tt in
  let st' := snd (@generate_daily_report world_not_found st) in
  fst (@generate_daily_report world_not_found st) = Ok tt
  /\ exists f shown,
       cache_file st' = Some f
       /\ trace st'
          = (trace st
             ++ [fetching_message; request None; StdoutPrint [];
                 completion []; request (Some "go"); completion [];
                 FileWrite (content f)]
             ++ shown)%list.
Proof.
  intros st st'.
  apply (@generate_daily_report_empty_listing world_not_found st).
  - intros url agent w. exists page_not_found, w. split; reflexivity.
  - intros system user model w. exists "Fine.", w. reflexivity.
  - reflexivity.
Defined.

(** ** The ends of a stripped text *)

Lemma last_char_cons (c d : char) (s : string) :
  last_char (String c (String d s)) = last_char (String d s).
Proof. reflexivity. Qed.

Lemma last_char_None (s : string) : last_char s = None -> s = "".
Proof.
  induction s as [|c s IH]; [reflexivity|].
  destruct s as [|d s]; [discriminate|].
  rewrite last_char_cons. intros Hnone. apply IH in Hnone. discriminate.
Qed.

Lemma lstrip_first (s : string) (c : char) :
  first_char (lstrip s) = Some c -> isspace c = false.
Proof.
  induction s as [|a s IH]; [discriminate|].
  cbn [lstrip]. destruct (isspace a) eqn:Ha; [exact IH|].
  cbn [first_char]. intros Heq. injection Heq as <-. exact Ha.
Qed.

Lemma rstrip_first (s : string) (c : char) :
  first_char (rstrip s) = Some c -> first_char s = Some c.
Proof.
  destruct s as [|a s]; [discriminate|].
  cbn [rstrip]. destruct (rstrip s); [destruct (isspace a)|];
    [discriminate|exact (fun e => e)|exact (fun e => e)].
Qed.

Lemma rstrip_last (s : string) (c : char) :
  last_char (rstrip s) = Some c -> isspace c = false.
Proof.
  induction s as [|a s IH]; [discriminate|].
  cbn [rstrip]. destruct (rstrip s) as [|d r].
  - destruct (isspace a) eqn:Ha; [discriminate|].
    cbn [last_char]. intros Heq. injection Heq as <-. exact Ha.
  - rewrite last_char_cons. exact IH.
Qed.

Lemma strip_trimmed (s : string) : trimmed (strip s) = true.
Proof.
  unfold trimmed, strip.
  destruct (first_char (rstrip (lstrip s))) as [a|] eqn:Ha; [|reflexivity].
  destruct (last_char (rstrip (lstrip s))) as [b|] eqn:Hb; [|reflexivity].
  apply rstrip_first, lstrip_first in Ha. apply rstrip_last in Hb.
  rewrite Ha, Hb. reflexivity.
Qed.

Lemma rstrip_fixed (s : string) :
  (forall c, last_char s = Some c -> isspace c = false) -> rstrip s = s.
Proof.
  induction s as [|a s IH]; [reflexivity|].
  intros Hlast. cbn [rstrip]. destruct s as [|d s].
  - cbn [rstrip]. rewrite (Hlast a eq_refl). reflexivity.
  - rewrite IH; [reflexivity|]. intros c Hc. apply Hlast.
    rewrite last_char_cons. exact Hc.
Qed.

(** Stripping changes nothing exactly in a text whose ends are not white
    space. *)
Lemma trimmed_strip (s : string) : trimmed s = true -> strip s = s.
Proof.
  unfold trimmed, strip. destruct s as [|a s]; [reflexivity|].
  cbn [first_char].
  destruct (last_char (String a s)) as [b|] eqn:Hb.
  - intros Hends. apply andb_prop in Hends as [Ha Hlast].
    apply negb_true_iff in Ha, Hlast.
    cbn [lstrip]. rewrite Ha. apply rstrip_fixed.
    intros c Hc. rewrite Hb in Hc. injection Hc as <-. exact Hlast.
  - apply last_char_None in Hb. discriminate.
Qed.

Lemma replace_char_last (x b : char) (s : string) :
  last_char s = Some b -> b <> x ->
  last_char (replace (String x "") "" s) = Some b.
Proof.
  unfold replace. intros Hlast Hne. induction s as [|c s IH]; [discriminate|].
  cbn [replace_from]. rewrite startswith_single.
  destruct s as [|d s].
  - cbn [last_char] in Hlast. injection Hlast as ->.
    apply char_eqb_neq in Hne. rewrite char_eqb_sym in Hne.
    rewrite Hne. reflexivity.
  - rewrite last_char_cons in Hlast. specialize (IH Hlast).
    destruct (Char.eqb x c).
    + cbn [String.length Nat.sub append]. exact IH.
    + destruct (replace_from (String x "") "" 0 (String d s)) as [|e r];
        [discriminate|].
      rewrite last_char_cons. exact IH.
Qed.

Lemma replace_char_first (x a : char) (s : string) :
  first_char s = Some a -> a <> x ->
  first_char (replace (String x "") "" s) = Some a.
Proof.
  unfold replace. destruct s as [|c s]; [discriminate|].
  cbn [first_char]. intros Heq Hne. injection Heq as ->.
  cbn [replace_from]. rewrite startswith_single.
  apply char_eqb_neq in Hne. rewrite char_eqb_sym in Hne.
  rewrite Hne. reflexivity.
Qed.

Lemma replace_char_empty (x : char) :
  replace (String x "") "" "" = "".
Proof. reflexivity. Qed.

(** Taking a white-space character out of a text whose ends are not white
    space leaves its ends as they are. *)
Lemma replace_char_trimmed (x : char) (s : string) :
  isspace x = true -> trimmed s = true ->
  trimmed (replace (String x "") "" s) = true.
Proof.
  intros Hx. unfold trimmed at 1.
  destruct (first_char s) as [a|] eqn:Ha.
  - destruct (last_char s) as [b|] eqn:Hb.
    + intros Hends. apply andb_prop in Hends as [Hfirst Hlast].
      apply negb_true_iff in Hfirst, Hlast.
      unfold trimmed.
      rewrite (replace_char_first x a s Ha), (replace_char_last x b s Hb);
        try (intros ->; congruence).
      rewrite Hfirst, Hlast. reflexivity.
    + apply last_char_None in Hb. subst s. discriminate.
  - destruct s; [|discriminate]. reflexivity.
Qed.

Lemma scrape_article_trimmed (article : node) (r : repo) :
  scrape_article article = Ok r ->
  trimmed (full_name r) = true
  /\ trimmed (description r) = true
  /\ trimmed (stargazers_count r) = true.
Proof.
  unfold scrape_article.
  destruct (select_one "h2" "h3" article) as [t|]; [|discriminate].
  destruct (nth_error (select "a" "Link--muted" article) 1) as [s|];
    [|discriminate].
  intros Heq. injection Heq as <-.
  cbn [full_name description stargazers_count].
  split; [|split].
  - apply (replace_char_trimmed " "); [reflexivity|].
    apply (replace_char_trimmed LF); [reflexivity|].
    apply strip_trimmed.
  - destruct (select_one "p" "col-9" article); [apply strip_trimmed|].
    reflexivity.
  - apply strip_trimmed.
Qed.

Section FetchedRecords.

Context `{World}.

(** A record that is returned was made of one entry of the page. *)
Lemma fetch_trending_repos_record (language : option string) (st : State)
  (records : list repo) (r : repo) :
  fst (fetch_trending_repos language st) = Ok records ->
  In r records ->
  exists article, scrape_article article = Ok r.
Proof.
  rewrite fetch_trending_repos_unfold. cbv zeta.
  destruct (requests_get (trending_url language) user_agent (world st))
    as [[page|e] w]; [|discriminate].
  destruct (scrape_articles (select "article" "Box-row" (soup page)) [])
    as [rs|e] eqn:Hrs; [|discriminate].
  cbn [fst]. intros Heq Hin.
  assert (Hrec : firstn 10 rs = records) by (injection Heq as Hx; exact Hx).
  rewrite <- Hrec in Hin. apply In_firstn in Hin.
  apply scrape_articles_Ok in Hrs.
  assert (Hok : In (Ok r) (map scrape_article
                             (select "article" "Box-row" (soup page)))).
  { rewrite Hrs. apply in_map. exact Hin. }
  apply in_map_iff in Hok as [article [Hart _]]. eauto.
Qed.

(** X6.  The texts of a record come out stripped: the name, the
    description and the star count of every record returned have no white
    space at either end, so that stripping them again changes nothing. *)
Theorem fetch_trending_repos_stripped (language : option string) (st : State)
  (records : list repo) (r : repo) :
  fst (fetch_trending_repos language st) = Ok records ->
  In r records ->
  strip (full_name r) = full_name r
  /\ strip (description r) = description r
  /\ strip (stargazers_count r) = stargazers_count r.
Proof.
  intros Hret Hin.
  destruct (fetch_trending_repos_record language st records r Hret Hin)
    as [article Hart].
  destruct (scrape_article_trimmed article r Hart) as [Hn [Hd Hs]].
  split; [|split]; apply trimmed_strip; assumption.
Qed.

End FetchedRecords.

Lemma fetch_trending_repos_stripped_witness :
  let r := {| full_name := "octo/a";
              description := "about a";
              html_url := "https://github.com/octo/a";
              stargazers_count := "1,234" |} in
  strip (full_name r) = full_name r
  /\ strip (description r) = description r
  /\ strip (stargazers_count r) = stargazers_count r.
Proof.
  intros r.
  eapply (@fetch_trending_repos_stripped world_twelve None
            (@initial_state world_twelve None tt)).
  - reflexivity.
  - left. reflexivity.
Defined.

(** ** The prompt *)

Lemma startswith_app (p s : string) : startswith (p ++ s) p = true.
Proof.
  induction p as [|a p IH]; [reflexivity|].
  cbn [append startswith]. rewrite char_eqb_refl. exact IH.
Qed.

Lemma contains_here (p s : string) : contains p (p ++ s) = true.
Proof.
  destruct (p ++ s) eqn:Heq; cbn [contains]; rewrite <- Heq;
    rewrite startswith_app; reflexivity.
Qed.

Lemma contains_skip (p a s : string) :
  contains p s = true -> contains p (a ++ s) = true.
Proof.
  intros Hin. induction a as [|c a IH]; [exact Hin|].
  cbn [append contains]. rewrite IH. apply orb_true_r.
Qed.

Lemma contains_between (p a b : string) : contains p (a ++ p ++ b) = true.
Proof. apply contains_skip, contains_here. Qed.

Lemma append_empty_r (s : string) : s ++ "" = s.
Proof.
  induction s as [|c s IH]; [reflexivity|]. cbn [append]. rewrite IH.
  reflexivity.
Qed.

Lemma join_In (sep x : string) (pieces : list string) :
  In x pieces -> exists a b, join sep pieces = a ++ x ++ b.
Proof.
  unfold join. induction pieces as [|y l IH]; [intros []|].
  intros [->|Hin].
  - destruct l as [|z l].
    + exists "", "". cbn [String.concat append].
      rewrite append_empty_r. reflexivity.
    + exists "", (sep ++ String.concat sep (z :: l)). reflexivity.
  - destruct (IH Hin) as [a [b Heq]]. destruct l as [|z l]; [destruct Hin|].
    exists (y ++ sep ++ a), b.
    change (String.concat sep (y :: z :: l))
      with (y ++ sep ++ String.concat sep (z :: l)).
    rewrite Heq, !append_assoc. reflexivity.
Qed.

Section Summarizer.

Context `{World}.

(** X7.  [generate_repo_summary] asks the service once and hands back its
    answer.  The request names the model llama3-70b-8192 and the analyst's
    role, its prompt holds the details of every record given, and it is
    the only event of the call; what the service returns or raises is
    what the call returns or raises; the cache file is as before. *)
Theorem generate_repo_summary_effects (repos : list repo) (st : State) :
  let st' := snd (generate_repo_summary repos st) in
  exists prompt,
    (forall r, In r repos ->
               contains ("Repository: " ++ full_name r ++ nl
                         ++ "Description: " ++ description r ++ nl
                         ++ "Stars: " ++ stargazers_count r ++ nl
                         ++ "URL: " ++ html_url r) prompt = true)
    /\ trace st'
       = (trace st
          ++ [ChatCompletion
                "You are an expert software analyst summarizing GitHub repositories."
                prompt "llama3-70b-8192"])%list
    /\ fst (generate_repo_summary repos st)
       = fst (chat_completions_create
                "You are an expert software analyst summarizing GitHub repositories."
                prompt "llama3-70b-8192" (world st))
    /\ cache_file st' = cache_file st.
Proof.
  cbv zeta. exists (summary_prompt repos). split.
  - intros r Hin. change (contains (repo_detail r) (summary_prompt repos) = true).
    destruct (join_In (nl ++ nl) (repo_detail r) (map repo_detail repos)
                (in_map repo_detail repos r Hin)) as [a [b Heq]].
    unfold summary_prompt. rewrite Heq.
    rewrite !append_assoc.
    do 7 (apply contains_skip). apply contains_here.
  - unfold generate_repo_summary, call. cbv zeta.
    change system_prompt
      with "You are an expert software analyst summarizing GitHub repositories.".
    destruct (chat_completions_create _ (summary_prompt repos)
                "llama3-70b-8192" (world st)) as [r w].
    repeat split.
Qed.

End Summarizer.

(** ** The report of a refresh on the console *)

Lemma startswith_dashes_app (s t : string) (c : char) :
  c <> "-"%char ->
  startswith (s ++ String c t) "---" = startswith (s ++ String c "") "---".
Proof.
  intros Hc. apply char_eqb_neq in Hc. rewrite char_eqb_sym in Hc.
  destruct s as [|x [|y [|z s]]]; cbn [append startswith]; rewrite ?Hc;
    rewrite ?andb_false_r; reflexivity.
Qed.

Lemma split_from_O (sep s : string) (c : char) :
  split_from sep 0 (String c s)
  = if startswith (String c s) sep
    then EmptyString :: split_from sep (String.length sep - 1) s
    else match split_from sep 0 s with
         | piece :: rest => String c piece :: rest
         | [] => [String c EmptyString]
         end.
Proof. reflexivity. Qed.

Lemma split_from_S (sep s : string) (c : char) (k : nat) :
  split_from sep (S k) (String c s) = split_from sep k s.
Proof. reflexivity. Qed.

Lemma split_dashes_piece (a b : string) (c : char) :
  c <> "-"%char ->
  contains "---" (a ++ String c "") = false ->
  split "---" (a ++ String c ("---" ++ b))
  = (a ++ String c "") :: split "---" b.
Proof.
  intros Hc. unfold split. induction a as [|x a IH]; intros Hnone.
  - cbn [append]. rewrite split_from_O.
    replace (startswith (String c (String "-" (String "-" (String "-" b))))
                        "---") with false.
    + rewrite split_from_O.
      replace (startswith (String "-" (String "-" (String "-" b))) "---")
        with true by reflexivity.
      cbn [String.length Nat.sub]. rewrite !split_from_S. reflexivity.
    + apply char_eqb_neq in Hc. rewrite char_eqb_sym in Hc.
      cbn [startswith]. rewrite Hc. reflexivity.
  - cbn [append contains] in Hnone. apply orb_false_elim in Hnone as [Hx Ha].
    cbn [append]. rewrite split_from_O.
    change (String x (a ++ String c (String "-" (String "-" (String "-" b)))))
      with (String x a ++ String c (String "-" (String "-" (String "-" b)))).
    rewrite (startswith_dashes_app (String x a) _ c Hc).
    cbn [append]. rewrite Hx.
    change (String "-" (String "-" (String "-" b))) with ("---" ++ b).
    rewrite (IH Ha). reflexivity.
Qed.

Lemma contains_dashes_cons (c : char) (s : string) :
  c <> "-"%char -> contains "---" (String c s) = contains "---" s.
Proof.
  intros Hc. apply char_eqb_neq in Hc. rewrite char_eqb_sym in Hc.
  cbn [contains startswith]. rewrite Hc. reflexivity.
Qed.

Lemma contains_dashes_app (s t : string) (c : char) :
  c <> "-"%char ->
  contains "---" (s ++ String c "") = false ->
  contains "---" t = false ->
  contains "---" (s ++ String c t) = false.
Proof.
  intros Hc Hs Ht. induction s as [|x s IH].
  - cbn [append]. rewrite contains_dashes_cons; assumption.
  - cbn [append contains] in Hs |- *.
    apply orb_false_elim in Hs as [Hx Hs].
    change (String x (s ++ String c t)) with (String x s ++ String c t).
    rewrite (startswith_dashes_app (String x s) t c Hc).
    cbn [append]. rewrite Hx, (IH Hs). reflexivity.
Qed.

Lemma contains_dashes_end (s : string) (c : char) :
  c <> "-"%char ->
  contains "---" s = false ->
  contains "---" (s ++ String c "") = false.
Proof.
  intros Hc Hs. apply char_eqb_neq in Hc. rewrite char_eqb_sym in Hc.
  induction s as [|x s IH].
  - cbn [append contains startswith]. rewrite Hc. reflexivity.
  - cbn [contains] in Hs. apply orb_false_elim in Hs as [Hx Hs].
    cbn [append contains]. rewrite (IH Hs), orb_false_r.
    destruct s as [|y [|z s]]; cbn [append startswith] in Hx |- *;
      rewrite ?Hc, ?andb_false_r; try reflexivity.
    exact Hx.
Qed.

Lemma rstrip_app (a s : string) :
  rstrip (a ++ s)
  = match rstrip s with
    | EmptyString => rstrip a
    | String _ _ => a ++ rstrip s
    end.
Proof.
  induction a as [|x a IH].
  - cbn [append rstrip]. destruct (rstrip s); reflexivity.
  - cbn [append rstrip]. rewrite IH.
    destruct (rstrip s) as [|d r]; [reflexivity|].
    destruct (a ++ String d r) eqn:Heq; [|reflexivity].
    destruct a; discriminate.
Qed.

Lemma strip_app_space (s : string) (c : char) :
  isspace c = true -> strip (s ++ String c "") = strip s.
Proof.
  intros Hc. unfold strip. induction s as [|x s IH].
  - cbn [append lstrip]. rewrite Hc. reflexivity.
  - cbn [append lstrip]. destruct (isspace x); [exact IH|].
    change (String x (s ++ String c "")) with (String x s ++ String c "").
    rewrite rstrip_app. cbn [rstrip]. rewrite Hc. reflexivity.
Qed.

Lemma strip_cons_space (s : string) (c : char) :
  isspace c = true -> strip (String c s) = strip s.
Proof.
  intros Hc. unfold strip. cbn [lstrip]. rewrite Hc. reflexivity.
Qed.

Lemma nonblank_first (c : char) (s : string) :
  isspace c = false -> nonblank (String c s) = true.
Proof.
  intros Hc. unfold nonblank, strip. cbn [lstrip]. rewrite Hc.
  cbn [rstrip]. rewrite Hc. destruct (rstrip s); reflexivity.
Qed.

Lemma split_line (a x : string) :
  contains nl a = false ->
  split nl (a ++ String LF x) = a :: split nl x.
Proof.
  unfold nl. induction a as [|c a IH]; intros Hnone.
  - cbn [append]. rewrite split_char_cons. reflexivity.
  - cbn [contains] in Hnone. apply orb_false_elim in Hnone as [Hc Ha].
    rewrite startswith_single in Hc.
    cbn [append]. rewrite split_char_cons, Hc, (IH Ha). reflexivity.
Qed.

(** The opening section: the heading is its title, the date its content. *)
Lemma section_block_heading (heading date : string) (c : char) (rest : string) :
  heading = String c rest ->
  isspace c = false ->
  rstrip heading = heading ->
  contains nl heading = false ->
  section_block (heading ++ nl ++ date ++ nl ++ nl) = (heading, rstrip date).
Proof.
  intros Hhead Hc Hfixed Hline. unfold section_block, strip.
  assert (Hl : lstrip (heading ++ nl ++ date ++ nl ++ nl)
               = heading ++ nl ++ date ++ nl ++ nl).
  { rewrite Hhead. cbn [append lstrip]. rewrite Hc. reflexivity. }
  assert (Htail : rstrip (nl ++ date ++ nl ++ nl)
                  = match rstrip date with
                    | EmptyString => EmptyString
                    | String _ _ => String LF (rstrip date)
                    end).
  { unfold nl. cbn [append]. cbn [rstrip].
    rewrite (rstrip_app date (String LF (String LF ""))).
    replace (rstrip (String LF (String LF ""))) with "" by reflexivity.
    destruct (rstrip date); reflexivity. }
  rewrite Hl, (rstrip_app heading (nl ++ date ++ nl ++ nl)), Htail.
  destruct (rstrip date) as [|d r] eqn:Hdate.
  - rewrite Hfixed, split_without_separator by exact Hline. reflexivity.
  - rewrite split_line by exact Hline. cbn [hd tl].
    apply f_equal. apply (join_split_char LF).
Qed.

(** A summary between line breaks is shown as the summary alone. *)
Lemma strip_summary (summary tail : string) :
  tail = nl \/ tail = nl ++ nl ->
  strip (nl ++ summary ++ tail) = strip summary.
Proof.
  intros Htail. unfold nl at 1. cbn [append].
  rewrite strip_cons_space by reflexivity.
  destruct Htail as [->| ->].
  - apply strip_app_space. reflexivity.
  - replace (summary ++ nl ++ nl) with ((summary ++ nl) ++ nl)
      by apply append_assoc.
    unfold nl at 2. rewrite strip_app_space by reflexivity.
    apply strip_app_space. reflexivity.
Qed.

Lemma report_text_sections (date all_repos_summary golang_repos_summary : string) :
  contains "---" date = false ->
  contains "---" all_repos_summary = false ->
  contains "---" golang_repos_summary = false ->
  split "---" (report_text date all_repos_summary golang_repos_summary)
  = ["Daily GitHub Trending Repositories Report" ++ nl ++ date ++ nl ++ nl;
     " All Trending Repositories ";
     nl ++ all_repos_summary ++ nl ++ nl;
     " Trending Golang Repositories ";
     nl ++ golang_repos_summary ++ nl].
Proof.
  intros Hdate Hall Hgo.
  assert (Hlf : LF <> "-"%char) by discriminate.
  assert (Hsp : " "%char <> "-"%char) by discriminate.
  set (p0 := "Daily GitHub Trending Repositories Report" ++ nl ++ date ++ nl).
  set (p2 := nl ++ all_repos_summary ++ nl).
  set (p4 := nl ++ golang_repos_summary).
  assert (Htext :
            report_text date all_repos_summary golang_repos_summary
            = p0 ++ String LF
                ("---"
                 ++ (" All Trending Repositories" ++ String " "
                      ("---"
                       ++ (p2 ++ String LF
                            ("---"
                             ++ (" Trending Golang Repositories" ++ String " "
                                  ("---" ++ (p4 ++ String LF ""))))))))).
  { unfold report_text, p0, p2, p4, nl. rewrite !append_assoc.
    cbn [append]. reflexivity. }
  rewrite Htext.
  assert (H0 : contains "---" (p0 ++ String LF "") = false).
  { apply contains_dashes_end; [exact Hlf|]. unfold p0, nl. cbn [append].
    rewrite !contains_dashes_cons by discriminate.
    apply contains_dashes_end; assumption. }
  assert (H2 : contains "---" (p2 ++ String LF "") = false).
  { apply contains_dashes_end; [exact Hlf|]. unfold p2, nl. cbn [append].
    rewrite contains_dashes_cons by discriminate.
    apply contains_dashes_end; assumption. }
  assert (H4 : contains "---" (p4 ++ String LF "") = false).
  { unfold p4, nl. cbn [append].
    rewrite contains_dashes_cons by discriminate.
    apply contains_dashes_end; assumption. }
  rewrite (split_dashes_piece p0 _ LF Hlf H0).
  rewrite (split_dashes_piece " All Trending Repositories" _ " " Hsp eq_refl).
  rewrite (split_dashes_piece p2 _ LF Hlf H2).
  rewrite (split_dashes_piece " Trending Golang Repositories" _ " " Hsp eq_refl).
  rewrite (split_without_separator "---" _ H4).
  unfold p0, p2, p4, nl. rewrite !append_assoc. cbn [append].
  rewrite ?append_assoc. reflexivity.
Qed.

Section GeneratedReport.

Context `{World}.

(** X8.  How the text that a refresh composes is shown.  When neither
    the date nor the summaries hold three hyphens in a row, the report
    title makes a panel of its own with the date as content, each section
    heading makes a panel without content, and each summary that is not
    blank makes a panel whose title is the first line of the summary: the
    headings do not title the summaries. *)
Theorem display_report_generated
  (date all_repos_summary golang_repos_summary : string) (st : State) :
  contains "---" date = false ->
  contains "---" all_repos_summary = false ->
  contains "---" golang_repos_summary = false ->
  let full_report :=
    report_text date all_repos_summary golang_repos_summary in
  exists events,
    trace (snd (display_report (PyStr full_report) st))
    = (trace st ++ events)%list
    /\ section_blocks events
       = ([("Daily GitHub Trending Repositories Report", rstrip date);
           ("All Trending Repositories", "")]
          ++ (if nonblank all_repos_summary
              then [section_block all_repos_summary] else [])
          ++ [("Trending Golang Repositories", "")]
          ++ (if nonblank golang_repos_summary
              then [section_block golang_repos_summary] else []))%list.
Proof.
  intros Hdate Hall Hgo full_report.
  destruct (display_report_blocks full_report st) as [events [Htrace Hblocks]].
  exists events. split; [exact Htrace|]. rewrite Hblocks.
  unfold full_report. rewrite report_text_sections by assumption.
  assert (Hs1 : strip (nl ++ all_repos_summary ++ nl ++ nl)
                = strip all_repos_summary)
    by (apply strip_summary; right; reflexivity).
  assert (Hs2 : strip (nl ++ golang_repos_summary ++ nl)
                = strip golang_repos_summary)
    by (apply strip_summary; left; reflexivity).
  cbn [filter].
  replace (nonblank ("Daily GitHub Trending Repositories Report"
                     ++ nl ++ date ++ nl ++ nl)) with true
    by (symmetry; apply nonblank_first; reflexivity).
  replace (nonblank " All Trending Repositories ") with true by reflexivity.
  replace (nonblank " Trending Golang Repositories ") with true
    by reflexivity.
  replace (nonblank (nl ++ all_repos_summary ++ nl ++ nl))
    with (nonblank all_repos_summary) by (unfold nonblank; rewrite Hs1; reflexivity).
  replace (nonblank (nl ++ golang_repos_summary ++ nl))
    with (nonblank golang_repos_summary)
    by (unfold nonblank; rewrite Hs2; reflexivity).
  assert (Hb1 : section_block (nl ++ all_repos_summary ++ nl ++ nl)
                = section_block all_repos_summary)
    by (unfold section_block; rewrite Hs1; reflexivity).
  assert (Hb2 : section_block (nl ++ golang_repos_summary ++ nl)
                = section_block golang_repos_summary)
    by (unfold section_block; rewrite Hs2; reflexivity).
  assert (Hb0 : section_block ("Daily GitHub Trending Repositories Report"
                               ++ nl ++ date ++ nl ++ nl)
                = ("Daily GitHub Trending Repositories Report", rstrip date))
    by (eapply section_block_heading; reflexivity).
  destruct (nonblank all_repos_summary), (nonblank golang_repos_summary);
    cbn [map app]; rewrite Hb0, ?Hb1, ?Hb2; reflexivity.
Qed.

End GeneratedReport.

(** A summary of two lines, and a blank one: four panels. *)
Lemma display_report_generated_witness :
  let all_repos_summary := "Top picks" ++ nl ++ "octo/a is fine." in
  let golang_repos_summary := "  " in
  let st := @initial_state world_twelve None tt in
  let full_report :=
    report_text "2024-05-01" all_repos_summary golang_repos_summary in
  exists events,
    trace (snd (@display_report world_twelve (PyStr full_report) st))
    = (trace st ++ events)%list
    /\ section_blocks events
       = ([("Daily GitHub Trending Repositories Report", rstrip "2024-05-01");
           ("All Trending Repositories", "")]
          ++ (if nonblank all_repos_summary
              then [section_block all_repos_summary] else [])
          ++ [("Trending Golang Repositories", "")]
          ++ (if nonblank golang_repos_summary
              then [section_block golang_repos_summary] else []))%list.
Proof.
  intros all_repos_summary golang_repos_summary st.
  apply (@display_report_generated world_twelve "2024-05-01"
           all_repos_summary golang_repos_summary st);
    reflexivity.
Defined.

(** ** A cache file cut short *)

Lemma closes_cons (r : string) :
  closes r = true -> exists c x, r = String c x.
Proof. destruct r as [|c x]; [discriminate | eauto]. Qed.

Lemma closes_not_digit (c : char) (x : string) :
  closes (String c x) = true ->
  Json.is_digit c = false /\ Char.eqb c "." = false
  /\ (Char.eqb c "e" || Char.eqb c "E") = false.
Proof.
  cbn [closes]. unfold Json.is_ws. intros Hc.
  repeat match type of Hc with
         | (_ || _) = true => apply orb_true_iff in Hc as [Hc|Hc]
         end;
    apply char_eqb_eq in Hc; subst c; repeat split.
Qed.

Lemma skip_ws_closes (r : string) (e : char) (x : string) :
  Json.skip_ws r = String e x ->
  (Char.eqb e "," || Char.eqb e "}" || Char.eqb e "]") = true ->
  closes r = true.
Proof.
  destruct r as [|c r]; [discriminate|]. cbn [Json.skip_ws closes].
  destruct (Json.is_ws c); [reflexivity|].
  intros Heq. injection Heq as -> _. cbn [orb]. exact (fun H => H).
Qed.

Lemma skip_ws_more (s t : string) (c : char) (r : string) :
  Json.skip_ws s = String c r -> Json.skip_ws (s ++ t) = String c (r ++ t).
Proof.
  induction s as [|a s IH]; [discriminate|].
  cbn [append Json.skip_ws]. destruct (Json.is_ws a); [exact IH|].
  intros Heq. injection Heq as -> ->. reflexivity.
Qed.

Lemma after_prefix_eq (p : string) :
  forall s r, Json.after_prefix p s = Some r -> s = p ++ r.
Proof.
  induction p as [|a p IH]; intros s r; cbn [Json.after_prefix append].
  - intros Heq. injection Heq as <-. reflexivity.
  - destruct s as [|b s]; [discriminate|].
    destruct (Char.eqb a b) eqn:Hab; [|discriminate].
    apply char_eqb_eq in Hab. subst b. intros Heq.
    rewrite (IH s r Heq). reflexivity.
Qed.

Lemma cons_char_more (c : char) (o o' : option (string * string))
  (x r t : string) :
  (forall y, o = Some (y, r) -> o' = Some (y, r ++ t)) ->
  Json.cons_char c o = Some (x, r) ->
  Json.cons_char c o' = Some (x, r ++ t).
Proof.
  intros Hmore. destruct o as [[y r']|]; cbn [Json.cons_char]; [|discriminate].
  intros Heq. injection Heq as <- ->. rewrite (Hmore y eq_refl). reflexivity.
Qed.

Lemma scanstring_more (n : nat) (t : string) :
  forall s x r,
    String.length s <= n ->
    Json.scanstring s = Some (x, r) ->
    Json.scanstring (s ++ t) = Some (x, r ++ t).
Proof.
  induction n as [|n IH]; intros s x r Hn Hscan.
  - destruct s; [discriminate Hscan | cbn in Hn; lia].
  - destruct s as [|c s]; [discriminate Hscan|].
    cbn [append Json.scanstring String.length] in *.
    destruct (Char.eqb c DQ).
    { injection Hscan as <- <-. reflexivity. }
    destruct (Char.eqb c "\").
    + destruct s as [|e s]; [discriminate|].
      cbn [append]. destruct (Char.eqb e "u").
      * destruct s as [|h1 [|h2 [|h3 [|h4 rest]]]]; try discriminate.
        cbn [append String.length] in *.
        destruct (Json.hex4 h1 h2 h3 h4) as [uni|]; [|discriminate].
        assert (Hrest : Json.cons_char uni (Json.scanstring rest)
                        = Some (x, r) ->
                        Json.cons_char uni (Json.scanstring (rest ++ t))
                        = Some (x, r ++ t)).
        { apply cons_char_more. intros y Hy. apply IH; [lia | exact Hy]. }
        destruct (Json.is_high uni); [|exact (Hrest Hscan)].
        destruct rest as [|b [|u r0]].
        { cbn in Hscan. discriminate Hscan. }
        { cbn [Json.scanstring] in Hscan. destruct (Char.eqb b DQ) eqn:Hb.
          - apply char_eqb_eq in Hb. subst b. cbn [Json.cons_char] in Hscan.
            injection Hscan as <- <-. destruct t as [|u t]; reflexivity.
          - exfalso. destruct (Char.eqb b "\"); [discriminate Hscan|].
            destruct (N.ltb b 32); discriminate Hscan. }
        cbn [append] in Hrest |- *.
        destruct (Char.eqb b "\" && Char.eqb u "u"); [|exact (Hrest Hscan)].
        destruct r0 as [|g1 [|g2 [|g3 [|g4 rest2]]]]; try discriminate.
        cbn [append String.length] in *.
        destruct (Json.hex4 g1 g2 g3 g4) as [uni2|]; [|discriminate].
        destruct (Json.is_low uni2); [|exact (Hrest Hscan)].
        revert Hscan. apply cons_char_more. intros y Hy.
        apply IH; [lia | exact Hy].
      * destruct (Json.unescape e); [|discriminate].
        revert Hscan. apply cons_char_more. intros y Hy.
        apply IH; [cbn [String.length] in Hn; lia | exact Hy].
    + destruct (N.ltb c 32); [discriminate|].
      revert Hscan. apply cons_char_more. intros y Hy.
      apply IH; [lia | exact Hy].
Qed.

Lemma span_digits_more (s t d : string) (c : char) (x : string) :
  Json.span_digits s = (d, String c x) ->
  Json.span_digits (s ++ t) = (d, String c x ++ t).
Proof.
  revert d. induction s as [|a s IH]; intros d; [discriminate|].
  cbn [append Json.span_digits]. destruct (Json.is_digit a).
  - destruct (Json.span_digits s) as [d0 r0]. intros Heq.
    injection Heq as <- ->. rewrite (IH d0 eq_refl). reflexivity.
  - intros Heq. injection Heq as <- -> ->. reflexivity.
Qed.

Lemma number_integer_more (s t int : string) (c : char) (x : string) :
  Json.number_integer s = Some (int, String c x) ->
  Json.number_integer (s ++ t) = Some (int, String c x ++ t).
Proof.
  destruct s as [|a s]; [discriminate|].
  cbn [append Json.number_integer]. destruct (Char.eqb a "0").
  - intros Heq. injection Heq as <- ->. reflexivity.
  - destruct (Json.is_digit a); [|discriminate].
    destruct (Json.span_digits s) as [d r0] eqn:Hsp. intros Heq.
    injection Heq as <- ->. rewrite (span_digits_more s t d c x Hsp).
    reflexivity.
Qed.

Lemma number_fraction_more (s t frac : string) (c : char) (x : string) :
  Json.number_fraction s = (frac, String c x) ->
  Char.eqb c "." = false ->
  Json.number_fraction (s ++ t) = (frac, String c x ++ t).
Proof.
  destruct s as [|a s]; [discriminate|].
  cbn [append Json.number_fraction]. destruct (Char.eqb a ".") eqn:Ha.
  - destruct (Json.span_digits s) as [[|y d] r0] eqn:Hsp.
    + intros Heq Hc. injection Heq as _ -> _. congruence.
    + intros Heq _. injection Heq as <- ->.
      rewrite (span_digits_more s t _ c x Hsp). reflexivity.
  - intros Heq _. injection Heq as <- -> ->. reflexivity.
Qed.

Lemma number_exponent_more (s t exp : string) (c : char) (x : string) :
  Json.number_exponent s = (exp, String c x) ->
  (Char.eqb c "e" || Char.eqb c "E") = false ->
  Json.number_exponent (s ++ t) = (exp, String c x ++ t).
Proof.
  destruct s as [|a s]; [discriminate|].
  cbn [append Json.number_exponent].
  destruct (Char.eqb a "e" || Char.eqb a "E") eqn:Ha.
  - destruct s as [|g s].
    + cbn [append Json.span_digits]. intros Heq Hc.
      injection Heq as _ -> _. congruence.
    + cbn [append]. destruct (Char.eqb g "-" || Char.eqb g "+").
      * destruct (Json.span_digits s) as [[|y d] r0] eqn:Hsp.
        -- intros Heq Hc. injection Heq as _ -> _. congruence.
        -- intros Heq _. injection Heq as <- ->.
           rewrite (span_digits_more s t _ c x Hsp). reflexivity.
      * change (String g (s ++ t)) with (String g s ++ t).
        destruct (Json.span_digits (String g s)) as [[|y d] r0] eqn:Hsp.
        -- intros Heq Hc. injection Heq as _ -> _. congruence.
        -- intros Heq _. injection Heq as <- ->.
           rewrite (span_digits_more (String g s) t _ c x Hsp). reflexivity.
  - intros Heq _. injection Heq as <- -> ->. reflexivity.
Qed.

(** A number that is followed by something that closes it is read alike
    whatever comes after. *)
Lemma match_number_more (s t lit r : string) :
  Json.match_number s = Some (lit, r) ->
  closes r = true ->
  Json.match_number (s ++ t) = Some (lit, r ++ t).
Proof.
  unfold Json.match_number. intros Hrun Hclose.
  destruct (closes_cons r Hclose) as [c [x ->]].
  destruct (closes_not_digit c x Hclose) as [_ [Hdot Hexp]].
  assert (Hsign : Json.number_sign (s ++ t)
                  = (fst (Json.number_sign s), snd (Json.number_sign s) ++ t)
                    \/ s = "").
  { destruct s as [|a s]; [auto|]. left. cbn [append Json.number_sign].
    destruct (Char.eqb a "-"); reflexivity. }
  destruct Hsign as [Hsign| ->]; [|discriminate Hrun].
  rewrite Hsign. destruct (Json.number_sign s) as [sign s1]. cbn [fst snd].
  destruct (Json.number_integer s1) as [[int r1]|] eqn:Hint; [|discriminate].
  destruct (Json.number_fraction r1) as [frac r2] eqn:Hfrac.
  destruct (Json.number_exponent r2) as [exp r3] eqn:Hexpo.
  injection Hrun as <- ->.
  destruct r2 as [|c2 x2]; [discriminate Hexpo|].
  assert (Hc2 : Char.eqb c2 "." = false).
  { destruct (Char.eqb c2 ".") eqn:Hc2; [|reflexivity].
    apply char_eqb_eq in Hc2. subst c2. cbn in Hexpo.
    injection Hexpo as _ <- _. discriminate Hdot. }
  destruct r1 as [|c1 x1]; [discriminate Hfrac|].
  rewrite (number_integer_more s1 t int c1 x1 Hint).
  rewrite (number_fraction_more _ t frac c2 x2 Hfrac Hc2).
  rewrite (number_exponent_more _ t exp c x Hexpo Hexp). reflexivity.
Qed.

Lemma scan_literal_more (f : nat) (c : char) (s' t : string) (v : pyval)
  (r : string) :
  Char.eqb c DQ = false -> Char.eqb c "{" = false ->
  Char.eqb c "[" = false ->
  Json.scan_once (S f) (String c s') = Some (v, r) ->
  closes r = true \/ Json.match_number (String c s') = None ->
  Json.scan_once (S f) (String c s' ++ t) = Some (v, r ++ t).
Proof.
  intros Hdq Hbrace Hbracket Hrun Hcond.
  cbn [Json.scan_once] in Hrun. rewrite Hdq, Hbrace, Hbracket in Hrun.
  destruct (Json.after_prefix "null" (String c s')) as [r0|] eqn:H1.
  { injection Hrun as <- <-. apply after_prefix_eq in H1. rewrite H1.
    rewrite append_assoc. reflexivity. }
  destruct (Json.after_prefix "true" (String c s')) as [r0|] eqn:H2.
  { injection Hrun as <- <-. apply after_prefix_eq in H2. rewrite H2.
    rewrite append_assoc. reflexivity. }
  destruct (Json.after_prefix "false" (String c s')) as [r0|] eqn:H3.
  { injection Hrun as <- <-. apply after_prefix_eq in H3. rewrite H3.
    rewrite append_assoc. reflexivity. }
  destruct (Json.match_number (String c s')) as [[lit r0]|] eqn:H4.
  { injection Hrun as <- <-.
    destruct Hcond as [Hclose|Hnone]; [|discriminate Hnone].
    destruct (match_number_first _ _ _ H4) as [c0 [s0 [Heq Hc]]].
    injection Heq as <- <-.
    destruct (number_start c Hc) as [_ [_ [_ [Hn [Ht [Hf _]]]]]].
    pose proof (match_number_more _ t _ _ H4 Hclose) as Hmore.
    cbn [append] in Hmore |- *. cbn [Json.scan_once Json.after_prefix].
    rewrite Hdq, Hbrace, Hbracket, Hn, Ht, Hf, Hmore. reflexivity. }
  destruct (Json.after_prefix "NaN" (String c s')) as [r0|] eqn:H5.
  { injection Hrun as <- <-. apply after_prefix_eq in H5. rewrite H5.
    rewrite append_assoc. reflexivity. }
  destruct (Json.after_prefix "Infinity" (String c s')) as [r0|] eqn:H6.
  { injection Hrun as <- <-. apply after_prefix_eq in H6. rewrite H6.
    rewrite append_assoc. reflexivity. }
  destruct (Json.after_prefix "-Infinity" (String c s')) as [r0|] eqn:H7;
    [|discriminate].
  injection Hrun as <- <-. apply after_prefix_eq in H7. rewrite H7.
  rewrite append_assoc. reflexivity.
Qed.

Lemma scan_local_all (f : nat) : scan_local f.
Proof.
  induction f as [|f [IHscan [IHmem IHelem]]].
  { repeat split; intros; discriminate. }
  split; [|split].
  - intros s v r t Hrun Hcond.
    destruct s as [|c s']; [discriminate|].
    destruct (Char.eqb c DQ) eqn:Hdq.
    { cbn [Json.scan_once] in Hrun. rewrite Hdq in Hrun.
      destruct (Json.scanstring s') as [[str rest]|] eqn:Hstr; [|discriminate].
      injection Hrun as <- <-. cbn [append Json.scan_once].
      rewrite Hdq, (scanstring_more _ t _ _ _ (le_n _) Hstr). reflexivity. }
    destruct (Char.eqb c "{") eqn:Hbrace.
    { cbn [Json.scan_once] in Hrun. rewrite Hdq, Hbrace in Hrun.
      destruct (Json.skip_ws s') as [|d0 r0] eqn:Hws; [discriminate|].
      cbn [append Json.scan_once].
      rewrite Hdq, Hbrace, (skip_ws_more _ t _ _ Hws).
      destruct (Char.eqb d0 "}").
      { injection Hrun as <- <-. reflexivity. }
      destruct (Char.eqb d0 DQ); [|discriminate].
      apply IHmem. exact Hrun. }
    destruct (Char.eqb c "[") eqn:Hbracket.
    { cbn [Json.scan_once] in Hrun. rewrite Hdq, Hbrace, Hbracket in Hrun.
      destruct (Json.skip_ws s') as [|d0 r0] eqn:Hws; [discriminate|].
      cbn [append Json.scan_once].
      rewrite Hdq, Hbrace, Hbracket, (skip_ws_more _ t _ _ Hws).
      destruct (Char.eqb d0 "]").
      { injection Hrun as <- <-. reflexivity. }
      change (String d0 (r0 ++ t)) with (String d0 r0 ++ t).
      apply IHelem. exact Hrun. }
    apply scan_literal_more; assumption.
  - intros d s v r t Hrun. cbn [Json.members] in Hrun |- *.
    destruct (Json.scanstring s) as [[key r0]|] eqn:Hkey; [|discriminate].
    rewrite (scanstring_more _ t _ _ _ (le_n _) Hkey).
    destruct (Json.skip_ws r0) as [|c r1] eqn:Hws0; [discriminate|].
    rewrite (skip_ws_more _ t _ _ Hws0).
    destruct (Char.eqb c ":"); [|discriminate].
    destruct (Json.scan_once f (Json.skip_ws r1)) as [[x r2]|] eqn:Hval;
      [|discriminate].
    destruct (Json.skip_ws r1) as [|c1 x1] eqn:Hws1.
    { destruct f; discriminate Hval. }
    rewrite (skip_ws_more _ t _ _ Hws1).
    destruct (Json.skip_ws r2) as [|e r3] eqn:Hws2; [discriminate|].
    assert (Hclose : closes r2 = true).
    { apply (skip_ws_closes r2 e r3 Hws2).
      destruct (Char.eqb e "}") eqn:E1; [rewrite orb_true_r; reflexivity|].
      destruct (Char.eqb e ",") eqn:E2; [reflexivity|].
      discriminate Hrun. }
    change (String c1 (x1 ++ t)) with (String c1 x1 ++ t).
    rewrite (IHscan _ _ _ t Hval (or_introl Hclose)).
    rewrite (skip_ws_more _ t _ _ Hws2).
    destruct (Char.eqb e "}").
    { injection Hrun as <- <-. reflexivity. }
    destruct (Char.eqb e ","); [|discriminate].
    destruct (Json.skip_ws r3) as [|q r4] eqn:Hws3; [discriminate|].
    rewrite (skip_ws_more _ t _ _ Hws3).
    destruct (Char.eqb q DQ); [|discriminate].
    apply IHmem. exact Hrun.
  - intros acc s v r t Hrun. cbn [Json.elements] in Hrun |- *.
    destruct (Json.scan_once f s) as [[x r0]|] eqn:Hval; [|discriminate].
    destruct (Json.skip_ws r0) as [|e r1] eqn:Hws0; [discriminate|].
    assert (Hclose : closes r0 = true).
    { apply (skip_ws_closes r0 e r1 Hws0).
      destruct (Char.eqb e "]") eqn:E1; [apply orb_true_r|].
      destruct (Char.eqb e ",") eqn:E2; [reflexivity|].
      discriminate Hrun. }
    rewrite (IHscan _ _ _ t Hval (or_introl Hclose)).
    rewrite (skip_ws_more _ t _ _ Hws0).
    destruct (Char.eqb e "]").
    { injection Hrun as <- <-. reflexivity. }
    destruct (Char.eqb e ","); [|discriminate].
    destruct (Json.skip_ws r1) as [|c1 x1] eqn:Hws1.
    { destruct f as [|[|f']]; discriminate Hrun. }
    rewrite (skip_ws_more _ t _ _ Hws1).
    change (String c1 (x1 ++ t)) with (String c1 x1 ++ t).
    apply IHelem. exact Hrun.
Qed.

(** No proper prefix of a dumped dict is a JSON document. *)
Lemma loads_truncated (report_data : list (string * pyval))
  (written rest : string) :
  well_formed (PyDict report_data) ->
  Json.dumps (PyDict report_data) = written ++ rest ->
  rest <> "" ->
  Json.loads written = Raise JSONDecodeError.
Proof.
  intros Hwf Htext Hrest.
  destruct (Json.loads written) as [v|e] eqn:Hload.
  2:{ apply loads_Raise in Hload. subst e. reflexivity. }
  exfalso. apply loads_document in Hload as [fuel [r [Hrun Hr]]].
  assert (Hopen : exists body,
             Json.dumps (PyDict report_data) = String "{" body).
  { unfold Json.dumps. destruct report_data as [|[k x] xs].
    - exists "}". reflexivity.
    - rewrite encode_dict. eexists. reflexivity. }
  destruct Hopen as [body Hopen].
  destruct written as [|c w].
  { destruct fuel; discriminate Hrun. }
  assert (Hc : c = "{"%char).
  { rewrite Hopen in Htext. cbn [append] in Htext.
    injection Htext as Hc _. symmetry. exact Hc. }
  subst c.
  change (Json.skip_ws (String "{" w)) with (String "{" w) in Hrun.
  destruct (scan_local_all fuel) as [Hlocal _].
  pose proof (Hlocal _ _ _ rest Hrun (or_intror eq_refl)) as Hmore.
  destruct (fuel_enough_all fuel) as [Hfuel _].
  destruct (Hfuel _ _ _ Hmore) as [_ Hany].
  specialize (Hany (String.length (String "{" w ++ rest))
                   ltac:(lia)).
  pose proof (roundtrip_all (size (PyDict report_data)) (PyDict report_data)
                (le_n _) Hwf 0 "" (String.length (String "{" w ++ rest))
                eq_refl) as Hback.
  rewrite append_empty_r in Hback. unfold Json.dumps in Htext.
  rewrite Htext in Hback. specialize (Hback (le_n _)).
  rewrite Hback in Hany. injection Hany as _ Hnil.
  destruct r; [|discriminate Hnil]. cbn [append] in Hnil. congruence.
Qed.



Section StoredCache.

Context `{World}.


End StoredCache.



Section TruncatedCache.

Context `{World}.

(** X9.  A cache file cut short is a parse error, not a missing file.
    When the file holds only the beginning of what [save_cache] writes
    for a dict (no character at all, for one), [load_cached_report]
    raises JSONDecodeError; if the file is fresh, the run prints that it
    loads the cache and raises that error: it fetches nothing and leaves
    the file as it is. *)
Theorem load_cached_report_truncated (report_data : list (string * pyval))
  (written rest : string) (st : State) (f : File) :
  well_formed (PyDict report_data) ->
  Json.dumps (PyDict report_data) = written ++ rest ->
  rest <> "" ->
  cache_file st = Some f ->
  content f = written ->
  fst (load_cached_report st) = Raise JSONDecodeError
  /\ (fst (should_refresh_cache st) = Ok false ->
      let st' := snd (generate_daily_report st) in
      fst (generate_daily_report st) = Raise JSONDecodeError
      /\ cache_file st' = Some f
      /\ trace st' = (trace st ++ [loading_message])%list).
Proof.
  intros Hwf Htext Hrest Hfile Hcontent.
  pose proof (loads_truncated report_data written rest Hwf Htext Hrest)
    as Hload.
  split.
  - rewrite (load_cached_report_present st f Hfile), Hcontent, Hload.
    reflexivity.
  - intros Hfresh. cbv zeta.
    rewrite (cache_hit_run st f Hfile Hfresh). cbv zeta.
    rewrite Hcontent, Hload. repeat split.
Qed.

End TruncatedCache.

(** The first forty characters of a saved report, in a file written at
    the time of the run. *)
Lemma load_cached_report_truncated_witness :
  let text := Json.dumps (PyDict sample_report) in
  let f := {| mtime := 0; content := substring 0 40 text |} in
  let st := @initial_state world_twelve (Some f) tt in
  fst (@load_cached_report world_twelve st) = Raise JSONDecodeError
  /\ (fst (@should_refresh_cache world_twelve st) = Ok false ->
      let st' := snd (@generate_daily_report world_twelve st) in
      fst (@generate_daily_report world_twelve st) = Raise JSONDecodeError
      /\ cache_file st' = Some f
      /\ trace st' = (trace st ++ [loading_message])%list).
Proof.
  intros text f st.
  apply (@load_cached_report_truncated world_twelve sample_report
           (substring 0 40 text)
           (substring 40 (String.length text - 40) text) st f).
  - split; [repeat constructor; cbn; intuition discriminate|].
    cbn. repeat split; solve [reflexivity | constructor].
  - vm_compute. reflexivity.
  - vm_compute. discriminate.
  - reflexivity.
  - reflexivity.
Defined.

(** ** The characters of the cache file *)

Lemma plain_text_app (a b : string) :
  plain_text (a ++ b) = plain_text a && plain_text b.
Proof.
  unfold plain_text. induction a as [|c a IH]; [reflexivity|].
  cbn [append list_of_string forallb]. rewrite IH.
  apply andb_assoc.
Qed.

Lemma hexdigit_plain (n : N) : plain (Json.hexdigit (n mod 16)) = true.
Proof.
  assert (Hlt : (n mod 16 < 16)%N) by (apply N.mod_lt; discriminate).
  unfold plain, Json.hexdigit. destruct (N.ltb_spec (n mod 16) 10).
  - replace (N.leb 32 (48 + n mod 16)) with true by (symmetry; apply N.leb_le; divlia).
    replace (N.leb (48 + n mod 16) 126) with true by (symmetry; apply N.leb_le; divlia).
    reflexivity.
  - replace (N.leb 32 (87 + n mod 16)) with true by (symmetry; apply N.leb_le; divlia).
    replace (N.leb (87 + n mod 16) 126) with true by (symmetry; apply N.leb_le; divlia).
    reflexivity.
Qed.

Lemma escape_u_plain (n : N) : plain_text (Json.escape_u n) = true.
Proof.
  unfold plain_text, Json.escape_u. cbn [list_of_string forallb].
  rewrite !hexdigit_plain. reflexivity.
Qed.

Lemma escape_char_plain (c : char) : plain_text (Json.escape_char c) = true.
Proof.
  unfold Json.escape_char.
  repeat match goal with
         | |- plain_text (if ?b then _ else _) = true =>
             destruct b eqn:?; [try reflexivity|]
         end.
  - unfold plain_text, plain. cbn [list_of_string forallb].
    match goal with Hc : (_ && _) = true |- _ => rewrite Hc end. reflexivity.
  - apply escape_u_plain.
  - cbv zeta. rewrite plain_text_app, !escape_u_plain. reflexivity.
Qed.

Lemma escape_plain (s : string) : plain_text (Json.escape s) = true.
Proof.
  induction s as [|c s IH]; [reflexivity|].
  cbn [Json.escape]. rewrite plain_text_app, escape_char_plain, IH.
  reflexivity.
Qed.

Lemma encode_str_plain (s : string) : plain_text (Json.encode_str s) = true.
Proof.
  unfold Json.encode_str.
  change (String DQ (Json.escape s ++ String DQ ""))
    with (String DQ "" ++ Json.escape s ++ String DQ "").
  rewrite !plain_text_app, escape_plain. reflexivity.
Qed.

Section CacheText.

Context `{World}.

(** X11.  The cache file is plain ASCII.  Whatever characters the time
    stamp and the report hold, the file that [save_cache] leaves for them
    holds printable ASCII characters and line feeds only (the others are
    written as escapes), and it is the text recorded as written. *)
Theorem save_cache_plain (stamp full_report : string) (st : State) :
  let st' := snd (save_cache (cache_data stamp full_report) st) in
  exists f,
    cache_file st' = Some f
    /\ trace st' = (trace st ++ [FileWrite (content f)])%list
    /\ forallb plain (list_of_string (content f)) = true.
Proof.
  cbv zeta. unfold save_cache. cbv zeta.
  destruct (time_time (world st)) as [t w]. cbn [snd cache_file trace].
  eexists. split; [reflexivity|]. split; [reflexivity|].
  cbn [content]. change (forallb plain (list_of_string ?s))
    with (plain_text s).
  unfold Json.dumps, cache_data. rewrite encode_dict.
  cbn [fields_text Json.encode].
  rewrite !plain_text_app, !encode_str_plain. reflexivity.
Qed.

End CacheText.
